(** * Delhi street-food recommender: the context / prompt / response pipeline

    A shallow embedding of [context_loader.py], [prompt_builder.py],
    [kiro_client.py] and [recommendation_engine.py], followed by the
    properties of the pipeline.

    Conventions of the embedding.
    - A Python [str] is held as the [string] of its UTF-8 bytes.  Byte-wise
      lexicographic order on UTF-8 coincides with code-point order, so
      [sorted] is exact; the separators, prefixes and patterns the program
      searches for are ASCII or whole characters, so searching the bytes finds
      what searching the characters finds.
    - What depends on the interpreter's Unicode tables is not fixed here:
      [str.strip], [str.lower], [str.split()] and the class [\d] of [re]
      are operations of the [Runtime] the pipeline is parameterised by, known
      only through laws that hold of them in every version of the tables.
    - A Python exception is a value [Exn cls msg], [msg] being [str(e)]; a
      call that may raise returns a [result].  Every class that occurs
      derives from [Exception], so [except Exception] catches them all.
    - Objects with mutable attributes (the loader, the builder, the client
      with its cache, the engine) are records, passed to a method and
      returned by it.
    - The world outside the process is an explicit argument: the file at
      each path with its modification time and content, the outcome of each
      HTTP request, the environment variables.
    - [json.loads], [json.dumps] and [hashlib.md5] are library code and
      belong to the [Runtime] too; the examples run on an implementation of
      the [Runtime] given further down. *)

From Stdlib Require Import ZArith Ascii String SpecFloat.
From stdpp Require Import base option list sorting strings pretty gmap.

Local Open Scope Z_scope.

(** ** Python values, exceptions and [str] methods *)

Module Py.

(** Exception classes raised somewhere in the four modules or by the
    library calls they make.  All of them derive from [Exception]. *)
Inductive exn_class : Set :=
| Exception
| ValueError
| TypeError
| AttributeError
| KeyError
| IndexError
| FileNotFoundError
| OSError
| JSONDecodeError
| Timeout
| ConnectionError.

(** [msg] is what [str(e)] evaluates to. *)
Record exn : Set := Exn { cls : exn_class; msg : string }.

Inductive result (A : Type) : Type :=
| Ok (a : A)
| Raise (e : exn).
Arguments Ok {A} a.
Arguments Raise {A} e.

Definition bind {A B} (m : result A) (k : A -> result B) : result B :=
  match m with
  | Ok a => k a
  | Raise e => Raise e
  end.

(** [try: body except Exception as e: handler(e)] *)
Definition try_except {A} (body : result A) (handler : exn -> result A)
  : result A :=
  match body with
  | Ok a => Ok a
  | Raise e => handler e
  end.

Definition is_ok {A} (m : result A) : bool :=
  match m with Ok _ => true | Raise _ => false end.

(** *** Characters *)

Definition code (a : ascii) : N := N_of_ascii a.

(** The white space of the ASCII range: TAB, LF, VT, FF, CR, FS, GS, RS, US
    and the space. *)
Definition ascii_space (a : ascii) : bool :=
  let n := code a in
  ((9 <=? n) && (n <=? 13) || (28 <=? n) && (n <=? 32))%N.

(** The digits [0] to [9]. *)
Definition ascii_digit (a : ascii) : bool :=
  let n := code a in ((48 <=? n) && (n <=? 57))%N.

(** A printable character of the ASCII range other than the space. *)
Definition graphic (a : ascii) : bool :=
  let n := code a in ((33 <=? n) && (n <=? 126))%N.

(** A byte that is a character of the ASCII range by itself. *)
Definition is_ascii (a : ascii) : bool := (code a <? 128)%N.

(** Lower case within the ASCII range. *)
Definition ascii_lower_char (a : ascii) : ascii :=
  let n := code a in
  if ((65 <=? n) && (n <=? 90))%N then ascii_of_N (n + 32) else a.

Definition eqc (a b : ascii) : bool := Ascii.eqb a b.

(** *** Strings *)

Fixpoint ascii_lower (s : string) : string :=
  match s with
  | EmptyString => EmptyString
  | String a s' => String (ascii_lower_char a) (ascii_lower s')
  end.

(** Every byte is of the ASCII range. *)
Fixpoint all_ascii (s : string) : bool :=
  match s with
  | EmptyString => true
  | String a s' => is_ascii a && all_ascii s'
  end.

(** No byte is a printable character of the ASCII range other than the
    space. *)
Fixpoint no_graphic (s : string) : bool :=
  match s with
  | EmptyString => true
  | String a s' => negb (graphic a) && no_graphic s'
  end.

Definition len (s : string) : nat := String.length s.

(** [s[n:]] and [s[:n]] for [n >= 0] *)
Fixpoint str_drop (n : nat) (s : string) : string :=
  match n, s with
  | O, _ => s
  | S n', String _ s' => str_drop n' s'
  | S _, EmptyString => EmptyString
  end.

Fixpoint str_take (n : nat) (s : string) : string :=
  match n, s with
  | S n', String a s' => String a (str_take n' s')
  | _, _ => EmptyString
  end.

(** [s[:-n]] for [n > 0] *)
Definition str_drop_last (n : nat) (s : string) : string :=
  str_take (len s - n) s.

Definition startswith (s p : string) : bool := String.prefix p s.

Definition endswith (s p : string) : bool :=
  (len p <=? len s)%nat && String.eqb (str_drop (len s - len p) s) p.

(** [sub in s] *)
Fixpoint contains (s sub : string) : bool :=
  String.prefix sub s ||
  match s with
  | EmptyString => false
  | String _ s' => contains s' sub
  end.

(** [s.split(sep)] for a non-empty separator: [cur] collects, reversed,
    the characters of the piece being read. *)
Fixpoint split_go (sep : string) (fuel : nat) (cur : string) (s : string)
  : list string :=
  match fuel with
  | O => [String.rev cur]
  | S fuel' =>
      match s with
      | EmptyString => [String.rev cur]
      | String a s' =>
          if String.prefix sep s
          then String.rev cur :: split_go sep fuel' EmptyString (str_drop (len sep) s)
          else split_go sep fuel' (String a cur) s'
      end
  end.

Definition split (s sep : string) : list string :=
  split_go sep (S (len s)) EmptyString s.

Definition join (sep : string) (l : list string) : string :=
  String.concat sep l.

(** [x in l] for a list of strings *)
Definition str_in (x : string) (l : list string) : bool :=
  bool_decide (x ∈ l).

(** [l[:n]] *)
Definition slice_to {A} (n : nat) (l : list A) : list A := take n l.

(** *** Decoded JSON: the Python values [json.loads] builds *)

#[warnings="-register-all"]
Inductive pyval : Set :=
| PNone
| PBool (b : bool)
| PInt (z : Z)
| PFloat (f : spec_float)
| PStr (s : string)
| PList (l : list pyval)
| PDict (d : list (string * pyval)).

(** [d.get(k)]: insertion-ordered dict with unique keys. *)
Fixpoint dict_lookup (k : string) (d : list (string * pyval)) : option pyval :=
  match d with
  | [] => None
  | (k', v) :: d' => if String.eqb k k' then Some v else dict_lookup k d'
  end.

(** [d.get(k, dflt)] *)
Definition dict_get (k : string) (dflt : pyval) (d : list (string * pyval))
  : pyval :=
  match dict_lookup k d with
  | Some v => v
  | None => dflt
  end.

(** [d[k] = v] *)
Fixpoint dict_set (k : string) (v : pyval) (d : list (string * pyval))
  : list (string * pyval) :=
  match d with
  | [] => [(k, v)]
  | (k', v') :: d' =>
      if String.eqb k k' then (k', v) :: d' else (k', v') :: dict_set k v d'
  end.

(** [bool(v)] *)
Definition truthy (v : pyval) : bool :=
  match v with
  | PNone => false
  | PBool b => b
  | PInt z => negb (z =? 0)
  | PFloat (S754_zero _) => false
  | PFloat _ => true
  | PStr s => negb (String.eqb s "")
  | PList l => match l with [] => false | _ => true end
  | PDict d => match d with [] => false | _ => true end
  end.

(** [type(v).__name__] *)
Definition type_name (v : pyval) : string :=
  match v with
  | PNone => "NoneType"
  | PBool _ => "bool"
  | PInt _ => "int"
  | PFloat _ => "float"
  | PStr _ => "str"
  | PList _ => "list"
  | PDict _ => "dict"
  end.

(** [v == s] for a [str] [s]: only an equal [str] compares equal. *)
Definition eq_str (v : pyval) (s : string) : bool :=
  match v with
  | PStr s' => String.eqb s' s
  | _ => false
  end.

(** [v in l] for a list [l] of [str] *)
Definition val_in (v : pyval) (l : list string) : bool :=
  existsb (eq_str v) l.

(** [a or b] *)
Definition por (a b : pyval) : pyval := if truthy a then a else b.

(** *** What the interpreter and its library provide

    The [str] methods that consult the Unicode character database, the
    digit class of [re], and the library calls [json.loads],
    [json.dumps(_, indent=2)] and [hashlib.md5(_).hexdigest()].  The
    pipeline is modelled over any implementation of them.  Of the first
    group only what the laws below say is used; each law holds of Python's
    [str] whatever the version of the database, since every white-space
    character outside the ASCII range is encoded by bytes above 127 and no
    character changes when it is lowered twice.
    - [strip s] is [s.strip()], [lower s] is [s.lower()], [split_ws s] is
      [s.split()].
    - [decimal s] is what is left of [s] after its first character when that
      character is in the class [\d] (a decimal digit of any script), and
      [None] otherwise.
    - [json_loads] returns the decoded value or the exception the decoder
      raises. *)
Class Runtime : Type := {
  strip : string -> string;
  lower : string -> string;
  split_ws : string -> list string;
  decimal : string -> option string;
  json_loads : string -> result pyval;
  json_dumps : pyval -> string;
  md5_hexdigest : string -> string;
  (** Stripping the empty string, and stripping twice. *)
  strip_nil : strip "" = "";
  strip_idem : forall s, strip (strip s) = strip s;
  (** A string that strips to nothing holds white space only, so none of
      its bytes is a printable ASCII character. *)
  strip_blank : forall s, strip s = "" -> no_graphic s = true;
  (** A string that starts and ends with a printable ASCII character other
      than the space is left as it is. *)
  strip_graphic :
    forall a s b,
      graphic a = true -> graphic b = true ->
      strip (String a s +:+ String b "") = String a s +:+ String b "";
  (** ASCII white space at either end is removed with the rest. *)
  strip_space_l :
    forall a s, ascii_space a = true -> strip (String a s) = strip s;
  strip_space_r :
    forall a s, ascii_space a = true -> strip (s +:+ String a "") = strip s;
  (** Lowering removes no character, changes nothing when done twice, and
      on ASCII text is the lowering of the letters [A] to [Z]. *)
  lower_nil : forall s, lower s = "" -> s = "";
  lower_idem : forall s, lower (lower s) = lower s;
  lower_ascii : forall s, all_ascii s = true -> lower s = ascii_lower s }.

End Py.

Export Py.

Global Instance result_ret : MRet result := @Ok.
Global Instance result_bind : MBind result := fun A B k m => bind m k.

(** ** The operations of the ASCII range

    [str.strip], [str.lower], [str.split()] and [\d] as they act on ASCII
    text: bytes above 127 are neither white space, nor letters with a lower
    case, nor digits.  They agree with the interpreter on every text whose
    white space, capitals and digits are ASCII, and make the [Runtime] the
    examples run on. *)

Module AsciiText.

Fixpoint lstrip (s : string) : string :=
  match s with
  | EmptyString => EmptyString
  | String a s' => if ascii_space a then lstrip s' else s
  end.

(** [rstrip]: drop the trailing run of whitespace. *)
Fixpoint rstrip (s : string) : string :=
  match s with
  | EmptyString => EmptyString
  | String a s' =>
      match rstrip s' with
      | EmptyString => if ascii_space a then EmptyString else String a EmptyString
      | r => String a r
      end
  end.

Definition strip (s : string) : string := rstrip (lstrip s).

(** Every character is whitespace. *)
Fixpoint all_space (s : string) : bool :=
  match s with
  | EmptyString => true
  | String a s' => ascii_space a && all_space s'
  end.

(** [s.split()]: the maximal runs of non-whitespace characters. *)
Fixpoint split_ws_go (cur : option string) (s : string) : list string :=
  let flush :=
    match cur with
    | Some c => [String.rev c]
    | None => []
    end in
  match s with
  | EmptyString => flush
  | String a s' =>
      if ascii_space a then flush ++ split_ws_go None s'
      else split_ws_go (Some (String a (default EmptyString cur))) s'
  end.

Definition split_ws (s : string) : list string := split_ws_go None s.

Definition decimal (s : string) : option string :=
  match s with
  | String a s' => if ascii_digit a then Some s' else None
  | EmptyString => None
  end.

End AsciiText.

(** ** The fragment of [re] the knowledge-document parser uses

    A backtracking matcher in continuation-passing style: [mt r k s c] matches
    [r] at the head of [s] and hands the rest of the input and the groups
    captured so far to [k]; alternatives are tried in order, so the first
    success is the match Python reports.  [Chr p] is one character of the
    ASCII range, or one byte of a longer character where the class does not
    tell the bytes of one character apart ([[^#]] and [.]); [Cls rest] is
    one character of a class that does, given by what it leaves of the
    input. *)

Module Re.

Inductive re : Type :=
| Eps
| Chr (p : ascii -> bool)
| Cls (rest : string -> option string)
| Seq (r1 r2 : re)
| Alt (r1 r2 : re)
| Star (greedy : bool) (r : re)
| Group (i : nat) (r : re)
| Look (r : re)
| EndZ.

(** Captured groups, most recent first. *)
Definition caps : Type := list (nat * string).

Fixpoint group (i : nat) (c : caps) : string :=
  match c with
  | [] => ""
  | (j, s) :: c' => if (i =? j)%nat then s else group i c'
  end.

Fixpoint lit (s : string) : re :=
  match s with
  | EmptyString => Eps
  | String a s' => Seq (Chr (eqc a)) (lit s')
  end.

(** [r+], [r*], [r*?] *)
Definition plus (r : re) : re := Seq r (Star true r).
Definition star (r : re) : re := Star true r.
Definition lazy_star (r : re) : re := Star false r.

(** [[^xy]] and, under [re.DOTALL], [.] *)
Definition none_of (l : list ascii) : re :=
  Chr (fun a => negb (existsb (eqc a) l)).
Definition any : re := Chr (fun _ => true).

Definition nl : ascii := ascii_of_N 10.

Fixpoint seq (l : list re) : re :=
  match l with
  | [] => Eps
  | [r] => r
  | r :: l' => Seq r (seq l')
  end.

Definition kont : Type := string -> caps -> option (string * caps).

Fixpoint mt (r : re) (k : kont) (s : string) (c : caps)
  : option (string * caps) :=
  match r with
  | Eps => k s c
  | Chr p =>
      match s with
      | String a s' => if p a then k s' c else None
      | EmptyString => None
      end
  | Cls rest =>
      match rest s with
      | Some s' => k s' c
      | None => None
      end
  | Seq r1 r2 => mt r1 (mt r2 k) s c
  | Alt r1 r2 =>
      match mt r1 k s c with
      | Some x => Some x
      | None => mt r2 k s c
      end
  | Star greedy r1 =>
      (fix loop (n : nat) (s : string) (c : caps) {struct n} :=
         let more :=
           match n with
           | O => None
           | S n' =>
               mt r1 (fun s' c' =>
                        if (len s' <? len s)%nat then loop n' s' c' else None)
                  s c
           end in
         if greedy
         then match more with Some x => Some x | None => k s c end
         else match k s c with Some x => Some x | None => more end)
        (len s) s c
  | Group i r1 =>
      mt r1 (fun s' c' => k s' ((i, str_take (len s - len s') s) :: c')) s c
  | Look r1 =>
      match mt r1 (fun s' c' => Some (s', c')) s c with
      | Some _ => k s c
      | None => None
      end
  | EndZ =>
      match s with
      | EmptyString => k s c
      | String _ _ => None
      end
  end.

(** [re.match(r, s)]: the groups (group 0 is the whole match) and the input
    left after the match. *)
Definition match_at (r : re) (s : string) : option (string * caps) :=
  mt (Group 0 r) (fun s' c => Some (s', c)) s [].

Definition re_match (r : re) (s : string) : option caps :=
  snd <$> match_at r s.

(** [re.search(r, s)]: the leftmost match. *)
Fixpoint re_search (r : re) (s : string) : option caps :=
  match match_at r s with
  | Some (_, c) => Some c
  | None =>
      match s with
      | EmptyString => None
      | String _ s' => re_search r s'
      end
  end.

(** [re.findall(r, s)]: the non-overlapping matches from left to right, each
    as its groups. *)
Fixpoint findall_go (r : re) (fuel : nat) (s : string) : list caps :=
  match fuel with
  | O => []
  | S fuel' =>
      let skip :=
        match s with
        | EmptyString => []
        | String _ s' => findall_go r fuel' s'
        end in
      match match_at r s with
      | Some (s', c) =>
          c :: (if (len s' <? len s)%nat then findall_go r fuel' s' else skip)
      | None => skip
      end
  end.

Definition re_findall (r : re) (s : string) : list caps :=
  findall_go r (S (len s)) s.

End Re.

(** ** context_loader.py *)

Module ContextLoader.
Import Re.

(** One entry of [food_options[area]]: the dict with keys [name], [details],
    [price]. *)
Record FoodItem : Set := mkFoodItem {
  fi_name : string;
  fi_details : string;
  fi_price : string }.

(** One entry of [time_recommendations]. *)
Record TimeRec : Set := mkTimeRec {
  best_areas : string;
  recommended_foods : string;
  tr_raw_content : string }.

(** One entry of [budget_categories]. *)
Record BudgetCat : Set := mkBudgetCat {
  bc_price_range : string;
  bc_details : string }.

(** The context dict.  A field is [None] when the key is absent, so that the
    [k in context] tests of the consumers keep their meaning; the loader
    always sets the seven keys. *)
Record Context : Type := mkContext {
  raw_content : option string;
  areas : option (list string);
  food_options : option (gmap string (list FoodItem));
  time_recommendations : option (gmap string TimeRec);
  budget_categories : option (gmap string BudgetCat);
  response_guidelines : option (list string);
  local_tips : option (list string) }.

(** [not context]: the dict has no key. *)
Definition context_is_empty (c : Context) : bool :=
  match raw_content c, areas c, food_options c, time_recommendations c,
        budget_categories c, response_guidelines c, local_tips c with
  | None, None, None, None, None, None, None => true
  | _, _, _, _, _, _, _ => false
  end.

(** [context.get('areas', [])] *)
Definition get_areas (c : Context) : list string := default [] (areas c).

(** [context.get('food_options', {}).get(area, [])] *)
Definition get_area_foods (c : Context) (area : string) : list FoodItem :=
  default [] (default ∅ (food_options c) !! area).

(** The knowledge file as the loader sees it: its modification time and
    what [open(...).read()] gives. *)
Record File : Set := mkFile {
  mtime : Z;
  read : result string }.

(** The file system: the file at each path, if any. *)
Definition FS : Type := string -> option File.

(** The loader object. *)
Record t : Type := mkLoader {
  context_file_path : string;
  _cached_context : option Context;
  _file_modified_time : option Z }.

Definition __init__ (context_file_path : string) : t :=
  mkLoader context_file_path None None.

(** The test that guards the reload: nothing was loaded yet, or the
    modification time differs from the one recorded at the last load. *)
Definition needs_reload (self : t) (f : File) : Prop :=
  _cached_context self = None ∨ _file_modified_time self ≠ Some (mtime f).

Definition default_path : string := ".kiro/specs/delhi-street-food-app/product.md".

Section WithRuntime.
Context {rt : Runtime}.

(** [r'### ([^#\n]+)'] *)
Definition area_pattern : re :=
  seq [lit "### "; Group 1 (plus (none_of ["#"%char; nl]))].

(** [r'\*\*([^*]+)\*\*:'] *)
Definition bold_label_pattern : re :=
  seq [lit "**"; Group 1 (plus (none_of ["*"%char])); lit "**:"].

(** [r'- \*\*([^*]+)\*\*:([^-\n]+)'] *)
Definition food_pattern : re :=
  seq [lit "- **"; Group 1 (plus (none_of ["*"%char])); lit "**:";
       Group 2 (plus (none_of ["-"%char; nl]))].

(** [r'₹[\d-]+'] *)
Definition price_pattern : re :=
  seq [lit "₹"; plus (Alt (Cls decimal) (Chr (eqc "-"%char)))].

(** [for x in xs: y = x.strip(); if y and y not in areas: areas.append(y)] *)
Definition add_area (acc : list string) (x : string) : list string :=
  let y := strip x in
  if negb (String.eqb y "") && negb (str_in y acc) then (acc ++ [y]) else acc.

(** [sorted(list(set(l)))]: the order in which [set] enumerates does not
    matter, the elements are pairwise distinct when they are sorted. *)
Definition sorted_set (l : list string) : list string :=
  merge_sort String.le (remove_dups l).

Definition _extract_areas (content : string) : list string :=
  let matches := group 1 <$> re_findall area_pattern content in
  let areas := foldl add_area [] matches in
  let central_areas := group 1 <$> re_findall bold_label_pattern content in
  let areas := foldl add_area areas central_areas in
  sorted_set areas.

(** State of the line scan of [_extract_food_options]. *)
Definition food_state : Type := option string * gmap string (list FoodItem).

Definition food_step (st : food_state) (line : string) : food_state :=
  let '(current_area, food_options) := st in
  let '(current_area, food_options) :=
    match re_match area_pattern line with
    | Some m =>
        let a := strip (group 1 m) in
        (Some a,
         match food_options !! a with
         | None => <[a := []]> food_options
         | Some _ => food_options
         end)
    | None => (current_area, food_options)
    end in
  match re_match food_pattern line, current_area with
  | Some m, Some a =>
      if String.eqb a "" then (current_area, food_options)
      else
        let food_name := strip (group 1 m) in
        let details := strip (group 2 m) in
        let price :=
          match re_search price_pattern details with
          | Some pm => group 0 pm
          | None => "Price varies"
          end in
        (current_area,
         <[a := (default [] (food_options !! a) ++
                 [mkFoodItem food_name details price])]> food_options)
  | _, _ => (current_area, food_options)
  end.

(** Some line of the document starts with an area heading. *)
Definition has_area_heading (content : string) : bool :=
  existsb (fun line => bool_decide (is_Some (re_match area_pattern line)))
          (split content (String nl "")).

Definition _extract_food_options (content : string)
  : gmap string (list FoodItem) :=
  snd (foldl food_step (None, ∅) (split content (String nl ""))).

(** [rf'### {time_period}[^#]*?\n(.*?)(?=###|\Z)'] with [re.DOTALL] *)
Definition time_pattern (time_period : string) : re :=
  seq [lit "### "; lit time_period; lazy_star (none_of ["#"%char]);
       Chr (eqc nl); Group 1 (lazy_star any); Look (Alt (lit "###") EndZ)].

(** [r'\*\*Best Areas\*\*:([^\n]+)'] and its siblings *)
Definition labelled_line (label : string) : re :=
  seq [lit label; Group 1 (plus (none_of [nl]))].

Definition time_sections : list string :=
  ["Morning"; "Afternoon"; "Evening"; "Late Night"].

Definition time_step (content : string) (time_recs : gmap string TimeRec)
  (time_period : string) : gmap string TimeRec :=
  match re_search (time_pattern time_period) content with
  | Some m =>
      let section_content := group 1 m in
      let best_areas :=
        match re_search (labelled_line "**Best Areas**:") section_content with
        | Some am => strip (group 1 am)
        | None => ""
        end in
      let recommended :=
        match re_search (labelled_line "**Recommended**:") section_content with
        | Some rm => strip (group 1 rm)
        | None => ""
        end in
      <[lower time_period :=
          mkTimeRec best_areas recommended (strip section_content)]> time_recs
  | None => time_recs
  end.

Definition _extract_time_recommendations (content : string)
  : gmap string TimeRec :=
  foldl (time_step content) ∅ time_sections.

(** The budget heading pattern, with [re.DOTALL]: [### ], then group 1 made
    of [[^#\n]*], [(?:Budget|Range|Premium)] and [[^#\n]*], then [\n],
    group 2 [.*?] and the lookahead [(?=###|\Z)]. *)
Definition budget_pattern : re :=
  seq [lit "### ";
       Group 1 (seq [star (none_of ["#"%char; nl]);
                     Alt (lit "Budget") (Alt (lit "Range") (lit "Premium"));
                     star (none_of ["#"%char; nl])]);
       Chr (eqc nl); Group 2 (lazy_star any); Look (Alt (lit "###") EndZ)].

Definition budget_step (budget_cats : gmap string BudgetCat) (m : caps)
  : gmap string BudgetCat :=
  let category := group 1 m in
  let details := group 2 m in
  let price_range :=
    match re_search price_pattern details with
    | Some pm => group 0 pm
    | None => ""
    end in
  <[lower (strip category) := mkBudgetCat price_range (strip details)]>
    budget_cats.

Definition _extract_budget_categories (content : string)
  : gmap string BudgetCat :=
  foldl budget_step ∅ (re_findall budget_pattern content).

(** [r'## Response Guidelines\n(.*?)(?=##|\Z)'] with [re.DOTALL] *)
Definition guidelines_pattern : re :=
  seq [lit "## Response Guidelines"; Chr (eqc nl); Group 1 (lazy_star any);
       Look (Alt (lit "##") EndZ)].

(** [r'- ([^\n]+)'] *)
Definition bullet_pattern : re :=
  seq [lit "- "; Group 1 (plus (none_of [nl]))].

Definition _extract_response_guidelines (content : string) : list string :=
  match re_search guidelines_pattern content with
  | Some m => group 1 <$> re_findall bullet_pattern (group 1 m)
  | None => []
  end.

Definition tip_patterns : list re :=
  [labelled_line "*Tip*:"; labelled_line "*Warning*:";
   labelled_line "*Note*:"; labelled_line "*Best Practice*:"].

Definition _extract_local_tips (content : string) : list string :=
  foldl (fun tips pattern =>
           (tips ++ ((fun m => strip (group 1 m)) <$> re_findall pattern content)))
        [] tip_patterns.

Definition missing_field (field : string) : exn :=
  Exn ValueError ("Missing required context field: " +:+ field).

(** The three required fields are tested in the order [areas],
    [food_options], [response_guidelines]; an absent key and an empty value
    fail alike. *)
Definition _validate_context (context : Context) : result unit :=
  _ ← match areas context with
      | None | Some [] => Raise (missing_field "areas")
      | Some _ => Ok tt
      end;
  _ ← match food_options context with
      | None => Raise (missing_field "food_options")
      | Some m =>
          if bool_decide (m = ∅) then Raise (missing_field "food_options")
          else Ok tt
      end;
  _ ← match response_guidelines context with
      | None | Some [] => Raise (missing_field "response_guidelines")
      | Some _ => Ok tt
      end;
  _ ← (if (length (default [] (areas context)) =? 0)%nat
       then Raise (Exn ValueError "No Delhi areas found in context")
       else Ok tt);
  if (length (default [] (response_guidelines context)) =? 0)%nat
  then Raise (Exn ValueError "No response guidelines found in context")
  else Ok tt.

Definition build_context (content : string) : Context :=
  {| raw_content := Some content;
     areas := Some (_extract_areas content);
     food_options := Some (_extract_food_options content);
     time_recommendations := Some (_extract_time_recommendations content);
     budget_categories := Some (_extract_budget_categories content);
     response_guidelines := Some (_extract_response_guidelines content);
     local_tips := Some (_extract_local_tips content) |}.

Definition _parse_context_file (f : File) : result Context :=
  try_except
    (content ← read f;
     if String.eqb (strip content) ""
     then Raise (Exn ValueError "Product context file is empty")
     else
       let context := build_context content in
       _ ← _validate_context context;
       Ok context)
    (fun e => Raise (Exn Exception ("Error parsing context file: " +:+ msg e))).

(** Returns what the call returns or raises, and the loader afterwards. *)
Definition load_product_context (fs : FS) (self : t) : result Context * t :=
  let body : result (Context * t) :=
    match fs (context_file_path self) with
    | None =>
        Raise (Exn FileNotFoundError
                 ("Product context file not found: " +:+ context_file_path self))
    | Some f =>
        let current_modified_time := mtime f in
        match _cached_context self with
        | Some cached =>
            if bool_decide (_file_modified_time self ≠ Some current_modified_time)
            then
              context ← _parse_context_file f;
              Ok (context,
                  mkLoader (context_file_path self) (Some context)
                           (Some current_modified_time))
            else Ok (cached, self)
        | None =>
            context ← _parse_context_file f;
            Ok (context,
                mkLoader (context_file_path self) (Some context)
                         (Some current_modified_time))
        end
    end in
  match body with
  | Ok (context, self') => (Ok context, self')
  | Raise e =>
      (Raise (Exn Exception ("Error loading product context: " +:+ msg e)), self)
  end.

End WithRuntime.
End ContextLoader.

(** ** prompt_builder.py *)

Module PromptBuilder.
Import ContextLoader.

Record UserQuery : Set := mkUserQuery {
  area : string;
  time_preference : string;
  food_preferences : string;
  budget_category : string }.

(** The builder object: its one attribute. *)
Record t : Set := mkBuilder { system_instructions : string }.

Definition lf : string := String Re.nl "".
Definition dq : string := String (ascii_of_N 34) "".
Definition quoted (s : string) : string := dq +:+ s +:+ dq.

Definition _get_system_instructions : string :=
  "You are a Delhi street food expert and local guide. You have deep knowledge of Delhi's street food scene and speak like a local Delhiite. Your job is to provide authentic, practical recommendations based ONLY on the local knowledge provided to you.

CRITICAL RULES:
- Use ONLY the information provided in the CONTEXT section below
- Never use external knowledge or make up information
- Respond like a friendly local Delhi person who knows the real street food scene
- Include practical tips about timing, crowds, and hygiene
- Use local expressions and slang when appropriate
- Always mention prices in Indian Rupees (₹)
- If you don't have information about a specific area or food, say so honestly".

Definition __init__ : t := mkBuilder _get_system_instructions.

Section WithRuntime.
Context {rt : Runtime}.

Definition _build_system_section (self : t) : string :=
  "SYSTEM INSTRUCTIONS:" +:+ lf +:+ system_instructions self.

Definition bullet (s : string) : string := "- " +:+ s.

Definition _build_context_section (context : Context) : string :=
  let context_parts : list string :=
    match raw_content context with
    | Some raw => ["=== COMPLETE LOCAL KNOWLEDGE BASE ==="; raw]
    | None => []
    end in
  let context_parts := (context_parts ++ [lf +:+ "=== QUICK REFERENCE ==="]) in
  let context_parts :=
    match areas context with
    | Some (a :: l) =>
        (context_parts ++ ["Available Areas: " +:+ join ", " (a :: l)])
    | _ => context_parts
    end in
  let context_parts :=
    match response_guidelines context with
    | Some (g :: l) =>
        (context_parts ++ ["Response Guidelines:"] ++ (bullet <$> g :: l))
    | _ => context_parts
    end in
  let context_parts :=
    match local_tips context with
    | Some (x :: l) =>
        (context_parts ++ ["Local Tips:"] ++ (bullet <$> slice_to 5 (x :: l)))
    | _ => context_parts
    end in
  "CONTEXT:" +:+ lf +:+ join lf context_parts.

Definition nonempty (s : string) : bool := negb (String.eqb s "").

Definition _create_natural_query (user_query : UserQuery) : string :=
  let query_parts : list string :=
    if nonempty (area user_query) && nonempty (time_preference user_query)
    then ["Street food recommendations for " +:+ area user_query +:+ " during "
            +:+ lower (time_preference user_query)]
    else if nonempty (area user_query)
    then ["Street food recommendations for " +:+ area user_query]
    else [] in
  let query_parts :=
    if nonempty (food_preferences user_query)
    then (query_parts ++ ["looking for " +:+ food_preferences user_query])
    else query_parts in
  let query_parts :=
    if nonempty (budget_category user_query)
    then (query_parts ++
          ["with " +:+ lower (budget_category user_query) +:+ " budget"])
    else query_parts in
  match query_parts with
  | [] => "General street food recommendations"
  | _ => join ", " query_parts
  end.

Definition _build_user_query_section (user_query : UserQuery) : string :=
  let query_parts :=
    ["USER QUERY:";
     "Area: " +:+ area user_query;
     "Time: " +:+ time_preference user_query;
     "Food Preferences: " +:+ food_preferences user_query;
     "Budget: " +:+ budget_category user_query] in
  let natural_query := _create_natural_query user_query in
  join lf (query_parts ++ ["Natural Query: " +:+ natural_query]).

Definition _build_response_format_section : string :=
  join lf
    ["RESPONSE FORMAT:";
     "Please provide your recommendations in the following JSON structure:";
     "";
     "{";
     "  " +:+ quoted "area" +:+ ": " +:+ quoted "requested area name" +:+ ",";
     "  " +:+ quoted "recommendations" +:+ ": [";
     "    {";
     "      " +:+ quoted "food_name" +:+ ": " +:+ quoted "name of the food item" +:+ ",";
     "      " +:+ quoted "location" +:+ ": "
       +:+ quoted "specific location or area within the locality" +:+ ",";
     "      " +:+ quoted "price_range" +:+ ": "
       +:+ quoted "price in ₹ format (e.g., ₹70-90)" +:+ ",";
     "      " +:+ quoted "crowd_info" +:+ ": "
       +:+ quoted "timing and crowd information" +:+ ",";
     "      " +:+ quoted "local_tip" +:+ ": " +:+ quoted "practical local advice" +:+ ",";
     "      " +:+ quoted "hygiene_rating" +:+ ": "
       +:+ quoted "Green/Yellow/Red signal based on local knowledge";
     "    }";
     "  ],";
     "  " +:+ quoted "alternative_areas" +:+ ": ["
       +:+ quoted "list of nearby areas if no good options in requested area" +:+ "],";
     "  " +:+ quoted "local_context" +:+ ": "
       +:+ quoted "additional local insights and practical advice";
     "}";
     "";
     "IMPORTANT:";
     "- Respond ONLY with valid JSON";
     "- Include 3-5 recommendations if available";
     "- Use local Delhi expressions and tone in the text fields";
     "- Base everything on the provided context";
     "- If information is not available, mention it honestly"].

(** The membership test on [context['areas']] at the end of the source
    function has an empty body. *)
Definition _validate_inputs (context : Context) (user_query : UserQuery)
  : result unit :=
  if context_is_empty context
  then Raise (Exn ValueError "Context cannot be empty")
  else if negb (nonempty (area user_query))
  then Raise (Exn ValueError "User query must include an area")
  else Ok tt.

(** [build_prompt] returns the payload (or raises) together with the builder
    object after the call. *)
Definition build_prompt (context : Context) (user_query : UserQuery) (self : t)
  : result string * t :=
  (try_except
     (_ ← _validate_inputs context user_query;
      let prompt_parts :=
        [_build_system_section self;
         _build_context_section context;
         _build_user_query_section user_query;
         _build_response_format_section] in
      Ok (join (lf +:+ lf) prompt_parts))
     (fun e => Raise (Exn Exception ("Error building prompt: " +:+ msg e))),
   self).

Definition build_simple_prompt (context : Context) (area preferences : string)
  (self : t) : result string * t :=
  build_prompt context (mkUserQuery area "Evening" preferences "Mid-range") self.

End WithRuntime.
End PromptBuilder.

(** ** kiro_client.py *)

Module KiroClient.

(** The dataclasses.  Python does not check the annotated types: a field
    holds whatever value the decoded reply had under that key. *)
Record FoodRecommendation : Set := mkFoodRecommendation {
  food_name : pyval;
  location : pyval;
  price_range : pyval;
  crowd_info : pyval;
  local_tip : pyval;
  hygiene_rating : pyval }.

Record RecommendationResponse : Set := mkRecommendationResponse {
  area : pyval;
  recommendations : list FoodRecommendation;
  alternative_areas : pyval;
  local_context : pyval }.

(** The client object. *)
Record t : Type := mkClient {
  api_key : option string;
  api_url : string;
  timeout : Z;
  max_retries : nat;
  retry_delay : Z;
  _response_cache : gmap string RecommendationResponse }.

(** [a or b] for optional strings: [None] and the empty string are falsy. *)
Definition opt_or (a b : option string) : option string :=
  match a with
  | Some (String _ _) => a
  | _ => b
  end.

(** [getenv] is [os.getenv]. *)
Definition __init__ (getenv : string -> option string)
  (api_key api_url : option string) : t :=
  {| api_key := opt_or api_key (getenv "KIRO_API_KEY");
     api_url := default ""
                  (opt_or api_url
                     (Some (default "https://api.kiro.ai/v1" (getenv "KIRO_API_URL"))));
     timeout := 30;
     max_retries := 3;
     retry_delay := 1;
     _response_cache := ∅ |}.

(** What one [requests.post] does: it returns a response (status code and
    body text) or raises. *)
Inductive http_outcome : Set :=
| Response (status_code : Z) (text : string)
| Raises (e : exn).

(** The service during one call of the client: the outcome of each attempt,
    counted from 0. *)
Definition Service : Type := nat -> http_outcome.

(** What the request loop does that the outside can observe. *)
Inductive event : Set :=
| Post (attempt : nat)
| Sleep (seconds : Z).

(** The pauses among the events, in order. *)
Definition sleeps (evs : list event) : list Z :=
  omap (fun ev => match ev with Sleep d => Some d | Post _ => None end) evs.

(** The number of requests among the events. *)
Definition attempts (evs : list event) : nat :=
  length (omap (fun ev => match ev with Post n => Some n | Sleep _ => None end) evs).

Definition no_attribute (v : pyval) (attr : string) : exn :=
  Exn AttributeError
      ("'" +:+ type_name v +:+ "' object has no attribute '" +:+ attr +:+ "'").

(** [v.get(k, dflt)] on a decoded value: only a dict has [get]. *)
Definition val_get (v : pyval) (k : string) (dflt : pyval) : result pyval :=
  match v with
  | PDict d => Ok (dict_get k dflt d)
  | _ => Raise (no_attribute v "get")
  end.

(** [v[0]]; of a [str] it is a one-character [str]. *)
Definition val_first (v : pyval) : result pyval :=
  match v with
  | PList (x :: _) => Ok x
  | PList [] => Raise (Exn IndexError "list index out of range")
  | PStr (String a _) => Ok (PStr (String a ""))
  | PStr EmptyString => Raise (Exn IndexError "string index out of range")
  | PDict _ => Raise (Exn KeyError "0")
  | _ => Raise (Exn TypeError
                  ("'" +:+ type_name v +:+ "' object is not subscriptable"))
  end.

(** [result.get('choices', [{}])[0].get('message', {}).get('content', '')] *)
Definition extract_content (result : pyval) : Py.result pyval :=
  choices ← val_get result "choices" (PList [PDict []]);
  first ← val_first choices;
  message ← val_get first "message" (PDict []);
  val_get message "content" (PStr "").

Definition failed_after (self : t) (last_error : option string) : exn :=
  Exn Exception
      ("Failed to get response from Kiro after " +:+ pretty (max_retries self)
       +:+ " attempts. Last error: " +:+ default "None" last_error).

Section WithRuntime.
Context {rt : Runtime}.

(** The [try] block of the loop body: it returns the content of a 200
    reply, asks for the next attempt after a pause (429 with attempts left),
    or raises. *)
Definition attempt_body (self : t) (http : Service) (attempt : nat)
  : result (pyval + Z) :=
  match http attempt with
  | Raises e => Raise e
  | Response status_code text =>
      if status_code =? 200 then
        result ← json_loads text;
        content ← extract_content result;
        Ok (inl content)
      else if status_code =? 429 then
        if (attempt + 1 <? max_retries self)%nat
        then Ok (inr (retry_delay self * 2 ^ Z.of_nat attempt))
        else Raise (Exn Exception "Rate limit exceeded")
      else
        Raise (Exn Exception
                 ("API error: " +:+ pretty status_code +:+ " - " +:+ text))
  end.

(** [for attempt in range(self.max_retries)] from [attempt] on, [remaining]
    iterations being left, followed by the [raise] after the loop.  The three
    handlers of the loop body: [Timeout] and [ConnectionError] record the
    error, pause when an attempt is left and go on; any other exception
    records its text and leaves the loop. *)
Fixpoint request_loop (self : t) (http : Service) (remaining attempt : nat)
  (last_error : option string) : result pyval * list event :=
  match remaining with
  | O => (Raise (failed_after self last_error), [])
  | S remaining' =>
      let continue (last_error : option string) (pause : list event) :=
        let '(r, evs) :=
          request_loop self http remaining' (S attempt) last_error in
        (r, Post attempt :: pause ++ evs) in
      let retry_pause :=
        if (attempt + 1 <? max_retries self)%nat
        then [Sleep (retry_delay self)] else [] in
      match attempt_body self http attempt with
      | Ok (inl content) => (Ok content, [Post attempt])
      | Ok (inr seconds) => continue last_error [Sleep seconds]
      | Raise e =>
          match cls e with
          | Timeout => continue (Some "Request timeout") retry_pause
          | ConnectionError => continue (Some "Connection error") retry_pause
          | _ => (Raise (failed_after self (Some (msg e))), [Post attempt])
          end
      end
  end.

Definition mock_rec (food_name location price_range crowd_info local_tip
                       hygiene_rating : string) : pyval :=
  PDict [("food_name", PStr food_name); ("location", PStr location);
         ("price_range", PStr price_range); ("crowd_info", PStr crowd_info);
         ("local_tip", PStr local_tip); ("hygiene_rating", PStr hygiene_rating)].

Definition mock_area (prompt : string) : string :=
  if contains prompt "Area:" then
    match filter (fun line => startswith line "Area:" = true)
                 (split prompt (String Re.nl "")) with
    | area_line :: _ =>
        match split area_line "Area:" with
        | _ :: x :: _ => strip x
        | _ => "Connaught Place"
        end
    | [] => "Connaught Place"
    end
  else "Connaught Place".

Definition _get_mock_response (prompt : string) : string :=
  let area := mock_area prompt in
  json_dumps
    (PDict
       [("area", PStr area);
        ("recommendations",
         PList
           [mock_rec "Momos" "Janpath Lane" "₹70-90"
              "High after 6 PM, best before 7 PM"
              "Avoid the stalls right at metro exit, walk a bit inside for better quality"
              "Green";
            mock_rec "Chaat" "Palika Bazaar area" "₹60-120"
              "Busy throughout evening"
              "Try the bhel puri, it's fresh and tasty"
              "Yellow";
            mock_rec "Kulfi" "Connaught Circus" "₹40-80"
              "Popular after dinner"
              "Perfect for ending your street food tour"
              "Green"]);
        ("alternative_areas", PList [PStr "Karol Bagh"; PStr "Lajpat Nagar"]);
        ("local_context",
         PStr ("Bhai, " +:+ area +:+
               " is great for street food! Evening time is perfect, just watch out for the crowds. The momos here are famous among locals."))]).

(** [_send_kiro_request]: without a key the canned reply, no request; with
    a key the request loop. *)
Definition _send_kiro_request (self : t) (http : Service) (prompt : string)
  : result pyval * list event :=
  match api_key self with
  | None | Some EmptyString => (Ok (PStr (_get_mock_response prompt)), [])
  | Some _ => request_loop self http (max_retries self) 0 None
  end.

(** [for rec_data in raw_recs]: the items the loop visits.  Iterating a
    [str] or a dict yields strings. *)
Definition iter_items (v : pyval) : result (list pyval) :=
  match v with
  | PList l => Ok l
  | PStr s => Ok ((fun a => PStr (String a "")) <$> list_ascii_of_string s)
  | PDict d => Ok ((fun kv => PStr kv.1) <$> d)
  | _ => Raise (Exn TypeError
                  ("'" +:+ type_name v +:+ "' object is not iterable"))
  end.

(** The loop body of [_parse_response]: an item that is not a dict is
    skipped, a dict gives a recommendation with each missing key defaulted. *)
Definition parse_rec (rec_data : pyval) : option FoodRecommendation :=
  match rec_data with
  | PDict d =>
      Some {| food_name := dict_get "food_name" (PStr "Unknown Food") d;
              location := dict_get "location" (PStr "Location not specified") d;
              price_range := dict_get "price_range" (PStr "Price varies") d;
              crowd_info := dict_get "crowd_info" (PStr "Crowd info not available") d;
              local_tip := dict_get "local_tip" (PStr "No specific tips") d;
              hygiene_rating := dict_get "hygiene_rating" (PStr "Yellow") d |}
  | _ => None
  end.

(** The cleaning at the head of [_parse_response]: an enclosing code fence
    is removed. *)
Definition clean_reply (raw : string) : string :=
  let cleaned_response := strip raw in
  let cleaned_response :=
    if startswith cleaned_response "```json"
    then str_drop 7 cleaned_response else cleaned_response in
  let cleaned_response :=
    if endswith cleaned_response "```"
    then str_drop_last 3 cleaned_response else cleaned_response in
  strip cleaned_response.

(** The [try] block of [_parse_response]. *)
Definition parse_body (raw_response : pyval) : result RecommendationResponse :=
  match raw_response with
  | PStr raw =>
      data ← json_loads (clean_reply raw);
      match data with
      | PDict d =>
          raw_recs ← iter_items (dict_get "recommendations" (PList []) d);
          Ok {| area := dict_get "area" (PStr "Unknown Area") d;
                recommendations := omap parse_rec raw_recs;
                alternative_areas := dict_get "alternative_areas" (PList []) d;
                local_context :=
                  dict_get "local_context"
                           (PStr "No additional context provided") d |}
      | _ => Raise (Exn ValueError "Response is not a JSON object")
      end
  | _ => Raise (no_attribute raw_response "strip")
  end.

Definition _parse_response (raw_response : pyval)
  : result RecommendationResponse :=
  match parse_body raw_response with
  | Ok response => Ok response
  | Raise e =>
      match cls e with
      | JSONDecodeError =>
          Raise (Exn Exception ("Invalid JSON response from Kiro: " +:+ msg e))
      | _ => Raise (Exn Exception ("Error parsing Kiro response: " +:+ msg e))
      end
  end.

Definition _create_fallback_response (error_message : string)
  : RecommendationResponse :=
  let fallback_rec :=
    {| food_name := PStr "Service Temporarily Unavailable";
       location := PStr "Please try again later";
       price_range := PStr "N/A";
       crowd_info := PStr "Our AI expert is taking a chai break";
       local_tip := PStr ("Error: " +:+ error_message);
       hygiene_rating := PStr "Yellow" |} in
  {| area := PStr "Error";
     recommendations := [fallback_rec];
     alternative_areas := PList [];
     local_context :=
       PStr "Sorry yaar, our Delhi expert AI is having some technical issues. Please try again in a few minutes!" |}.

Definition _get_cache_key (prompt : string) : string := md5_hexdigest prompt.

Definition set_cache (self : t) (c : gmap string RecommendationResponse) : t :=
  {| api_key := api_key self; api_url := api_url self; timeout := timeout self;
     max_retries := max_retries self; retry_delay := retry_delay self;
     _response_cache := c |}.

Definition clear_cache (self : t) : t := set_cache self ∅.

(** What a call of [query] leaves behind: the value returned, the client
    afterwards and the requests and pauses made. *)
Record Outcome : Type := mkOutcome {
  returned : RecommendationResponse;
  client : t;
  events : list event }.

(** The [try] block of [query]: the response, the cache afterwards and the
    events, or the exception that reaches the handler together with the
    events before it. *)
Definition query_body (self : t) (http : Service) (prompt : string)
  : result (RecommendationResponse * t) * list event :=
  let cache_key := _get_cache_key prompt in
  match _response_cache self !! cache_key with
  | Some cached => (Ok (cached, self), [])
  | None =>
      let '(sent, evs) := _send_kiro_request self http prompt in
      (raw_response ← sent;
       parsed_response ← _parse_response raw_response;
       Ok (parsed_response,
           set_cache self (<[cache_key := parsed_response]> (_response_cache self))),
       evs)
  end.

Definition query (self : t) (http : Service) (prompt : string) : Outcome :=
  match query_body self http prompt with
  | (Ok (response, self'), evs) => mkOutcome response self' evs
  | (Raise e, evs) => mkOutcome (_create_fallback_response (msg e)) self evs
  end.

(** What reaches the handler of [query]: the request fails, or the reply it
    returns cannot be parsed. *)
Definition fails_with (self : t) (http : Service) (prompt : string) (e : exn)
  : Prop :=
  (_send_kiro_request self http prompt).1 = Raise e
  ∨ ∃ raw, (_send_kiro_request self http prompt).1 = Ok raw
           ∧ _parse_response raw = Raise e.

(** [health_check] *)
Definition health_check (self : t) (http : Service) : bool :=
  is_ok (_send_kiro_request self http "Test connection").1.

End WithRuntime.
End KiroClient.

(** ** recommendation_engine.py *)

Module RecommendationEngine.
Import ContextLoader.
Import KiroClient.
Export PromptBuilder(UserQuery, mkUserQuery).

(** The engine object. *)
Record t : Type := mkEngine {
  context_loader : ContextLoader.t;
  prompt_builder : PromptBuilder.t;
  kiro_client : KiroClient.t;
  _context_cache : option Context }.

Definition __init__ (getenv : string -> option string)
  (context_file_path : option string) : t :=
  {| context_loader :=
       match context_file_path with
       | Some (String a p) => ContextLoader.__init__ (String a p)
       | _ => ContextLoader.__init__ ContextLoader.default_path
       end;
     prompt_builder := PromptBuilder.__init__;
     kiro_client := KiroClient.__init__ getenv None None;
     _context_cache := None |}.

Definition set_loader (self : t) (l : ContextLoader.t) : t :=
  mkEngine l (prompt_builder self) (kiro_client self) (_context_cache self).
Definition set_builder (self : t) (b : PromptBuilder.t) : t :=
  mkEngine (context_loader self) b (kiro_client self) (_context_cache self).
Definition set_client (self : t) (k : KiroClient.t) : t :=
  mkEngine (context_loader self) (prompt_builder self) k (_context_cache self).
Definition set_context_cache (self : t) (c : option Context) : t :=
  mkEngine (context_loader self) (prompt_builder self) (kiro_client self) c.

(** The world one engine call runs in. *)
Record World : Type := mkWorld {
  fs : FS;
  http : Service }.

Section WithRuntime.
Context {rt : Runtime}.

Definition _get_context (w : World) (self : t) : result Context * t :=
  match _context_cache self with
  | Some context => (Ok context, self)
  | None =>
      let '(r, loader) := load_product_context (fs w) (context_loader self) in
      match r with
      | Ok context =>
          (Ok context, set_context_cache (set_loader self loader) (Some context))
      | Raise e => (Raise e, set_loader self loader)
      end
  end.

(** [for x in l: if p(x): return x] *)
Definition first_match (p : string -> bool) (l : list string) : option string :=
  head (filter (fun x => p x = true) l).

(** [area.lower() == available_area.lower()] *)
Definition same_ignoring_case (area available_area : string) : bool :=
  String.eqb (lower area) (lower available_area).

(** [area.lower() in available_area.lower()
     or available_area.lower() in area.lower()] *)
Definition partial_match (area available_area : string) : bool :=
  contains (lower available_area) (lower area)
  || contains (lower area) (lower available_area).

Definition _process_area_input (area : string) (context : Context)
  : result string :=
  if String.eqb area "" then Raise (Exn ValueError "Area is required")
  else
    let area := strip area in
    let available_areas := get_areas context in
    if str_in area available_areas then Ok area
    else
      match first_match (same_ignoring_case area) available_areas with
      | Some available_area => Ok available_area
      | None =>
          match first_match (partial_match area) available_areas with
          | Some available_area => Ok available_area
          | None => Ok area
          end
      end.

(** [any(word in available_lower for word in area_lower.split())] is true
    as soon as one whitespace-separated word of the input occurs in the
    candidate. *)
Definition _find_similar_areas (area : string) (available_areas : list string)
  : list string :=
  let area_lower := lower area in
  filter (fun available_area =>
            let available_lower := lower available_area in
            (contains available_lower area_lower
             || contains area_lower available_lower
             || existsb (fun word => contains available_lower word)
                        (split_ws area_lower)) = true)
         available_areas.

Definition _get_nearby_areas (area : string) (context : Context) : list string :=
  slice_to 3 (filter (fun a => a ≠ area) (get_areas context)).

Definition _create_fallback_recommendations (user_query : UserQuery)
  (context : Context) : RecommendationResponse :=
  let area := PromptBuilder.area user_query in
  let area_foods := get_area_foods context area in
  let recommendations :=
    match area_foods with
    | _ :: _ =>
        (fun food_data =>
           {| food_name := PStr (fi_name food_data);
              location := PStr (area +:+ " area");
              price_range := PStr (fi_price food_data);
              crowd_info :=
                PStr ("Popular during "
                      +:+ lower (PromptBuilder.time_preference user_query));
              local_tip := PStr (fi_details food_data);
              hygiene_rating := PStr "Yellow" |})
          <$> slice_to 3 area_foods
    | [] =>
        [ {| food_name := PStr "Local Street Food";
             location := PStr (area +:+ " market area");
             price_range := PStr "Rs.50-150";
             crowd_info := PStr "Check local timings";
             local_tip := PStr "Ask locals for the best spots in this area";
             hygiene_rating := PStr "Yellow" |} ]
    end in
  {| KiroClient.area := PStr area;
     recommendations := recommendations;
     alternative_areas := PList (PStr <$> _get_nearby_areas area context);
     local_context :=
       PStr ("Limited information available for " +:+ area
             +:+ ". These are general recommendations.") |}.

Definition valid_ratings : list string := ["Green"; "Yellow"; "Red"].

Definition clean_rec (user_query : UserQuery) (rec : FoodRecommendation)
  : FoodRecommendation :=
  {| food_name := por (food_name rec) (PStr "Street Food Item");
     location :=
       por (location rec) (PStr ("Near " +:+ PromptBuilder.area user_query));
     price_range := por (price_range rec) (PStr "Price varies");
     crowd_info := por (crowd_info rec) (PStr "Crowd info not available");
     local_tip := por (local_tip rec) (PStr "Enjoy the local flavors!");
     hygiene_rating :=
       if val_in (hygiene_rating rec) valid_ratings
       then hygiene_rating rec else PStr "Yellow" |}.

(** [_post_process_response] returns a value and may assign to fields of
    the [response] object it was given.  The first component is the value
    returned; the second is the [response] object after the call. *)
Definition _post_process_response (response : RecommendationResponse)
  (user_query : UserQuery) (context : Context)
  : RecommendationResponse * RecommendationResponse :=
  match recommendations response with
  | [] => (_create_fallback_recommendations user_query context, response)
  | _ :: _ =>
      let cleaned_recommendations :=
        clean_rec user_query <$> recommendations response in
      let area' :=
        if negb (truthy (KiroClient.area response))
           || eq_str (KiroClient.area response) "Unknown Area"
        then PStr (PromptBuilder.area user_query)
        else KiroClient.area response in
      let response' :=
        {| KiroClient.area := area';
           recommendations := cleaned_recommendations;
           alternative_areas := alternative_areas response;
           local_context := local_context response |} in
      (response', response')
  end.

Definition _create_error_response (error_message area : string)
  : RecommendationResponse :=
  let error_rec :=
    {| food_name := PStr "Error";
       location := PStr "Service unavailable";
       price_range := PStr "N/A";
       crowd_info := PStr "Please try again";
       local_tip := PStr ("Error: " +:+ error_message);
       hygiene_rating := PStr "Red" |} in
  {| KiroClient.area := PStr area;
     recommendations := [error_rec];
     alternative_areas := PList [];
     local_context :=
       PStr "Sorry, we're having technical difficulties. Please try again later." |}.

Definition default_areas : list string :=
  ["Connaught Place"; "Lajpat Nagar"; "Chandni Chowk";
   "Karol Bagh"; "Greater Kailash"; "Alaknanda"].

(** The object [query] returns is the one the client keeps in its cache
    under the prompt's key, unless it is the fallback built on a failure
    (which is never stored); an assignment to its fields is therefore seen
    through the cache. *)
Definition write_through (k : KiroClient.t) (prompt : string)
  (response' : RecommendationResponse) : KiroClient.t :=
  let cache_key := _get_cache_key prompt in
  match _response_cache k !! cache_key with
  | Some _ => set_cache k (<[cache_key := response']> (_response_cache k))
  | None => k
  end.

(** The value returned, the engine afterwards and the requests and pauses
    made. *)
Definition get_recommendations (w : World)
  (area time_preference food_preferences budget_category : string) (self : t)
  : RecommendationResponse * t * list event :=
  let '(rc, self) := _get_context w self in
  match rc with
  | Raise e => (_create_error_response (msg e) area, self, [])
  | Ok context =>
      match _process_area_input area context with
      | Raise e => (_create_error_response (msg e) area, self, [])
      | Ok processed_area =>
          let user_query :=
            mkUserQuery processed_area time_preference food_preferences
                        budget_category in
          let '(rp, builder) :=
            PromptBuilder.build_prompt context user_query (prompt_builder self) in
          let self := set_builder self builder in
          match rp with
          | Raise e => (_create_error_response (msg e) area, self, [])
          | Ok prompt =>
              let out := query (kiro_client self) (http w) prompt in
              let '(processed_response, response') :=
                _post_process_response (returned out) user_query context in
              (processed_response,
               set_client self (write_through (client out) prompt response'),
               events out)
          end
      end
  end.

Definition get_areas_list (w : World) (self : t) : list string * t :=
  let '(rc, self) := _get_context w self in
  match rc with
  | Ok context => (get_areas context, self)
  | Raise _ => (default_areas, self)
  end.

Definition refresh_context (self : t) : t :=
  set_client (set_context_cache self None) (clear_cache (kiro_client self)).

End WithRuntime.
End RecommendationEngine.

(** ** The rest of the four modules *)

(** The accessors of the loader ([context_loader.py], after
    [_validate_context]). *)
Module ContextLoaderApi.
Import Re ContextLoader.

Section WithRuntime.
Context {rt : Runtime}.

(** [context[k]] on a key that the dict may lack. *)
Definition item {A} (k : string) (v : option A) : result A :=
  match v with
  | Some x => Ok x
  | None => Raise (Exn KeyError ("'" +:+ k +:+ "'"))
  end.

Definition get_areas_list (fs : FS) (self : t) : result (list string) * t :=
  let '(r, self) := load_product_context fs self in
  (context ← r; item "areas" (areas context), self).

Definition get_area_foods (fs : FS) (area : string) (self : t)
  : result (list FoodItem) * t :=
  let '(r, self) := load_product_context fs self in
  (context ← r;
   food_options ← item "food_options" (food_options context);
   Ok (default [] (food_options !! area)),
   self).

(** The value is the entry of the period, [None] standing for the empty
    dict returned when there is none. *)
Definition get_time_recommendations (fs : FS) (time_period : string) (self : t)
  : result (option TimeRec) * t :=
  let '(r, self) := load_product_context fs self in
  (context ← r;
   time_recommendations ←
     item "time_recommendations" (time_recommendations context);
   Ok (time_recommendations !! lower time_period),
   self).

(** The area named by a line that starts with an area heading. *)
Definition heading_of (line : string) : option string :=
  (fun m => strip (group 1 m)) <$> re_match area_pattern line.

(** The lines of a document, as [content.split('\n')] gives them. *)
Definition lines (content : string) : list string :=
  split content (String nl "").

End WithRuntime.
End ContextLoaderApi.

(** The public queries of the engine that [get_recommendations] does not
    use ([recommendation_engine.py]). *)
Module EngineQueries.
Import ContextLoader KiroClient RecommendationEngine.

Definition valid_times : list string :=
  ["Morning"; "Afternoon"; "Evening"; "Late Night"].
Definition valid_budgets : list string :=
  ["Budget-friendly"; "Mid-range"; "Premium"].

Section WithRuntime.
Context {rt : Runtime}.

(** The message stored under ['area'], if any. *)
Definition area_error (area : string) (context : Context) : option string :=
  if String.eqb area "" || String.eqb (strip area) ""
  then Some "Please select an area"
  else if negb (str_in area (get_areas context)) then
    match _find_similar_areas area (get_areas context) with
    | [] => Some ("Area '" +:+ area +:+ "' not available in our database")
    | similar_areas =>
        Some ("Area '" +:+ area +:+ "' not found. Did you mean: "
              +:+ join ", " (slice_to 3 similar_areas) +:+ "?")
    end
  else None.

Definition put_error (k : string) (v : option string)
  (errors : gmap string string) : gmap string string :=
  match v with
  | Some m => <[k := m]> errors
  | None => errors
  end.

(** The dict of errors and the engine afterwards.  Nothing after
    [_get_context] can raise, so the handler is reached with an empty
    dict. *)
Definition validate_user_input (w : World)
  (area time_preference food_preferences budget_category : string) (self : t)
  : gmap string string * t :=
  let '(rc, self) := _get_context w self in
  match rc with
  | Raise e => ({["general" := "Validation error: " +:+ msg e]}, self)
  | Ok context =>
      let errors := put_error "area" (area_error area context) ∅ in
      let errors :=
        put_error "time_preference"
          (if str_in time_preference valid_times then None
           else Some ("Time preference must be one of: "
                      +:+ join ", " valid_times))
          errors in
      let errors :=
        put_error "budget_category"
          (if str_in budget_category valid_budgets then None
           else Some ("Budget category must be one of: "
                      +:+ join ", " valid_budgets))
          errors in
      (errors, self)
  end.

(** The dict [get_area_info] returns; [ai_error] is the ['error'] key, which
    only the handler sets. *)
Record AreaInfo : Type := mkAreaInfo {
  ai_area : string;
  ai_available : bool;
  ai_error : option string;
  ai_food_options : list FoodItem;
  ai_time_recommendations : gmap string TimeRec }.

Definition get_area_info (w : World) (area : string) (self : t)
  : AreaInfo * t :=
  let '(rc, self) := _get_context w self in
  match rc with
  | Ok context =>
      (mkAreaInfo area (str_in area (get_areas context)) None
                  (get_area_foods context area)
                  (default ∅ (time_recommendations context)),
       self)
  | Raise e => (mkAreaInfo area false (Some (msg e)) [] ∅, self)
  end.

(** [asdict(rec)] *)
Definition asdict (rec : FoodRecommendation) : pyval :=
  PDict [("food_name", food_name rec); ("location", location rec);
         ("price_range", price_range rec); ("crowd_info", crowd_info rec);
         ("local_tip", local_tip rec); ("hygiene_rating", hygiene_rating rec)].

Definition to_dict (response : RecommendationResponse) : pyval :=
  PDict [("area", KiroClient.area response);
         ("recommendations", PList (asdict <$> recommendations response));
         ("alternative_areas", alternative_areas response);
         ("local_context", local_context response)].

End WithRuntime.
End EngineQueries.

(** Notions used to state properties of the gateway. *)
Module Gateway.
Import KiroClient.

(** An outcome after which the request loop goes on to the next attempt:
    a 429 reply, a timeout or a connection error. *)
Definition retryable (o : http_outcome) : Prop :=
  match o with
  | Response status_code _ => status_code = 429
  | Raises e => cls e = Timeout ∨ cls e = ConnectionError
  end.

(** The value [_get_mock_response] serialises, for the area it found. *)
Definition mock_reply_value (area : string) : pyval :=
  PDict
    [("area", PStr area);
     ("recommendations",
      PList
        [mock_rec "Momos" "Janpath Lane" "₹70-90"
           "High after 6 PM, best before 7 PM"
           "Avoid the stalls right at metro exit, walk a bit inside for better quality"
           "Green";
         mock_rec "Chaat" "Palika Bazaar area" "₹60-120"
           "Busy throughout evening"
           "Try the bhel puri, it's fresh and tasty"
           "Yellow";
         mock_rec "Kulfi" "Connaught Circus" "₹40-80"
           "Popular after dinner"
           "Perfect for ending your street food tour"
           "Green"]);
     ("alternative_areas", PList [PStr "Karol Bagh"; PStr "Lajpat Nagar"]);
     ("local_context",
      PStr ("Bhai, " +:+ area +:+
            " is great for street food! Evening time is perfect, just watch out for the crowds. The momos here are famous among locals."))].

(** What the events of a request loop with [remaining] attempts left look
    like: at most that many requests, fewer pauses than requests, a request
    last, and pauses of the two kinds only. *)
Definition paced (self : t) (remaining : nat) (evs : list event) : Prop :=
  (attempts evs ≤ remaining)%nat
  ∧ (remaining = 0%nat → evs = [])
  ∧ ((0 < remaining)%nat →
     (length (sleeps evs) + 1 ≤ attempts evs)%nat
     ∧ ∃ evs0 k, evs = evs0 ++ [Post k])
  ∧ Forall (fun d => d = retry_delay self
                     ∨ ∃ i, (i + 1 < max_retries self)%nat
                            ∧ d = retry_delay self * 2 ^ Z.of_nat i)
           (sleeps evs).

(** The retry policy as the specification words it, for the refinement
    statement of the request loop: the pause that follows an attempt that
    failed and is tried again, geometric after a 429 reply and flat after a
    timeout or a connection error. *)
Definition policy_pause (self : t) (o : http_outcome) (attempt : nat) : Z :=
  match o with
  | Response _ _ => retry_delay self * 2 ^ Z.of_nat attempt
  | Raises _ => retry_delay self
  end.

(** The requests and pauses of a run whose attempts from [first] to [n - 1]
    were tried again and whose attempt [n] was the last: a pause after each
    attempt but the last. *)
Definition schedule_from (self : t) (http : Service) (first n : nat)
  : list event :=
  flat_map (fun i => [Post i; Sleep (policy_pause self (http i) i)])
           (seq first (n - first))
  ++ [Post n].

Definition schedule (self : t) (http : Service) (n : nat) : list event :=
  schedule_from self http 0 n.

(** A code fence around a reply. *)
Definition fenced (reply : string) : string :=
  "```json" +:+ String Re.nl "" +:+ reply +:+ String Re.nl "" +:+ "```".

End Gateway.

(** ** simple_backend.py *)

Module SimpleBackend.
Import Re.
Import ContextLoader(File, FS, mtime, read, area_pattern, sorted_set).

(** The context dict of the simplified engine: [last_updated] and [error]
    are the keys that only some of its three shapes have. *)
Record SimpleContext : Set := mkSimpleContext {
  raw_content : string;
  loaded : bool;
  last_updated : option Z;
  error : option string }.

Record t : Set := mkSimple {
  areas : list string;
  _context_cache : option SimpleContext;
  _context_file_path : string;
  _last_modified : option Z;
  context : SimpleContext }.

Definition initial_areas : list string :=
  ["Connaught Place"; "Lajpat Nagar"; "Chandni Chowk";
   "Karol Bagh"; "Greater Kailash"; "Alaknanda";
   "Pitampura"; "Rohini"; "Anand Vihar"; "Laxmi Nagar";
   "Rajouri Garden"; "Janakpuri"].

Definition not_loaded (error : option string) : SimpleContext :=
  mkSimpleContext "" false None error.

Section WithRuntime.
Context {rt : Runtime}.

(** The dict returned and the object afterwards.  An exception of
    [open] or [read] is raised before any attribute is assigned. *)
Definition _load_simple_context (fs : FS) (self : t) : SimpleContext * t :=
  match fs (_context_file_path self) with
  | None => (not_loaded None, self)
  | Some f =>
      let current_modified := mtime f in
      let reload :=
        match read f with
        | Raise e => (not_loaded (Some (msg e)), self)
        | Ok content =>
            let cache :=
              mkSimpleContext content true (Some current_modified) None in
            let areas_from_content :=
              group 1 <$> re_findall area_pattern content in
            let areas :=
              match areas_from_content with
              | [] => areas self
              | _ => sorted_set (areas_from_content ++ areas self)
              end in
            (cache,
             mkSimple areas (Some cache) (_context_file_path self)
                      (Some current_modified) (context self))
        end in
      match _context_cache self with
      | None => reload
      | Some cached =>
          if bool_decide (_last_modified self ≠ Some current_modified)
          then reload else (cached, self)
      end
  end.

Definition set_context (self : t) (c : SimpleContext) : t :=
  mkSimple (areas self) (_context_cache self) (_context_file_path self)
           (_last_modified self) c.

(** [self.context] is assigned last, from [_load_simple_context]; before
    that the attribute does not exist, and nothing reads it. *)
Definition __init__ (fs : FS) : t :=
  let self :=
    mkSimple initial_areas None ".kiro/specs/delhi-street-food-app/product.md"
             None (not_loaded None) in
  let '(c, self) := _load_simple_context fs self in
  set_context self c.

Definition refresh_context (fs : FS) (self : t) : bool * t :=
  let self :=
    mkSimple (areas self) None (_context_file_path self) None (context self) in
  let '(c, self) := _load_simple_context fs self in
  (loaded c, set_context self c).

Definition rec_dict (food_name location price_range crowd_info local_tip
                       hygiene_rating : string) : pyval :=
  PDict [("food_name", PStr food_name); ("location", PStr location);
         ("price_range", PStr price_range); ("crowd_info", PStr crowd_info);
         ("local_tip", PStr local_tip); ("hygiene_rating", PStr hygiene_rating)].

Definition area_recommendations (area : string) : list pyval :=
  if String.eqb area "Connaught Place" then
    [rec_dict "Momos" "Janpath Lane" "Rs.70-90"
       "High after 6 PM, best before 7 PM"
       "Avoid the stalls right at metro exit, walk a bit inside for better quality"
       "Green";
     rec_dict "Chaat" "Palika Bazaar area" "Rs.60-120"
       "Busy throughout evening" "Try the bhel puri, it's fresh and tasty"
       "Yellow";
     rec_dict "Kulfi" "Connaught Circus" "Rs.40-80" "Popular after dinner"
       "Perfect for ending your street food tour" "Green"]
  else if String.eqb area "Lajpat Nagar" then
    [rec_dict "Momos" "Central Market" "Rs.50-80" "Very high after 6 PM"
       "Famous Dolma Aunty momos - if you can find her!" "Green";
     rec_dict "Chole Bhature" "Main Market" "Rs.80-120"
       "Morning and evening rush" "Come hungry, the portions are huge"
       "Yellow"]
  else if String.eqb area "Chandni Chowk" then
    [rec_dict "Paranthe" "Paranthe Wali Gali" "Rs.60-120"
       "Extremely crowded, narrow lanes"
       "Go early morning or late evening, watch your belongings" "Yellow";
     rec_dict "Jalebis" "Old Famous Jalebi Wala" "Rs.40-80" "Always busy"
       "Get them fresh and hot, best in the morning" "Green"]
  else
    [rec_dict "Local Specialties" (area +:+ " market area") "Rs.50-150"
       "Check local timings" "Ask locals for the best spots in this area"
       "Yellow"].

(** The [try] block; on strings nothing in it raises, so the handler of the
    source is not reached. *)
Definition get_recommendations (self : t)
  (area time_preference food_preferences budget_category : string) : pyval :=
  PDict
    [("area", PStr area);
     ("recommendations", PList (area_recommendations area));
     ("alternative_areas",
      PList (PStr <$> slice_to 3 (filter (fun a => a ≠ area) (areas self))));
     ("local_context",
      PStr ("Bhai, " +:+ area +:+ " is great for street food! "
            +:+ lower time_preference
            +:+ " time is perfect, just watch out for the crowds. The food here is famous among locals."))].

Definition get_areas_list (self : t) : list string := areas self.

Definition valid_times : list string :=
  ["Morning"; "Afternoon"; "Evening"; "Late Night"].
Definition valid_budgets : list string :=
  ["Budget-friendly"; "Mid-range"; "Premium"].

Definition validate_user_input (self : t)
  (area time_preference food_preferences budget_category : string)
  : list string :=
  (if String.eqb area "" || negb (str_in area (areas self))
   then ["Please select a valid area"] else [])
  ++ (if str_in time_preference valid_times then []
      else ["Please select a valid time preference"])
  ++ (if str_in budget_category valid_budgets then []
      else ["Please select a valid budget category"]).

(** The module-level instance. *)
Definition recommendation_engine (fs : FS) : t := __init__ fs.

End WithRuntime.
End SimpleBackend.

(** ** app.py: the functions that do not draw *)

Module App.

Definition load_areas : list string :=
  ["Connaught Place"; "Lajpat Nagar"; "Chandni Chowk";
   "Karol Bagh"; "Greater Kailash"; "Alaknanda";
   "Pitampura"; "Rohini"; "Anand Vihar"; "Laxmi Nagar";
   "Rajouri Garden"; "Janakpuri"].

Section WithRuntime.
Context {rt : Runtime}.

Definition validate_user_input
  (area time_preference food_preferences budget_category : string)
  : list string :=
  (if String.eqb area "" || String.eqb (strip area) ""
   then ["Please select an area"] else [])
  ++ (if str_in time_preference SimpleBackend.valid_times then []
      else ["Please select a valid time preference"])
  ++ (if str_in budget_category SimpleBackend.valid_budgets then []
      else ["Please select a valid budget category"]).

End WithRuntime.
End App.

(** ** The library calls of the examples

    [Json] decodes and prints the fragment of JSON without fractional or
    exponent parts in numbers and without lone surrogate escapes; inside the
    fragment it builds the value [json.loads] builds and prints the text
    [json.dumps(_, indent=2)] prints.  The text of the decoder's error
    messages is not that of Python. *)

Module Json.

Definition chr (n : N) : ascii := ascii_of_N n.
Definition is_ws (a : ascii) : bool :=
  let n := code a in ((n =? 32) || (n =? 9) || (n =? 10) || (n =? 13))%N.

Fixpoint skip_ws (s : string) : string :=
  match s with
  | String a s' => if is_ws a then skip_ws s' else s
  | EmptyString => EmptyString
  end.

Definition hex_val (a : ascii) : option N :=
  let n := code a in
  if ((48 <=? n) && (n <=? 57))%N then Some (n - 48)%N
  else if ((97 <=? n) && (n <=? 102))%N then Some (n - 87)%N
  else if ((65 <=? n) && (n <=? 70))%N then Some (n - 55)%N
  else None.

Definition hex4 (a b c d : ascii) : option N :=
  x ← hex_val a; y ← hex_val b; z ← hex_val c; w ← hex_val d;
  Some (((x * 16 + y) * 16 + z) * 16 + w)%N.

(** The UTF-8 bytes of a code point. *)
Definition utf8 (cp : N) : string :=
  (if cp <? 128 then String (chr cp) ""
   else if cp <? 2048 then
     String (chr (192 + cp / 64)) (String (chr (128 + cp mod 64)) "")
   else if cp <? 65536 then
     String (chr (224 + cp / 4096))
       (String (chr (128 + (cp / 64) mod 64)) (String (chr (128 + cp mod 64)) ""))
   else
     String (chr (240 + cp / 262144))
       (String (chr (128 + (cp / 4096) mod 64))
          (String (chr (128 + (cp / 64) mod 64))
             (String (chr (128 + cp mod 64)) ""))))%N.

Definition simple_escape (e : ascii) : option ascii :=
  let n := code e in
  if (n =? 34)%N then Some (chr 34)
  else if (n =? 92)%N then Some (chr 92)
  else if (n =? 47)%N then Some (chr 47)
  else if (n =? 98)%N then Some (chr 8)
  else if (n =? 102)%N then Some (chr 12)
  else if (n =? 110)%N then Some (chr 10)
  else if (n =? 114)%N then Some (chr 13)
  else if (n =? 116)%N then Some (chr 9)
  else None.

(** The characters of a string literal after its opening quote; [acc] holds
    the decoded bytes so far, reversed. *)
Fixpoint string_body (fuel : nat) (acc : string) (s : string)
  : option (string * string) :=
  match fuel with
  | O => None
  | S fuel' =>
      match s with
      | EmptyString => None
      | String a s' =>
          if (code a =? 34)%N then Some (String.rev acc, s')
          else if (code a =? 92)%N then
            match s' with
            | String e s'' =>
                if (code e =? 117)%N then
                  match s'' with
                  | String h1 (String h2 (String h3 (String h4 s3))) =>
                      cp ← hex4 h1 h2 h3 h4;
                      if ((55296 <=? cp) && (cp <=? 56319))%N then
                        match s3 with
                        | String b (String u
                            (String l1 (String l2 (String l3 (String l4 s4))))) =>
                            lo ← hex4 l1 l2 l3 l4;
                            if ((code b =? 92) && (code u =? 117)
                                && (56320 <=? lo) && (lo <=? 57343))%N
                            then
                              string_body fuel'
                                (String.rev
                                   (utf8 (65536 + (cp - 55296) * 1024
                                          + (lo - 56320))%N) +:+ acc) s4
                            else None
                        | _ => None
                        end
                      else if ((56320 <=? cp) && (cp <=? 57343))%N then None
                      else string_body fuel' (String.rev (utf8 cp) +:+ acc) s3
                  | _ => None
                  end
                else
                  c ← simple_escape e;
                  string_body fuel' (String c acc) s''
            | EmptyString => None
            end
          else if (code a <? 32)%N then None
          else string_body fuel' (String a acc) s'
      end
  end.

Fixpoint digits (s : string) (acc : Z) : Z * string :=
  match s with
  | String a s' =>
      if ascii_digit a then digits s' (acc * 10 + Z.of_N (code a - 48)) else (acc, s)
  | EmptyString => (acc, s)
  end.

(** An integer literal; a fraction or an exponent after it leaves the
    fragment. *)
Definition number (s : string) : option (Z * string) :=
  let '(neg, s1) :=
    match s with
    | String a s' => if (code a =? 45)%N then (true, s') else (false, s)
    | EmptyString => (false, s)
    end in
  match s1 with
  | String a s' =>
      if ascii_digit a then
        let '(n, rest) :=
          if (code a =? 48)%N then (0, s') else digits s1 0 in
        match rest with
        | String c _ =>
            if ((code c =? 46) || (code c =? 101) || (code c =? 69))%N
            then None else Some (if neg then - n else n, rest)
        | EmptyString => Some (if neg then - n else n, rest)
        end
      else None
  | EmptyString => None
  end.

Definition after (lit : string) (s : string) : option string :=
  if String.prefix lit s then Some (str_drop (len lit) s) else None.

Fixpoint value (fuel : nat) (s : string) : option (pyval * string) :=
  match fuel with
  | O => None
  | S fuel' =>
      match s with
      | EmptyString => None
      | String a s' =>
          if (code a =? 34)%N then
            '(str, rest) ← string_body (S (len s')) "" s';
            Some (PStr str, rest)
          else if (code a =? 123)%N then
            match skip_ws s' with
            | String c rest =>
                if (code c =? 125)%N then Some (PDict [], rest)
                else members fuel' [] (skip_ws s')
            | EmptyString => None
            end
          else if (code a =? 91)%N then
            match skip_ws s' with
            | String c rest =>
                if (code c =? 93)%N then Some (PList [], rest)
                else elements fuel' [] (skip_ws s')
            | EmptyString => None
            end
          else
            match after "null" s, after "true" s, after "false" s,
                  after "NaN" s, after "Infinity" s, after "-Infinity" s with
            | Some rest, _, _, _, _, _ => Some (PNone, rest)
            | _, Some rest, _, _, _, _ => Some (PBool true, rest)
            | _, _, Some rest, _, _, _ => Some (PBool false, rest)
            | _, _, _, Some rest, _, _ => Some (PFloat S754_nan, rest)
            | _, _, _, _, Some rest, _ => Some (PFloat (S754_infinity false), rest)
            | _, _, _, _, _, Some rest => Some (PFloat (S754_infinity true), rest)
            | _, _, _, _, _, _ =>
                '(n, rest) ← number s; Some (PInt n, rest)
            end
      end
  end
with elements (fuel : nat) (acc : list pyval) (s : string)
  : option (pyval * string) :=
  match fuel with
  | O => None
  | S fuel' =>
      '(v, rest) ← value fuel' s;
      match skip_ws rest with
      | String c rest' =>
          if (code c =? 44)%N then elements fuel' (acc ++ [v]) (skip_ws rest')
          else if (code c =? 93)%N then Some (PList (acc ++ [v]), rest')
          else None
      | EmptyString => None
      end
  end
with members (fuel : nat) (acc : list (string * pyval)) (s : string)
  : option (pyval * string) :=
  match fuel with
  | O => None
  | S fuel' =>
      match s with
      | String q s' =>
          if (code q =? 34)%N then
            '(key, rest) ← string_body (S (len s')) "" s';
            match skip_ws rest with
            | String c rest' =>
                if (code c =? 58)%N then
                  '(v, rest'') ← value fuel' (skip_ws rest');
                  match skip_ws rest'' with
                  | String d rest3 =>
                      if (code d =? 44)%N
                      then members fuel' (dict_set key v acc) (skip_ws rest3)
                      else if (code d =? 125)%N
                      then Some (PDict (dict_set key v acc), rest3)
                      else None
                  | EmptyString => None
                  end
                else None
            | EmptyString => None
            end
          else None
      | EmptyString => None
      end
  end.

Definition loads (s : string) : result pyval :=
  match value (S (len s)) (skip_ws s) with
  | Some (v, rest) =>
      match skip_ws rest with
      | EmptyString => Ok v
      | String _ _ => Raise (Exn JSONDecodeError "Extra data")
      end
  | None => Raise (Exn JSONDecodeError "Expecting value")
  end.

(** *** Printing, as [json.dumps(v, indent=2)] does *)

Definition hex_digit (n : N) : ascii :=
  if (n <? 10)%N then chr (48 + n) else chr (87 + n).

(** [\uXXXX] *)
Definition u_escape (cp : N) : string :=
  String (chr 92) (String (chr 117)
    (String (hex_digit (cp / 4096)) (String (hex_digit ((cp / 256) mod 16))
       (String (hex_digit ((cp / 16) mod 16)) (String (hex_digit (cp mod 16)) ""))))).

Definition escaped (cp : N) : string :=
  (if cp =? 34 then String (chr 92) (String (chr 34) "")
   else if cp =? 92 then String (chr 92) (String (chr 92) "")
   else if cp =? 10 then String (chr 92) "n"
   else if cp =? 13 then String (chr 92) "r"
   else if cp =? 9 then String (chr 92) "t"
   else if cp =? 8 then String (chr 92) "b"
   else if cp =? 12 then String (chr 92) "f"
   else if (32 <=? cp) && (cp <? 128) then String (chr cp) ""
   else if cp <? 65536 then u_escape cp
   else u_escape (55296 + (cp - 65536) / 1024)
        +:+ u_escape (56320 + (cp - 65536) mod 1024))%N.

(** The body of a string literal: the bytes are read as UTF-8 and every
    code point outside printable ASCII is escaped. *)
Fixpoint escape (s : string) : string :=
  match s with
  | EmptyString => EmptyString
  | String a s1 =>
      let n := code a in
      if (n <? 192)%N then escaped n +:+ escape s1
      else
        match s1 with
        | EmptyString => escaped n
        | String b s2 =>
            let n2 := (code b - 128)%N in
            if (n <? 224)%N then escaped ((n - 192) * 64 + n2) +:+ escape s2
            else
              match s2 with
              | EmptyString => escaped n
              | String c s3 =>
                  let n3 := (code c - 128)%N in
                  if (n <? 240)%N
                  then escaped (((n - 224) * 64 + n2) * 64 + n3) +:+ escape s3
                  else
                    match s3 with
                    | EmptyString => escaped n
                    | String d s4 =>
                        escaped ((((n - 240) * 64 + n2) * 64 + n3) * 64
                                 + (code d - 128))
                        +:+ escape s4
                    end
              end
        end
  end.

Definition quote (s : string) : string :=
  String (chr 34) (escape s +:+ String (chr 34) "").

Fixpoint spaces (n : nat) : string :=
  match n with
  | O => ""
  | S n' => String (chr 32) (spaces n')
  end.

Definition lf : string := String (chr 10) "".

Definition block (level : nat) (opening closing : string) (items : list string)
  : string :=
  match items with
  | [] => opening +:+ closing
  | _ =>
      opening +:+ lf +:+ spaces (2 * S level)
      +:+ join ("," +:+ lf +:+ spaces (2 * S level)) items
      +:+ lf +:+ spaces (2 * level) +:+ closing
  end.

(** Floats other than zeros, NaN and the infinities are outside the
    fragment. *)
Definition float_repr (f : spec_float) : string :=
  match f with
  | S754_nan => "NaN"
  | S754_infinity false => "Infinity"
  | S754_infinity true => "-Infinity"
  | S754_zero true => "-0.0"
  | _ => "0.0"
  end.

Fixpoint dumps_at (level : nat) (v : pyval) : string :=
  match v with
  | PNone => "null"
  | PBool true => "true"
  | PBool false => "false"
  | PInt z => pretty z
  | PFloat f => float_repr f
  | PStr s => quote s
  | PList l =>
      block level "[" "]"
        ((fix items (l : list pyval) : list string :=
            match l with
            | [] => []
            | x :: l' => dumps_at (S level) x :: items l'
            end) l)
  | PDict d =>
      block level "{" "}"
        ((fix items (d : list (string * pyval)) : list string :=
            match d with
            | [] => []
            | (k, x) :: d' =>
                (quote k +:+ ": " +:+ dumps_at (S level) x) :: items d'
            end) d)
  end.

Definition dumps (v : pyval) : string := dumps_at 0 v.

End Json.

(** [hashlib.md5(s).hexdigest()], after RFC 1321. *)

Module Md5.

Definition w32 (x : Z) : Z := x mod 4294967296.

Definition rotl (x : Z) (n : Z) : Z :=
  w32 (Z.lor (Z.shiftl x n) (Z.shiftr x (32 - n))).

Definition K : list Z :=
  [
   3614090360; 3905402710; 606105819; 3250441966; 4118548399;
   1200080426; 2821735955; 4249261313; 1770035416; 2336552879;
   4294925233; 2304563134; 1804603682; 4254626195; 2792965006;
   1236535329; 4129170786; 3225465664; 643717713; 3921069994;
   3593408605; 38016083; 3634488961; 3889429448; 568446438;
   3275163606; 4107603335; 1163531501; 2850285829; 4243563512;
   1735328473; 2368359562; 4294588738; 2272392833; 1839030562;
   4259657740; 2763975236; 1272893353; 4139469664; 3200236656;
   681279174; 3936430074; 3572445317; 76029189; 3654602809;
   3873151461; 530742520; 3299628645; 4096336452; 1126891415;
   2878612391; 4237533241; 1700485571; 2399980690; 4293915773;
   2240044497; 1873313359; 4264355552; 2734768916; 1309151649;
   4149444226; 3174756917; 718787259; 3951481745 ].

Definition shifts : list Z :=
  [
   7; 12; 17; 22; 7; 12; 17; 22; 7; 12; 17; 22; 7; 12; 17; 22;
   5; 9; 14; 20; 5; 9; 14; 20; 5; 9; 14; 20; 5; 9; 14; 20;
   4; 11; 16; 23; 4; 11; 16; 23; 4; 11; 16; 23; 4; 11; 16; 23;
   6; 10; 15; 21; 6; 10; 15; 21; 6; 10; 15; 21; 6; 10; 15; 21 ].

Definition byte (a : ascii) : Z := Z.of_N (code a).

(** Little-endian bytes of [x], [n] of them. *)
Fixpoint le_bytes (n : nat) (x : Z) : list Z :=
  match n with
  | O => []
  | S n' => x mod 256 :: le_bytes n' (x / 256)
  end.

Definition padded (s : string) : list Z :=
  let bytes := byte <$> list_ascii_of_string s in
  let l := Z.of_nat (length bytes) in
  let zeros := Z.to_nat ((55 - l) mod 64) in
  bytes ++ [128] ++ replicate zeros 0 ++ le_bytes 8 (8 * l).

(** The 32-bit little-endian words of a list of bytes. *)
Fixpoint words (fuel : nat) (bytes : list Z) : list Z :=
  match fuel, bytes with
  | S fuel', b0 :: b1 :: b2 :: b3 :: rest =>
      (b0 + 256 * (b1 + 256 * (b2 + 256 * b3))) :: words fuel' rest
  | _, _ => []
  end.

Definition state : Type := Z * Z * Z * Z.

Definition round (M : list Z) (st : state) (i : nat) : state :=
  let '(a, b, c, d) := st in
  let '(f, g) :=
    if (i <? 16)%nat then
      (Z.lor (Z.land b c) (Z.land (w32 (Z.lnot b)) d), i)
    else if (i <? 32)%nat then
      (Z.lor (Z.land d b) (Z.land (w32 (Z.lnot d)) c), ((5 * i + 1) mod 16)%nat)
    else if (i <? 48)%nat then
      (Z.lxor b (Z.lxor c d), ((3 * i + 5) mod 16)%nat)
    else
      (Z.lxor c (Z.lor b (w32 (Z.lnot d))), ((7 * i) mod 16)%nat) in
  let f := w32 (f + a + default 0 (K !! i) + default 0 (M !! g)) in
  (d, w32 (b + rotl f (default 0 (shifts !! i))), b, c).

Definition block (st : state) (M : list Z) : state :=
  let '(a0, b0, c0, d0) := st in
  let '(a, b, c, d) := foldl (round M) st (seq 0 64) in
  (w32 (a0 + a), w32 (b0 + b), w32 (c0 + c), w32 (d0 + d)).

Fixpoint blocks (fuel : nat) (st : state) (ws : list Z) : state :=
  match fuel, ws with
  | S fuel', _ :: _ => blocks fuel' (block st (take 16 ws)) (drop 16 ws)
  | _, _ => st
  end.

Definition init : state := (1732584193, 4023233417, 2562383102, 271733878).

Definition hex_byte (b : Z) : string :=
  String (Json.hex_digit (Z.to_N (b / 16)))
         (String (Json.hex_digit (Z.to_N (b mod 16))) "").

Definition hexdigest (s : string) : string :=
  let ws := let p := padded s in words (length p) p in
  let '(a, b, c, d) := blocks (length ws) init ws in
  String.concat ""
    (hex_byte <$> (le_bytes 4 a ++ le_bytes 4 b ++ le_bytes 4 c ++ le_bytes 4 d)).

End Md5.

(** ** Concrete inputs used by the examples *)

Module Examples.
Import ContextLoader.

(** A small knowledge document with one area heading, two food lines, a tip
    and two guidelines. *)
Definition doc_small : string :=
  "# Delhi Street Food
### Connaught Place
- **Momos**: Janpath Lane, ₹70-90
- **Chaat**: Palika Bazaar area
*Tip*: go before 7 PM
## Response Guidelines
- Speak like a local
- Always mention prices
".

(** A document whose only area comes from a bold label: it has an area and
    a guideline but no area heading. *)
Definition doc_bold_only : string :=
  "**Momos**: tasty
## Response Guidelines
- Be local
".

Definition file_of (content : string) : File := mkFile 1700000000 (Ok content).

(** A file system holding [content] at the default path and nothing else. *)
Definition fs_with (content : string) : FS :=
  fun path =>
    if String.eqb path default_path then Some (file_of content) else None.

Definition fs_empty : FS := fun _ => None.

(** Clients as [KiroClient()] builds them, with and without a credential in
    the environment. *)
Definition env_with_key : string -> option string :=
  fun name => if String.eqb name "KIRO_API_KEY" then Some "sk-demo" else None.
Definition env_empty : string -> option string := fun _ => None.

Definition client_with_key : KiroClient.t :=
  KiroClient.__init__ env_with_key None None.
Definition client_without_key : KiroClient.t :=
  KiroClient.__init__ env_empty None None.

(** Services: every request is rate-limited; every request times out;
    the server answers 500. *)
Definition always_429 : KiroClient.Service :=
  fun _ => KiroClient.Response 429 "Too Many Requests".
Definition always_timeout : KiroClient.Service :=
  fun _ => KiroClient.Raises (Exn Timeout "Read timed out. (read timeout=30)").
Definition always_500 : KiroClient.Service :=
  fun _ => KiroClient.Response 500 "Internal Server Error".

Definition quoted := PromptBuilder.quoted.

(** A reply with one recommendation whose rating is outside the enum and
    one without a rating. *)
Definition reply_blue : string :=
  "{" +:+ quoted "area" +:+ ": " +:+ quoted "Karol Bagh" +:+ ", "
  +:+ quoted "recommendations" +:+ ": [{"
  +:+ quoted "food_name" +:+ ": " +:+ quoted "Pani Puri" +:+ ", "
  +:+ quoted "hygiene_rating" +:+ ": " +:+ quoted "Blue" +:+ "}, {"
  +:+ quoted "food_name" +:+ ": " +:+ quoted "Jalebi" +:+ "}]}".

(** A reply with one recommendation, without a rating. *)
Definition reply_jalebi : string :=
  "{" +:+ quoted "recommendations" +:+ ": [{"
  +:+ quoted "food_name" +:+ ": " +:+ quoted "Jalebi" +:+ "}]}".

(** A context whose only content is its list of areas. *)
Definition context_two_areas : Context :=
  mkContext None (Some ["Connaught Place"; "Lajpat Nagar"])
            None None None None None.

(** Engines as [RecommendationEngine()] builds them, and worlds holding the
    small document at the default path. *)
Definition engine_without_key : RecommendationEngine.t :=
  RecommendationEngine.__init__ env_empty None.
Definition engine_with_key : RecommendationEngine.t :=
  RecommendationEngine.__init__ env_with_key None.

Definition world_timeout : RecommendationEngine.World :=
  RecommendationEngine.mkWorld (fs_with doc_small) always_timeout.
Definition world_no_file : RecommendationEngine.World :=
  RecommendationEngine.mkWorld fs_empty always_timeout.

(** What the parser makes of the entry of [reply_jalebi]. *)
Definition rec_jalebi : KiroClient.FoodRecommendation :=
  {| KiroClient.food_name := PStr "Jalebi";
     KiroClient.location := PStr "Location not specified";
     KiroClient.price_range := PStr "Price varies";
     KiroClient.crowd_info := PStr "Crowd info not available";
     KiroClient.local_tip := PStr "No specific tips";
     KiroClient.hygiene_rating := PStr "Yellow" |}.

Definition prompt_small : string := "Area: Karol Bagh".

(** A document with an area, a time section and guidelines. *)
Definition doc_evening : string :=
  "### Karol Bagh
- **Chole Bhature**: Main road, ₹80-120
### Evening (5 PM - 9 PM)
**Best Areas**: Karol Bagh, Lajpat Nagar
**Recommended**: Chaat and momos
## Response Guidelines
- Speak like a local
".

(** The body of a 200 reply carrying [content] (a text without quotes or
    backslashes). *)
Definition chat_body (content : string) : string :=
  "{" +:+ quoted "choices" +:+ ": [{" +:+ quoted "message" +:+ ": {"
  +:+ quoted "content" +:+ ": " +:+ quoted content +:+ "}}]}".

(** A service that limits the first request and answers the second. *)
Definition limited_once : KiroClient.Service :=
  fun attempt =>
    match attempt with
    | O => KiroClient.Response 429 "Too Many Requests"
    | S _ => KiroClient.Response 200 (chat_body "[]")
    end.

(** A service whose 200 reply has an empty list of choices. *)
Definition no_choices : KiroClient.Service :=
  fun _ => KiroClient.Response 200 ("{" +:+ quoted "choices" +:+ ": []}").

End Examples.

(** * Properties *)

#[local] Set Warnings "-clear-no-such-hyp".

(** ** Strings *)

Module StrProps.

#[local] Arguments String.append : simpl nomatch.

Lemma len_app (s t : string) : len (s +:+ t) = (len s + len t)%nat.
Proof. induction s as [|a s IH]; simpl; [done|]. unfold len in *. simpl. lia. Qed.

Lemma app_assoc (s t u : string) : (s +:+ t) +:+ u = s +:+ (t +:+ u).
Proof. induction s as [|a s IH]; simpl; [done|]. by f_equal. Qed.

Lemma str_drop_app (s t : string) : str_drop (len s) (s +:+ t) = t.
Proof. induction s as [|a s IH]; simpl; [by destruct t|done]. Qed.

Lemma str_take_app (s t : string) : str_take (len s) (s +:+ t) = s.
Proof.
  induction s as [|a s IH]; simpl; [by destruct t|]. by rewrite IH.
Qed.

Lemma endswith_app (s p : string) : endswith (s +:+ p) p = true.
Proof.
  unfold endswith. rewrite len_app.
  replace (len s + len p - len p)%nat with (len s) by lia.
  rewrite str_drop_app, String.eqb_refl.
  by rewrite (proj2 (Nat.leb_le _ _)) by lia.
Qed.

Lemma str_drop_last_app (s p : string) : str_drop_last (len p) (s +:+ p) = s.
Proof.
  unfold str_drop_last. rewrite len_app.
  replace (len s + len p - len p)%nat with (len s) by lia.
  apply str_take_app.
Qed.

Lemma space_not_graphic (a : ascii) : ascii_space a = true → graphic a = false.
Proof.
  destruct a as [[] [] [] [] [] [] [] []]; cbv; congruence.
Qed.

Lemma no_graphic_head (a : ascii) (s : string) :
  graphic a = true → no_graphic (String a s) = false.
Proof. intros Ha. simpl. by rewrite Ha. Qed.

Lemma no_graphic_tail (a : ascii) (s : string) :
  no_graphic (String a s) = true → no_graphic s = true.
Proof. simpl. by intros [_ ?]%andb_true_iff. Qed.

End StrProps.

(** ** The operations of the ASCII range satisfy the laws *)

Module AsciiTextProps.
Import AsciiText StrProps.

#[local] Arguments String.append : simpl nomatch.

Lemma rstrip_idem (s : string) : rstrip (rstrip s) = rstrip s.
Proof.
  induction s as [|a s IH]; [done|]. simpl.
  destruct (rstrip s) as [|b r] eqn:E.
  - destruct (ascii_space a) eqn:Ea; [done|]. simpl. by rewrite Ea.
  - simpl. simpl in IH. by rewrite IH.
Qed.

Lemma rstrip_head (a : ascii) (s : string) :
  ascii_space a = false → ∃ r, rstrip (String a s) = String a r.
Proof.
  intros Ea. simpl. destruct (rstrip s).
  - rewrite Ea. by eexists.
  - by eexists.
Qed.

Lemma lstrip_head (a : ascii) (s : string) :
  ascii_space a = false → lstrip (String a s) = String a s.
Proof. intros Ea. simpl. by rewrite Ea. Qed.

Lemma lstrip_shape (s : string) :
  lstrip s = "" ∨ ∃ a r, lstrip s = String a r ∧ ascii_space a = false.
Proof.
  induction s as [|a s IH]; simpl; [by left|].
  destruct (ascii_space a) eqn:E; [done|]. right. by exists a, s.
Qed.

Lemma ascii_strip_idem (s : string) : strip (strip s) = strip s.
Proof.
  unfold strip. destruct (lstrip_shape s) as [->|(a & r & -> & Ea)]; [done|].
  destruct (rstrip_head a r Ea) as [r' E]. rewrite E.
  rewrite (lstrip_head a r' Ea), <- E. apply rstrip_idem.
Qed.

Lemma lstrip_empty (s : string) : lstrip s = "" → all_space s = true.
Proof.
  induction s as [|a s IH]; simpl; [done|].
  destruct (ascii_space a); [done|discriminate].
Qed.

Lemma all_space_no_graphic (s : string) :
  all_space s = true → no_graphic s = true.
Proof.
  induction s as [|a s IH]; simpl; [done|].
  intros [Ha Hs]%andb_true_iff. by rewrite (space_not_graphic a Ha), IH.
Qed.

Lemma ascii_strip_blank (s : string) : strip s = "" → no_graphic s = true.
Proof.
  unfold strip. intros E. apply all_space_no_graphic.
  destruct (lstrip_shape s) as [?|(a & r & Ea & Hsp)]; [by apply lstrip_empty|].
  rewrite Ea in E. destruct (rstrip_head a r Hsp) as [r' E']. congruence.
Qed.

Lemma rstrip_app_keep (s t : string) :
  t ≠ "" → rstrip t = t → rstrip (s +:+ t) = s +:+ t.
Proof.
  intros Hne Ht. induction s as [|a s IH]; simpl; [done|].
  rewrite IH. destruct (s +:+ t) eqn:E; [|done].
  destruct s; [simpl in E; by subst t|done].
Qed.

Lemma rstrip_app_space (s : string) (c : ascii) :
  ascii_space c = true → rstrip (s +:+ String c "") = rstrip s.
Proof.
  intros Hc. induction s as [|a s IH]; simpl; [by rewrite Hc|]. by rewrite IH.
Qed.

Lemma lstrip_all_space (s : string) : all_space s = true → lstrip s = "".
Proof.
  induction s as [|a s IH]; simpl; [done|].
  intros [-> ?]%andb_true_iff. auto.
Qed.

Lemma lstrip_app_space (s : string) (c : ascii) :
  ascii_space c = true →
  lstrip (s +:+ String c "")
  = if all_space s then "" else lstrip s +:+ String c "".
Proof.
  intros Hc. induction s as [|a s IH]; simpl; [by rewrite Hc|].
  by destruct (ascii_space a).
Qed.

Lemma graphic_not_space (a : ascii) : graphic a = true → ascii_space a = false.
Proof.
  intros Ha. destruct (ascii_space a) eqn:E; [|done].
  by rewrite (space_not_graphic a E) in Ha.
Qed.

Lemma ascii_strip_graphic (a : ascii) (s : string) (b : ascii) :
  graphic a = true → graphic b = true →
  strip (String a s +:+ String b "") = String a s +:+ String b "".
Proof.
  intros Ha%graphic_not_space Hb%graphic_not_space. unfold strip.
  change (String a s +:+ String b "") with (String a (s +:+ String b "")).
  rewrite (lstrip_head _ _ Ha).
  change (String a (s +:+ String b "")) with (String a s +:+ String b "").
  apply rstrip_app_keep; [done|]. simpl. by rewrite Hb.
Qed.

Lemma ascii_strip_space_l (a : ascii) (s : string) :
  ascii_space a = true → strip (String a s) = strip s.
Proof. intros Ha. unfold strip. simpl. by rewrite Ha. Qed.

Lemma ascii_strip_space_r (a : ascii) (s : string) :
  ascii_space a = true → strip (s +:+ String a "") = strip s.
Proof.
  intros Ha. unfold strip. rewrite lstrip_app_space by done.
  destruct (all_space s) eqn:E.
  - by rewrite lstrip_all_space.
  - by rewrite rstrip_app_space.
Qed.

Lemma ascii_lower_char_idem (a : ascii) :
  ascii_lower_char (ascii_lower_char a) = ascii_lower_char a.
Proof.
  destruct a as [[] [] [] [] [] [] [] []]; reflexivity.
Qed.

Lemma ascii_lower_idem (s : string) : ascii_lower (ascii_lower s) = ascii_lower s.
Proof.
  induction s as [|a s IH]; [done|]. simpl. by rewrite ascii_lower_char_idem, IH.
Qed.

Lemma ascii_lower_nil (s : string) : ascii_lower s = "" → s = "".
Proof. by destruct s. Qed.

End AsciiTextProps.

(** The runtime of the examples: the operations of the ASCII range, the
    decoder and printer of [Json] and the hash of [Md5].  That it exists
    shows that the laws of a [Runtime] can be met. *)
Lemma example_runtime : Runtime.
Proof.
  refine {| strip := AsciiText.strip;
            lower := ascii_lower;
            split_ws := AsciiText.split_ws;
            decimal := AsciiText.decimal;
            json_loads := Json.loads;
            json_dumps := Json.dumps;
            md5_hexdigest := Md5.hexdigest |}.
  - reflexivity.
  - apply AsciiTextProps.ascii_strip_idem.
  - apply AsciiTextProps.ascii_strip_blank.
  - apply AsciiTextProps.ascii_strip_graphic.
  - apply AsciiTextProps.ascii_strip_space_l.
  - apply AsciiTextProps.ascii_strip_space_r.
  - apply AsciiTextProps.ascii_lower_nil.
  - apply AsciiTextProps.ascii_lower_idem.
  - reflexivity.
Defined.

(** ** The knowledge store *)

Module ContextLoaderProps.
Import Re ContextLoader StrProps.

Lemma sorted_set_sorted (l : list string) :
  StronglySorted String.le (sorted_set l).
Proof. unfold sorted_set. apply StronglySorted_merge_sort; apply _. Qed.

Lemma sorted_set_NoDup (l : list string) : NoDup (sorted_set l).
Proof.
  unfold sorted_set.
  rewrite (merge_sort_Permutation String.le (remove_dups l)).
  apply NoDup_remove_dups.
Qed.

Lemma sorted_set_elem (x : string) (l : list string) :
  x ∈ sorted_set l ↔ x ∈ l.
Proof.
  unfold sorted_set.
  rewrite (merge_sort_Permutation String.le (remove_dups l)).
  apply elem_of_remove_dups.
Qed.

Lemma sorted_set_nil (l : list string) : sorted_set l = [] → l = [].
Proof.
  intros E. destruct l as [|x l]; [done|].
  assert (Hx : x ∈ sorted_set (x :: l)) by (apply sorted_set_elem; left).
  rewrite E in Hx. by apply elem_of_nil in Hx.
Qed.

(** *** A document without printable characters has no areas *)

Lemma match_at_area_blank (s : string) :
  no_graphic s = true → match_at area_pattern s = None.
Proof.
  destruct s as [|a s]; [done|]. simpl. intros [Ha _]%andb_true_iff.
  unfold match_at. cbn -[eqc]. unfold eqc.
  destruct (Ascii.eqb_spec "#" a) as [<-|]; [done|done].
Qed.

Lemma match_at_bold_blank (s : string) :
  no_graphic s = true → match_at bold_label_pattern s = None.
Proof.
  destruct s as [|a s]; [done|]. simpl. intros [Ha _]%andb_true_iff.
  unfold match_at. cbn -[eqc]. unfold eqc.
  destruct (Ascii.eqb_spec "*" a) as [<-|]; [done|done].
Qed.

Lemma findall_go_blank (r : re) (fuel : nat) (s : string) :
  (∀ s', no_graphic s' = true → match_at r s' = None) →
  no_graphic s = true → findall_go r fuel s = [].
Proof.
  intros Hr. revert s. induction fuel as [|fuel IH]; intros s Hs; [done|].
  simpl. rewrite (Hr s Hs).
  destruct s as [|a s]; [done|]. apply IH. by apply no_graphic_tail in Hs.
Qed.

Section WithRuntime.
Context {rt : Runtime}.

Lemma food_step_keeps (st : food_state) (line : string) :
  st.2 ≠ ∅ → (food_step st line).2 ≠ ∅.
Proof.
  destruct st as [cur m]; simpl; intros Hm.
  unfold food_step.
  destruct (re_match area_pattern line) as [am|].
  - destruct (m !! strip (group 1 am)) eqn:E.
    + destruct (re_match food_pattern line); [|done].
      destruct (String.eqb _ _); [done|]. simpl. apply insert_non_empty.
    + destruct (re_match food_pattern line); [|simpl; apply insert_non_empty].
      destruct (String.eqb _ _); simpl; apply insert_non_empty.
  - destruct (re_match food_pattern line); [|done].
    destruct cur as [a|]; [|done].
    destruct (String.eqb _ _); [done|]. simpl. apply insert_non_empty.
Qed.

Lemma food_step_heading (st : food_state) (line : string) :
  is_Some (re_match area_pattern line) → (food_step st line).2 ≠ ∅.
Proof.
  destruct st as [cur m]; intros [am E].
  unfold food_step. rewrite E.
  assert (Hne : match m !! strip (group 1 am) with
                | Some _ => m
                | None => <[strip (group 1 am) := []]> m
                end ≠ ∅).
  { destruct (m !! strip (group 1 am)) eqn:E'; [|apply insert_non_empty].
    intros ->. by rewrite lookup_empty in E'. }
  destruct (re_match food_pattern line); [|done].
  destruct (String.eqb _ _); [done|]. simpl. apply insert_non_empty.
Qed.

Lemma foldl_food_step_keeps (lines : list string) (st : food_state) :
  st.2 ≠ ∅ → (foldl food_step st lines).2 ≠ ∅.
Proof.
  revert st. induction lines as [|line lines IH]; intros st Hst; [done|].
  simpl. apply IH. by apply food_step_keeps.
Qed.

Lemma foldl_food_step_heading (lines : list string) (st : food_state) :
  existsb (fun line => bool_decide (is_Some (re_match area_pattern line))) lines
    = true →
  (foldl food_step st lines).2 ≠ ∅.
Proof.
  revert st. induction lines as [|line lines IH]; intros st; simpl; [done|].
  intros [Hh|Ht]%orb_true_iff.
  - apply bool_decide_eq_true in Hh.
    apply foldl_food_step_keeps. by apply food_step_heading.
  - by apply IH.
Qed.

Lemma extract_food_options_heading (content : string) :
  has_area_heading content = true → _extract_food_options content ≠ ∅.
Proof. intros Hh. by apply foldl_food_step_heading. Qed.

Lemma extract_areas_blank (content : string) :
  strip content = "" → _extract_areas content = [].
Proof.
  intros Hb%strip_blank. unfold _extract_areas, re_findall.
  rewrite !findall_go_blank by auto using match_at_area_blank, match_at_bold_blank.
  done.
Qed.

(** *** Validation of a freshly built context *)

Lemma validate_ok (content : string) :
  _extract_areas content ≠ [] →
  _extract_food_options content ≠ ∅ →
  _extract_response_guidelines content ≠ [] →
  _validate_context (build_context content) = Ok tt.
Proof.
  intros Ha Hf Hg. unfold _validate_context. simpl.
  destruct (_extract_areas content); [done|].
  rewrite bool_decide_eq_false_2 by done.
  by destruct (_extract_response_guidelines content).
Qed.

Lemma validate_no_areas (content : string) :
  _extract_areas content = [] →
  _validate_context (build_context content) = Raise (missing_field "areas").
Proof. intros Ha. unfold _validate_context. simpl. by rewrite Ha. Qed.

Lemma validate_no_foods (content : string) :
  _extract_areas content ≠ [] →
  _extract_food_options content = ∅ →
  _validate_context (build_context content)
  = Raise (missing_field "food_options").
Proof.
  intros Ha Hf. unfold _validate_context. simpl.
  destruct (_extract_areas content); [done|].
  by rewrite bool_decide_eq_true_2.
Qed.

Lemma validate_no_guidelines (content : string) :
  _extract_areas content ≠ [] →
  _extract_food_options content ≠ ∅ →
  _extract_response_guidelines content = [] →
  _validate_context (build_context content)
  = Raise (missing_field "response_guidelines").
Proof.
  intros Ha Hf Hg. unfold _validate_context. simpl.
  destruct (_extract_areas content); [done|].
  rewrite bool_decide_eq_false_2 by done. by rewrite Hg.
Qed.

(** *** Loading with nothing cached *)

Lemma load_uncached (fs : FS) (self : t) (f : File) :
  needs_reload self f →
  fs (context_file_path self) = Some f →
  load_product_context fs self
  = match _parse_context_file f with
    | Ok context =>
        (Ok context,
         mkLoader (context_file_path self) (Some context) (Some (mtime f)))
    | Raise e =>
        (Raise (Exn Exception ("Error loading product context: " +:+ msg e)),
         self)
    end.
Proof.
  intros Hc Hf. unfold load_product_context. rewrite Hf.
  destruct Hc as [-> | Hc].
  - by destruct (_parse_context_file f).
  - destruct (_cached_context self).
    + rewrite bool_decide_eq_true_2 by done.
      by destruct (_parse_context_file f).
    + by destruct (_parse_context_file f).
Qed.

Lemma parse_nonblank (f : File) (content : string) :
  read f = Ok content → strip content ≠ "" →
  _parse_context_file f
  = match _validate_context (build_context content) with
    | Ok _ => Ok (build_context content)
    | Raise e => Raise (Exn Exception ("Error parsing context file: " +:+ msg e))
    end.
Proof.
  intros Hr Hb. unfold _parse_context_file. rewrite Hr. simpl.
  destruct (String.eqb_spec (strip content) ""); [done|].
  by destruct (_validate_context (build_context content)) as [[]|].
Qed.

Lemma parse_raises_generic (f : File) (e : exn) :
  _parse_context_file f = Raise e → cls e = Exception.
Proof.
  unfold _parse_context_file, try_except.
  destruct (_ ← read f; _) as [c|e']; [done|]. by intros [= <-].
Qed.

(** C6 (as amended).  For every knowledge document that yields at least
    one area, has at least one line starting with an area heading (so that
    [food_options] is not empty) and yields at least one response guideline,
    a load that has to read the file (nothing cached, or the file modified
    since) succeeds, and the [areas] of the resulting document are not empty,
    sorted and free of duplicates. *)
Theorem load_succeeds_with_sorted_areas
  (fs : FS) (self : t) (f : File) (content : string) :
  needs_reload self f →
  fs (context_file_path self) = Some f →
  read f = Ok content →
  _extract_areas content ≠ [] →
  has_area_heading content = true →
  _extract_response_guidelines content ≠ [] →
  ∃ doc l,
    (load_product_context fs self).1 = Ok doc
    ∧ areas doc = Some l
    ∧ l ≠ []
    ∧ StronglySorted String.le l
    ∧ NoDup l.
Proof.
  intros Hc Hf Hr Ha Hh Hg.
  assert (Hb : strip content ≠ "").
  { intros Hb. by apply Ha, extract_areas_blank. }
  exists (build_context content), (_extract_areas content).
  rewrite (load_uncached fs self f Hc Hf), (parse_nonblank f content Hr Hb).
  rewrite validate_ok by auto using extract_food_options_heading.
  split_and!; [done|done|done|apply sorted_set_sorted|apply sorted_set_NoDup].
Qed.

(** C7 (as amended).  Whatever goes wrong, the exception that leaves
    [load_product_context] is a plain [Exception]; the cause is in its
    message only, after the prefix ["Error loading product context: "], and
    the loader is left as it was.  With no file at the path the message is
    that of the [FileNotFoundError] raised inside.  When the file has to be
    read (nothing cached, or its modification time differs from the one
    recorded) the message continues with ["Error parsing context file: "]
    and then: the text of the exception when reading raises; the empty-file
    text when the content strips to nothing; and otherwise the name of the
    first of [areas], [food_options], [response_guidelines] that the
    extraction left empty; when none is empty the load succeeds.  When the
    file need not be read, the cached document is returned. *)
Theorem load_failures_are_generic (fs : FS) (self : t) :
  let failed m :=
    load_product_context fs self
    = (Raise (Exn Exception ("Error loading product context: " +:+ m)), self) in
  (fs (context_file_path self) = None →
   failed ("Product context file not found: " +:+ context_file_path self))
  ∧ (∀ f,
       needs_reload self f → fs (context_file_path self) = Some f →
       (∀ e, read f = Raise e →
             failed ("Error parsing context file: " +:+ msg e))
       ∧ ∀ content,
           read f = Ok content →
           (strip content = "" →
            failed "Error parsing context file: Product context file is empty")
           ∧ (strip content ≠ "" → _extract_areas content = [] →
              failed "Error parsing context file: Missing required context field: areas")
           ∧ (_extract_areas content ≠ [] →
              _extract_food_options content = ∅ →
              failed "Error parsing context file: Missing required context field: food_options")
           ∧ (_extract_areas content ≠ [] →
              _extract_food_options content ≠ ∅ →
              _extract_response_guidelines content = [] →
              failed "Error parsing context file: Missing required context field: response_guidelines")
           ∧ (_extract_areas content ≠ [] →
              _extract_food_options content ≠ ∅ →
              _extract_response_guidelines content ≠ [] →
              (load_product_context fs self).1 = Ok (build_context content)))
  ∧ (∀ f cached,
       fs (context_file_path self) = Some f →
       _cached_context self = Some cached →
       _file_modified_time self = Some (mtime f) →
       load_product_context fs self = (Ok cached, self))
  ∧ (∀ e, (load_product_context fs self).1 = Raise e → cls e = Exception).
Proof.
  split_and!.
  - intros Hf. unfold load_product_context. by rewrite Hf.
  - intros f Hc Hf. rewrite (load_uncached fs self f Hc Hf). split.
    { intros e Hr. unfold _parse_context_file. by rewrite Hr. }
    intros content Hr.
    assert (Hnb : _extract_areas content ≠ [] → strip content ≠ "").
    { intros Ha Hb. by apply Ha, extract_areas_blank. }
    split_and!.
    + intros Hb. unfold _parse_context_file. rewrite Hr. simpl.
      by rewrite Hb.
    + intros Hb Ha. rewrite (parse_nonblank f content Hr Hb).
      by rewrite validate_no_areas.
    + intros Ha Hfo. rewrite (parse_nonblank f content Hr (Hnb Ha)).
      by rewrite validate_no_foods.
    + intros Ha Hfo Hg. rewrite (parse_nonblank f content Hr (Hnb Ha)).
      by rewrite validate_no_guidelines.
    + intros Ha Hfo Hg. rewrite (parse_nonblank f content Hr (Hnb Ha)).
      by rewrite validate_ok.
  - intros f cached Hf Hc Hm. unfold load_product_context.
    rewrite Hf, Hc, Hm. by rewrite bool_decide_eq_false_2 by (by intros []).
  - intros e. unfold load_product_context.
    destruct (fs (context_file_path self)) as [f|]; [|by intros [= <-]].
    destruct (_cached_context self) as [cached|].
    + case_bool_decide; [|done].
      destruct (_parse_context_file f); simpl; [done|by intros [= <-]].
    + destruct (_parse_context_file f); simpl; [done|by intros [= <-]].
Qed.

End WithRuntime.

Lemma load_succeeds_with_sorted_areas_witness :
  ∃ doc l,
    (load_product_context (rt := example_runtime)
       (Examples.fs_with Examples.doc_small) (__init__ default_path)).1 = Ok doc
    ∧ areas doc = Some l
    ∧ l ≠ []
    ∧ StronglySorted String.le l
    ∧ NoDup l.
Proof.
  apply (load_succeeds_with_sorted_areas (rt := example_runtime)
           (Examples.fs_with Examples.doc_small) (__init__ default_path)
           (Examples.file_of Examples.doc_small) Examples.doc_small);
    [by left|vm_compute; congruence..].
Defined.

(** C6, counterexample.  A document with one area (from a bold label) and
    one response guideline, but no area heading: loading it fails. *)
Lemma load_fails_without_area_heading :
  _extract_areas (rt := example_runtime) Examples.doc_bold_only = ["Momos"]
  ∧ _extract_response_guidelines Examples.doc_bold_only = ["Be local"]
  ∧ (load_product_context (rt := example_runtime)
       (Examples.fs_with Examples.doc_bold_only) (__init__ default_path)).1
    = Raise (Exn Exception
               "Error loading product context: Error parsing context file: Missing required context field: food_options").
Proof. by vm_compute. Qed.

Lemma load_failures_are_generic_witness :
  load_product_context (rt := example_runtime) Examples.fs_empty
    (__init__ default_path)
  = (Raise (Exn Exception
              ("Error loading product context: "
               +:+ ("Product context file not found: " +:+ default_path))),
     __init__ default_path)
  ∧ load_product_context (rt := example_runtime) (Examples.fs_with "   ")
      (__init__ default_path)
    = (Raise (Exn Exception
                ("Error loading product context: "
                 +:+ "Error parsing context file: Product context file is empty")),
       __init__ default_path)
  ∧ load_product_context (rt := example_runtime)
      (Examples.fs_with "no headings here") (__init__ default_path)
    = (Raise (Exn Exception
                ("Error loading product context: "
                 +:+ "Error parsing context file: Missing required context field: areas")),
       __init__ default_path)
  ∧ load_product_context (rt := example_runtime)
      (Examples.fs_with Examples.doc_bold_only) (__init__ default_path)
    = (Raise (Exn Exception
                ("Error loading product context: "
                 +:+ "Error parsing context file: Missing required context field: food_options")),
       __init__ default_path)
  ∧ load_product_context (rt := example_runtime)
      (Examples.fs_with "### Connaught Place") (__init__ default_path)
    = (Raise (Exn Exception
                ("Error loading product context: "
                 +:+ "Error parsing context file: Missing required context field: response_guidelines")),
       __init__ default_path).
Proof.
  split_and!.
  - apply (load_failures_are_generic (rt := example_runtime)
             Examples.fs_empty (__init__ default_path)).
    reflexivity.
  - eapply (load_failures_are_generic (rt := example_runtime)
              (Examples.fs_with "   ") (__init__ default_path));
      [by left|reflexivity..].
  - eapply (load_failures_are_generic (rt := example_runtime)
              (Examples.fs_with "no headings here") (__init__ default_path));
      [by left|reflexivity|reflexivity|by vm_compute|reflexivity].
  - eapply (load_failures_are_generic (rt := example_runtime)
              (Examples.fs_with Examples.doc_bold_only)
              (__init__ default_path));
      [by left|reflexivity|reflexivity|by vm_compute|by vm_compute].
  - eapply (load_failures_are_generic (rt := example_runtime)
              (Examples.fs_with "### Connaught Place") (__init__ default_path));
      [by left|reflexivity|reflexivity|by vm_compute|by vm_compute
      |reflexivity].
Defined.

(** C7, counterexample.  With no file at the path, the exception that
    leaves [load_product_context] is a plain [Exception]; the
    [FileNotFoundError] raised inside does not reach the caller. *)
Lemma load_missing_file_raises_plain_exception :
  (load_product_context (rt := example_runtime) Examples.fs_empty
     (__init__ default_path)).1
  = Raise (Exn Exception
             "Error loading product context: Product context file not found: .kiro/specs/delhi-street-food-app/product.md")
  ∧ ¬ ∃ m, (load_product_context (rt := example_runtime) Examples.fs_empty
              (__init__ default_path)).1
           = Raise (Exn FileNotFoundError m).
Proof. split; [reflexivity|]. by intros [m [=]]. Qed.

End ContextLoaderProps.


(** ** The inference gateway *)

Module KiroClientProps.
Import KiroClient.

Section WithRuntime.
Context {rt : Runtime}.

Lemma attempt_429 (self : t) (http : Service) (i : nat) (text : string) :
  http i = Response 429 text →
  attempt_body self http i
  = if (i + 1 <? max_retries self)%nat
    then Ok (inr (retry_delay self * 2 ^ Z.of_nat i))
    else Raise (Exn Exception "Rate limit exceeded").
Proof. intros E. unfold attempt_body. by rewrite E. Qed.

Lemma attempt_other_status (self : t) (http : Service) (i : nat)
  (status_code : Z) (text : string) :
  http i = Response status_code text →
  status_code ≠ 200 → status_code ≠ 429 →
  attempt_body self http i
  = Raise (Exn Exception
             ("API error: " +:+ pretty status_code +:+ " - " +:+ text)).
Proof.
  intros E H200 H429. unfold attempt_body. rewrite E.
  destruct (Z.eqb_spec status_code 200); [done|].
  by destruct (Z.eqb_spec status_code 429).
Qed.

Lemma attempt_raises (self : t) (http : Service) (i : nat) (e : exn) :
  http i = Raises e → attempt_body self http i = Raise e.
Proof. intros E. unfold attempt_body. by rewrite E. Qed.

Lemma query_uncached (self : t) (http : Service) (prompt : string) :
  _response_cache self !! _get_cache_key prompt = None →
  query self http prompt
  = let '(sent, evs) := _send_kiro_request self http prompt in
    match raw_response ← sent; _parse_response raw_response with
    | Ok parsed_response =>
        mkOutcome parsed_response
          (set_cache self (<[_get_cache_key prompt := parsed_response]>
                             (_response_cache self)))
          evs
    | Raise e => mkOutcome (_create_fallback_response (msg e)) self evs
    end.
Proof.
  intros Hc. unfold query, query_body. rewrite Hc.
  destruct (_send_kiro_request self http prompt) as [[raw|e] evs]; simpl; [|done].
  by destruct (_parse_response raw).
Qed.

Lemma query_send_fails (self : t) (http : Service) (prompt : string)
  (e : exn) (evs : list event) :
  _response_cache self !! _get_cache_key prompt = None →
  _send_kiro_request self http prompt = (Raise e, evs) →
  query self http prompt
  = mkOutcome (_create_fallback_response (msg e)) self evs.
Proof. intros Hc Hs. rewrite query_uncached by done. by rewrite Hs. Qed.

Lemma query_fails (self : t) (http : Service) (prompt : string) (e : exn) :
  _response_cache self !! _get_cache_key prompt = None →
  fails_with self http prompt e →
  query self http prompt
  = mkOutcome (_create_fallback_response (msg e)) self
              (_send_kiro_request self http prompt).2.
Proof.
  intros Hc Hf. rewrite query_uncached by done. unfold fails_with in Hf.
  destruct (_send_kiro_request self http prompt) as [sent evs]. simpl in *.
  destruct Hf as [->|(raw & -> & Hp)]; simpl; [done|by rewrite Hp].
Qed.

Lemma schedule_from_last (self : t) (http : Service) (n : nat) :
  Gateway.schedule_from self http n n = [Post n].
Proof. unfold Gateway.schedule_from. by rewrite Nat.sub_diag. Qed.

Lemma schedule_from_step (self : t) (http : Service) (i n : nat) :
  (i < n)%nat →
  Gateway.schedule_from self http i n
  = Post i :: Sleep (Gateway.policy_pause self (http i) i)
      :: Gateway.schedule_from self http (S i) n.
Proof.
  intros Hi. unfold Gateway.schedule_from.
  replace (n - i)%nat with (S (n - S i)) by lia. done.
Qed.

(** An attempt after which the loop is left with [last] as the last error:
    its [try] block raised something other than a timeout or a connection
    error, or it was the last attempt of the budget and ended in one. *)
Lemma request_loop_last (self : t) (http : Service) (n : nat) (last : string)
  (remaining : nat) (last_error : option string) :
  (n + S remaining = max_retries self)%nat →
  (∃ e, attempt_body self http n = Raise e
        ∧ ((cls e ≠ Timeout ∧ cls e ≠ ConnectionError ∧ last = msg e)
           ∨ (remaining = 0%nat ∧ cls e = Timeout ∧ last = "Request timeout")
           ∨ (remaining = 0%nat ∧ cls e = ConnectionError
              ∧ last = "Connection error"))) →
  request_loop self http (S remaining) n last_error
  = (Raise (failed_after self (Some last)), [Post n]).
Proof.
  intros Hsum (e & Hb & Hcase). cbn [request_loop]. rewrite Hb.
  destruct Hcase as [(Ht & Hc & ->)|[(-> & Hc & ->)|(-> & Hc & ->)]].
  - by destruct (cls e).
  - rewrite Hc. simpl.
    by destruct (Nat.ltb_spec (n + 1) (max_retries self)); [lia|].
  - rewrite Hc. simpl.
    by destruct (Nat.ltb_spec (n + 1) (max_retries self)); [lia|].
Qed.

Lemma request_loop_schedule (self : t) (http : Service) (n : nat)
  (last : string) (remaining attempt : nat) (last_error : option string) :
  (attempt + remaining = max_retries self)%nat →
  (attempt ≤ n)%nat → (n < max_retries self)%nat →
  (∀ i, (attempt ≤ i < n)%nat → Gateway.retryable (http i)) →
  (∃ e, attempt_body self http n = Raise e
        ∧ ((cls e ≠ Timeout ∧ cls e ≠ ConnectionError ∧ last = msg e)
           ∨ ((n + 1)%nat = max_retries self ∧ cls e = Timeout
              ∧ last = "Request timeout")
           ∨ ((n + 1)%nat = max_retries self ∧ cls e = ConnectionError
              ∧ last = "Connection error"))) →
  request_loop self http remaining attempt last_error
  = (Raise (failed_after self (Some last)),
     Gateway.schedule_from self http attempt n).
Proof.
  revert attempt last_error.
  induction remaining as [|remaining IH];
    intros attempt last_error Hsum Hle Hn Hretry Hlast; [lia|].
  destruct (decide (attempt = n)) as [->|Hne].
  - rewrite schedule_from_last. apply request_loop_last; [done|].
    destruct Hlast as (e & Hb & Hcase). exists e. split; [done|].
    destruct Hcase as [?|[(? & ? & ?)|(? & ? & ?)]];
      [by left|right; left|right; right]; (split; [lia|done]).
  - rewrite schedule_from_step by lia.
    assert (Hlt : (attempt + 1 <? max_retries self)%nat = true)
      by (apply Nat.ltb_lt; lia).
    assert (Hnext : ∀ le,
              request_loop self http remaining (S attempt) le
              = (Raise (failed_after self (Some last)),
                 Gateway.schedule_from self http (S attempt) n)).
    { intros le. apply IH; [lia|lia|done| |done].
      intros i Hi. apply Hretry. lia. }
    pose proof (Hretry attempt ltac:(lia)) as Hr.
    cbn [request_loop]. unfold Gateway.retryable in Hr.
    destruct (http attempt) as [status_code text|e] eqn:Hh.
    + subst status_code. rewrite (attempt_429 _ _ _ _ Hh), Hlt.
      by rewrite Hnext.
    + rewrite (attempt_raises _ _ _ _ Hh), Hlt.
      destruct Hr as [-> | ->]; by rewrite Hnext.
Qed.

(** C4 (as amended).  With a credential, [_send_kiro_request] follows the
    retry policy.  Let the attempts before attempt [n] be answered 429 or end
    in a timeout or a connection error, [n] being within the budget of
    [max_retries] attempts.  Each of them is followed by a pause, of
    [retry_delay] times 2 to the number of the attempt after a 429 and of
    [retry_delay] after a timeout or a connection error, and by the next
    attempt.  Attempt [n] ends the run, with no pause after it and no further
    request, when it is answered with a status other than 200 and 429, when
    it raises anything other than a timeout or a connection error, and, if it
    is the last attempt of the budget, also when it is answered 429 or ends
    in a timeout or a connection error; the exception raised names the number
    of attempts of the budget and the last error, and [query] turns it into
    the fallback response, caching nothing.  The constructor sets the budget
    to 3 attempts and the delay to 1s, so three 429 replies give the requests
    and pauses [Post 0; Sleep 1; Post 1; Sleep 2; Post 2]. *)
Theorem retry_policy (self : t) (http : Service) (prompt : string)
  (a : ascii) (k : string) (n : nat) :
  api_key self = Some (String a k) →
  (n < max_retries self)%nat →
  (∀ i, (i < n)%nat → Gateway.retryable (http i)) →
  let run := _send_kiro_request self http prompt in
  let stops last :=
    run = (Raise (failed_after self (Some last)), Gateway.schedule self http n)
    ∧ (_response_cache self !! _get_cache_key prompt = None →
       query self http prompt
       = mkOutcome
           (_create_fallback_response (msg (failed_after self (Some last))))
           self (Gateway.schedule self http n)) in
  (∀ status_code text,
     http n = Response status_code text →
     status_code ≠ 200 → status_code ≠ 429 →
     stops ("API error: " +:+ pretty status_code +:+ " - " +:+ text))
  ∧ (∀ e, http n = Raises e → cls e ≠ Timeout → cls e ≠ ConnectionError →
          stops (msg e))
  ∧ ((n + 1)%nat = max_retries self →
     (∀ text, http n = Response 429 text → stops "Rate limit exceeded")
     ∧ (∀ e, http n = Raises e → cls e = Timeout → stops "Request timeout")
     ∧ (∀ e, http n = Raises e → cls e = ConnectionError →
             stops "Connection error"))
  ∧ (∀ getenv key url,
       max_retries (__init__ getenv key url) = 3%nat
       ∧ retry_delay (__init__ getenv key url) = 1).
Proof.
  intros Hkey Hn Hretry run stops.
  assert (Hstops : ∀ last,
            (∃ e, attempt_body self http n = Raise e
                  ∧ ((cls e ≠ Timeout ∧ cls e ≠ ConnectionError ∧ last = msg e)
                     ∨ ((n + 1)%nat = max_retries self ∧ cls e = Timeout
                        ∧ last = "Request timeout")
                     ∨ ((n + 1)%nat = max_retries self ∧ cls e = ConnectionError
                        ∧ last = "Connection error"))) →
            stops last).
  { intros last Hlast.
    assert (Hrun : run = (Raise (failed_after self (Some last)),
                          Gateway.schedule self http n)).
    { unfold run, _send_kiro_request. rewrite Hkey.
      apply request_loop_schedule; [done|lia|done| |done].
      intros i Hi. apply Hretry. lia. }
    split; [done|]. intros Hc. by rewrite (query_send_fails _ _ _ _ _ Hc Hrun). }
  split_and!.
  - intros status_code text Hh H200 H429. apply Hstops.
    eexists. split; [by apply attempt_other_status|]. by left.
  - intros e Hh Ht Hc. apply Hstops.
    exists e. split; [by apply attempt_raises|]. by left.
  - intros Hlast. split_and!.
    + intros text Hh. apply Hstops. eexists. split.
      * rewrite (attempt_429 _ _ _ _ Hh).
        by destruct (Nat.ltb_spec (n + 1) (max_retries self)); [lia|].
      * by left.
    + intros e Hh Hc. apply Hstops.
      exists e. split; [by apply attempt_raises|]. right. by left.
    + intros e Hh Hc. apply Hstops.
      exists e. split; [by apply attempt_raises|]. right. by right.
  - done.
Qed.

(** *** The gateway boundary *)

Lemma fallback_shape (error_message : string) :
  ∃ r,
    _create_fallback_response error_message
    = mkRecommendationResponse
        (PStr "Error") [r] (PList [])
        (PStr "Sorry yaar, our Delhi expert AI is having some technical issues. Please try again in a few minutes!")
    ∧ local_tip r = PStr ("Error: " +:+ error_message)
    ∧ hygiene_rating r = PStr "Yellow".
Proof. by eexists. Qed.

(** C1.  [query] returns a response on every prompt, client state and
    behaviour of the service, and there are three ways it does: the cached
    entry; the parsed reply; or, when the request or the parsing of the
    reply raised [e], the fallback response, whose area is ["Error"] and
    whose single recommendation has the text of [e] in [local_tip] and
    [hygiene_rating = "Yellow"]. *)
Theorem query_never_raises (self : t) (http : Service) (prompt : string) :
  let out := query self http prompt in
  let cached := _response_cache self !! _get_cache_key prompt in
  (∃ response, cached = Some response ∧ returned out = response)
  ∨ (∃ raw parsed,
       cached = None
       ∧ (_send_kiro_request self http prompt).1 = Ok raw
       ∧ _parse_response raw = Ok parsed
       ∧ returned out = parsed)
  ∨ (∃ e r,
       cached = None
       ∧ fails_with self http prompt e
       ∧ returned out
         = mkRecommendationResponse
             (PStr "Error") [r] (PList [])
             (PStr "Sorry yaar, our Delhi expert AI is having some technical issues. Please try again in a few minutes!")
       ∧ local_tip r = PStr ("Error: " +:+ msg e)
       ∧ hygiene_rating r = PStr "Yellow").
Proof.
  intros out cached. subst out cached.
  destruct (_response_cache self !! _get_cache_key prompt) as [response|] eqn:Hc.
  - left. exists response. split; [done|]. unfold query, query_body. by rewrite Hc.
  - right. rewrite (query_uncached _ _ _ Hc). unfold fails_with.
    destruct (_send_kiro_request self http prompt) as [[raw|e] evs]; simpl.
    + destruct (_parse_response raw) as [parsed|e] eqn:Hp.
      * left. by exists raw, parsed.
      * right. destruct (fallback_shape (msg e)) as (r & -> & ? & ?).
        exists e, r. split_and!; [done| |done..]. right. by exists raw.
    + right. destruct (fallback_shape (msg e)) as (r & -> & ? & ?).
      exists e, r. split_and!; [done|by left|done..].
Qed.

(** C9.  When the request or the parsing of the reply fails, [query]
    leaves the client, and so its cache, exactly as it was; the prompt's key
    is still absent from the cache, so a later query with the same prompt
    goes through the request again and is answered as on the original
    client.  The cache differs after a call only by the entry of a reply that
    was parsed successfully, stored under the prompt's key. *)
Theorem cache_untouched_on_failure (self : t) (http : Service) (prompt : string) :
  let out := query self http prompt in
  (∀ e,
     _response_cache self !! _get_cache_key prompt = None →
     fails_with self http prompt e →
     returned out = _create_fallback_response (msg e)
     ∧ client out = self
     ∧ _response_cache (client out) !! _get_cache_key prompt = None
     ∧ ∀ http', query (client out) http' prompt = query self http' prompt)
  ∧ (_response_cache (client out) ≠ _response_cache self →
     ∃ raw parsed,
       (_send_kiro_request self http prompt).1 = Ok raw
       ∧ _parse_response raw = Ok parsed
       ∧ returned out = parsed
       ∧ _response_cache (client out)
         = <[_get_cache_key prompt := parsed]> (_response_cache self)).
Proof.
  intros out. subst out. split.
  - intros e Hc Hf. by rewrite (query_fails _ _ _ _ Hc Hf).
  - destruct (_response_cache self !! _get_cache_key prompt) as [response|] eqn:Hc.
    + unfold query, query_body. by rewrite Hc.
    + rewrite (query_uncached _ _ _ Hc).
      destruct (_send_kiro_request self http prompt) as [[raw|e] evs]; simpl;
        [|done].
      destruct (_parse_response raw) as [parsed|e] eqn:Hp; simpl; [|done].
      intros _. by exists raw, parsed.
Qed.

(** A reply that was parsed is served from the cache on the next query
    with the same prompt, without a request. *)
Lemma query_cached_after_success (self : t) (http http' : Service)
  (prompt : string) (raw : pyval) (parsed : RecommendationResponse) :
  _response_cache self !! _get_cache_key prompt = None →
  (_send_kiro_request self http prompt).1 = Ok raw →
  _parse_response raw = Ok parsed →
  returned (query (client (query self http prompt)) http' prompt) = parsed
  ∧ events (query (client (query self http prompt)) http' prompt) = [].
Proof.
  intros Hc Hs Hp. rewrite (query_uncached _ _ _ Hc).
  destruct (_send_kiro_request self http prompt) as [sent evs].
  simpl in Hs. subst sent. simpl. rewrite Hp.
  unfold query, query_body. simpl. by rewrite lookup_insert_eq.
Qed.

(** *** The interpreter *)

Lemma parse_response_ok (raw_response : pyval) (response : RecommendationResponse) :
  _parse_response raw_response = Ok response →
  ∃ raw top items,
    raw_response = PStr raw
    ∧ json_loads (clean_reply raw) = Ok (PDict top)
    ∧ iter_items (dict_get "recommendations" (PList []) top) = Ok items
    ∧ recommendations response = omap parse_rec items.
Proof.
  unfold _parse_response, parse_body.
  destruct raw_response as [| | | |raw| |]; try done.
  destruct (json_loads (clean_reply raw)) as [data|e] eqn:Hl; simpl;
    [|by destruct (cls e)].
  destruct data as [| | | | | |top]; try done.
  destruct (iter_items _) as [items|e] eqn:Hi; simpl; [|by destruct (cls e)].
  intros [= <-]. by exists raw, top, items.
Qed.

(** C3 (as amended).  In a reply that parses, the recommendations are
    made, in order, of the dict entries of the reply's [recommendations]
    (entries that are not dicts are skipped), and the [hygiene_rating] of
    each is ["Yellow"] when its entry has no such key and is the entry's
    value, unchanged, when it has one, whether or not the value is one of
    ["Green"], ["Yellow"], ["Red"]. *)
Theorem parse_defaults_missing_rating
  (raw_response : pyval) (response : RecommendationResponse) :
  _parse_response raw_response = Ok response →
  ∃ raw top items,
    raw_response = PStr raw
    ∧ json_loads (clean_reply raw) = Ok (PDict top)
    ∧ iter_items (dict_get "recommendations" (PList []) top) = Ok items
    ∧ hygiene_rating <$> recommendations response
      = omap (fun item =>
                match item with
                | PDict entry =>
                    Some (match dict_lookup "hygiene_rating" entry with
                          | Some rating => rating
                          | None => PStr "Yellow"
                          end)
                | _ => None
                end) items.
Proof.
  intros (raw & top & items & -> & Hl & Hi & ->)%parse_response_ok.
  exists raw, top, items. split_and!; [done..|].
  clear Hi. induction items as [|item items IH]; [done|].
  destruct item as [| | | | | |entry]; try exact IH.
  cbn [omap list_omap parse_rec fmap list_fmap hygiene_rating].
  cbn [omap list_omap fmap list_fmap] in IH. rewrite <- IH.
  unfold dict_get. by destruct (dict_lookup "hygiene_rating" entry).
Qed.

End WithRuntime.

Lemma parse_defaults_missing_rating_witness :
  ∃ raw top items,
    PStr Examples.reply_jalebi = PStr raw
    ∧ json_loads (Runtime := example_runtime)
        (clean_reply (rt := example_runtime) raw) = Ok (PDict top)
    ∧ iter_items (dict_get "recommendations" (PList []) top) = Ok items
    ∧ hygiene_rating <$> [Examples.rec_jalebi]
      = omap (fun item =>
                match item with
                | PDict entry =>
                    Some (match dict_lookup "hygiene_rating" entry with
                          | Some rating => rating
                          | None => PStr "Yellow"
                          end)
                | _ => None
                end) items.
Proof.
  apply (parse_defaults_missing_rating (rt := example_runtime)
           (PStr Examples.reply_jalebi)
           {| area := PStr "Unknown Area";
              recommendations := [Examples.rec_jalebi];
              alternative_areas := PList [];
              local_context := PStr "No additional context provided" |}).
  vm_compute. reflexivity.
Defined.

(** C3, counterexample.  A reply whose first recommendation has
    [hygiene_rating] ["Blue"] and whose second has none: the parser keeps
    ["Blue"] and defaults the missing one. *)
Lemma parse_keeps_invalid_rating :
  _parse_response (rt := example_runtime) (PStr Examples.reply_blue)
  = Ok {| area := PStr "Karol Bagh";
          recommendations :=
            [ {| food_name := PStr "Pani Puri";
                 location := PStr "Location not specified";
                 price_range := PStr "Price varies";
                 crowd_info := PStr "Crowd info not available";
                 local_tip := PStr "No specific tips";
                 hygiene_rating := PStr "Blue" |};
              {| food_name := PStr "Jalebi";
                 location := PStr "Location not specified";
                 price_range := PStr "Price varies";
                 crowd_info := PStr "Crowd info not available";
                 local_tip := PStr "No specific tips";
                 hygiene_rating := PStr "Yellow" |} ];
          alternative_areas := PList [];
          local_context := PStr "No additional context provided" |}.
Proof. vm_compute. reflexivity. Qed.

Lemma retry_policy_witness :
  (_send_kiro_request (rt := example_runtime) Examples.client_with_key
     Examples.always_429 Examples.prompt_small
   = (Raise (Exn Exception
               "Failed to get response from Kiro after 3 attempts. Last error: Rate limit exceeded"),
      [Post 0; Sleep 1; Post 1; Sleep 2; Post 2]))
  ∧ (_send_kiro_request (rt := example_runtime) Examples.client_with_key
       Examples.always_500 Examples.prompt_small
     = (Raise (Exn Exception
                 "Failed to get response from Kiro after 3 attempts. Last error: API error: 500 - Internal Server Error"),
        [Post 0]))
  ∧ (_send_kiro_request (rt := example_runtime) Examples.client_with_key
       Examples.always_timeout Examples.prompt_small
     = (Raise (Exn Exception
                 "Failed to get response from Kiro after 3 attempts. Last error: Request timeout"),
        [Post 0; Sleep 1; Post 1; Sleep 1; Post 2])).
Proof.
  split_and!.
  - destruct (retry_policy (rt := example_runtime) Examples.client_with_key
                Examples.always_429 Examples.prompt_small "s" "k-demo" 2)
      as (_ & _ & Hlast & _).
    + reflexivity.
    + vm_compute. lia.
    + intros i _. reflexivity.
    + destruct (Hlast eq_refl) as (H429 & _ & _).
      by destruct (H429 "Too Many Requests" eq_refl) as [Hrun _].
  - destruct (retry_policy (rt := example_runtime) Examples.client_with_key
                Examples.always_500 Examples.prompt_small "s" "k-demo" 0)
      as (Hother & _).
    + reflexivity.
    + vm_compute. lia.
    + intros i Hi. lia.
    + by destruct (Hother 500 "Internal Server Error" eq_refl
                     ltac:(lia) ltac:(lia)) as [Hrun _].
  - destruct (retry_policy (rt := example_runtime) Examples.client_with_key
                Examples.always_timeout Examples.prompt_small "s" "k-demo" 2)
      as (_ & _ & Hlast & _).
    + reflexivity.
    + vm_compute. lia.
    + intros i _. by left.
    + destruct (Hlast eq_refl) as (_ & Htime & _).
      by destruct (Htime _ eq_refl eq_refl) as [Hrun _].
Defined.

(** C4, counterexample.  Three rate-limited attempts: three requests, and
    the pauses are 1s and 2s; there is no pause of 4s. *)
Lemma rate_limit_pauses :
  attempts (events (query (rt := example_runtime) Examples.client_with_key
                      Examples.always_429 Examples.prompt_small)) = 3%nat
  ∧ sleeps (events (query (rt := example_runtime) Examples.client_with_key
                      Examples.always_429 Examples.prompt_small)) = [1; 2]
  ∧ sleeps (events (query (rt := example_runtime) Examples.client_with_key
                      Examples.always_429 Examples.prompt_small)) ≠ [1; 2; 4].
Proof. vm_compute. by split_and!. Qed.

Lemma cache_untouched_on_failure_witness :
  returned (query (rt := example_runtime) Examples.client_with_key
              Examples.always_timeout Examples.prompt_small)
  = _create_fallback_response
      "Failed to get response from Kiro after 3 attempts. Last error: Request timeout"
  ∧ client (query (rt := example_runtime) Examples.client_with_key
              Examples.always_timeout Examples.prompt_small)
    = Examples.client_with_key
  ∧ _response_cache
      (client (query (rt := example_runtime) Examples.client_with_key
                 Examples.always_timeout Examples.prompt_small))
      !! _get_cache_key (rt := example_runtime) Examples.prompt_small = None
  ∧ ∀ http',
      query (rt := example_runtime)
        (client (query (rt := example_runtime) Examples.client_with_key
                   Examples.always_timeout Examples.prompt_small))
        http' Examples.prompt_small
      = query (rt := example_runtime) Examples.client_with_key http'
          Examples.prompt_small.
Proof.
  destruct (cache_untouched_on_failure (rt := example_runtime)
              Examples.client_with_key Examples.always_timeout
              Examples.prompt_small) as [Hfail _].
  apply (Hfail (Exn Exception
                  "Failed to get response from Kiro after 3 attempts. Last error: Request timeout")).
  - reflexivity.
  - left. vm_compute. reflexivity.
Defined.

End KiroClientProps.

(** ** The orchestrator *)

Module RecommendationEngineProps.
Import ContextLoader KiroClient RecommendationEngine.

Lemma first_match_Some (p : string → bool) (l : list string) (a : string) :
  first_match p l = Some a ↔
  ∃ l1 l2, l = l1 ++ a :: l2 ∧ p a = true ∧ ∀ x, x ∈ l1 → p x = false.
Proof.
  unfold first_match. revert a. induction l as [|x l IH]; intros a.
  - split; [done|]. intros (l1 & l2 & E & _). by destruct l1.
  - rewrite filter_cons. destruct (decide (p x = true)) as [Hx|Hx]; simpl.
    + split.
      * intros [= <-]. exists [], l. split_and!; [done..|]. by intros ? ?%elem_of_nil.
      * intros (l1 & l2 & E & Ha & Hl1). destruct l1 as [|y l1].
        -- by injection E as -> _.
        -- injection E as -> _. rewrite Hl1 in Hx by left. done.
    + rewrite IH. split.
      * intros (l1 & l2 & -> & Ha & Hl1). exists (x :: l1), l2.
        split_and!; [done..|].
        intros y [->|?]%elem_of_cons; [by apply not_true_is_false|by auto].
      * intros (l1 & l2 & E & Ha & Hl1). destruct l1 as [|y l1].
        -- injection E as -> _. done.
        -- injection E as -> ->. exists l1, l2.
           split_and!; [done..|]. intros z Hz. apply Hl1. by right.
Qed.

Lemma first_match_None (p : string → bool) (l : list string) :
  first_match p l = None ↔ ∀ x, x ∈ l → p x = false.
Proof.
  unfold first_match. induction l as [|x l IH].
  - split; [by intros _ ? ?%elem_of_nil|done].
  - rewrite filter_cons. destruct (decide (p x = true)) as [Hx|Hx]; simpl.
    + split; [done|]. intros Hall. rewrite Hall in Hx by left. done.
    + rewrite IH. split.
      * intros Hl y [->|?]%elem_of_cons; [by apply not_true_is_false|by auto].
      * intros Hall y Hy. apply Hall. by right.
Qed.


Section WithRuntime.
Context {rt : Runtime}.

(** C8 (as amended).  For every non-empty raw area string, the resolution
    works on the stripped string [s]: (1) if [s] is one of the areas it is
    returned; (2) otherwise the first area equal to [s] up to case is
    returned; (3) otherwise the first area that contains [s] or is contained
    in [s], up to case, is returned; (4) otherwise [s], the stripped input,
    is returned, without an error. *)
Theorem process_area_precedence (area : string) (context : Context) :
  area ≠ "" →
  let s := strip area in
  let available := get_areas context in
  (s ∈ available → _process_area_input area context = Ok s)
  ∧ (s ∉ available →
     ∀ l1 a l2,
       available = l1 ++ a :: l2 →
       same_ignoring_case s a = true →
       (∀ x, x ∈ l1 → same_ignoring_case s x = false) →
       _process_area_input area context = Ok a)
  ∧ (s ∉ available →
     (∀ x, x ∈ available → same_ignoring_case s x = false) →
     ∀ l1 a l2,
       available = l1 ++ a :: l2 →
       partial_match s a = true →
       (∀ x, x ∈ l1 → partial_match s x = false) →
       _process_area_input area context = Ok a)
  ∧ (s ∉ available →
     (∀ x, x ∈ available → same_ignoring_case s x = false) →
     (∀ x, x ∈ available → partial_match s x = false) →
     _process_area_input area context = Ok s).
Proof.
  intros Hne s available. unfold _process_area_input.
  destruct (String.eqb_spec area ""); [done|]. fold s available.
  unfold str_in. split_and!.
  - intros Hin. by rewrite bool_decide_eq_true_2.
  - intros Hnin l1 a l2 E Ha Hl1. rewrite bool_decide_eq_false_2 by done.
    by rewrite (proj2 (first_match_Some _ _ a)) by eauto.
  - intros Hnin Hci l1 a l2 E Ha Hl1. rewrite bool_decide_eq_false_2 by done.
    rewrite (proj2 (first_match_None _ _)) by done.
    by rewrite (proj2 (first_match_Some _ _ a)) by eauto.
  - intros Hnin Hci Hpm. rewrite bool_decide_eq_false_2 by done.
    by rewrite !(proj2 (first_match_None _ _)) by done.
Qed.

(** C10.  [get_areas_list] returns a list in every case and raises in
    none: the areas of the document the engine holds, when it holds one;
    otherwise the areas of the document the loader returns, when the load
    succeeds; and the six default areas when nothing is held and the load
    raises, whatever the exception, as it does when there is no file at the
    loader's path. *)
Theorem get_areas_list_total (w : World) (self : t) :
  let defaults :=
    ["Connaught Place"; "Lajpat Nagar"; "Chandni Chowk";
     "Karol Bagh"; "Greater Kailash"; "Alaknanda"] in
  (∀ context,
     _context_cache self = Some context →
     (get_areas_list w self).1 = get_areas context)
  ∧ (∀ context loader,
       _context_cache self = None →
       load_product_context (fs w) (context_loader self) = (Ok context, loader) →
       (get_areas_list w self).1 = get_areas context)
  ∧ (∀ e loader,
       _context_cache self = None →
       load_product_context (fs w) (context_loader self) = (Raise e, loader) →
       (get_areas_list w self).1 = defaults)
  ∧ (_context_cache self = None →
     fs w (context_file_path (context_loader self)) = None →
     (get_areas_list w self).1 = defaults).
Proof.
  intros defaults. unfold get_areas_list, _get_context. split_and!.
  - by intros context ->.
  - by intros context loader -> ->.
  - by intros e loader -> ->.
  - intros -> Hf. unfold load_product_context. by rewrite Hf.
Qed.

Lemma fallback_recommendations_nonempty (user_query : UserQuery)
  (context : Context) :
  (1 ≤ length (recommendations
                 (_create_fallback_recommendations user_query context)))%nat.
Proof.
  unfold _create_fallback_recommendations. simpl.
  destruct (get_area_foods context (PromptBuilder.area user_query)); simpl; lia.
Qed.

Lemma post_process_nonempty (response : RecommendationResponse)
  (user_query : UserQuery) (context : Context) :
  (1 ≤ length (recommendations
                 (_post_process_response response user_query context).1))%nat.
Proof.
  unfold _post_process_response.
  destruct (recommendations response) eqn:E; simpl.
  - apply fallback_recommendations_nonempty.
  - lia.
Qed.

Lemma post_process_area (response : RecommendationResponse)
  (user_query : UserQuery) (context : Context) :
  area (_post_process_response response user_query context).1
  = if bool_decide (recommendations response = [])
       || negb (truthy (area response))
       || eq_str (area response) "Unknown Area"
    then PStr (PromptBuilder.area user_query)
    else area response.
Proof.
  unfold _post_process_response.
  destruct (recommendations response) eqn:E; simpl; [done|].
  by destruct (negb (truthy (area response)) || eq_str (area response) "Unknown Area").
Qed.

Lemma get_context_client (w : World) (self : t) :
  kiro_client (_get_context w self).2 = kiro_client self
  ∧ prompt_builder (_get_context w self).2 = prompt_builder self.
Proof.
  unfold _get_context. destruct (_context_cache self); [done|].
  by destruct (load_product_context (fs w) (context_loader self)) as [[?|?] ?].
Qed.

Lemma process_area_nonempty (area : string) (context : Context) :
  area ≠ "" →
  ∃ processed_area,
    _process_area_input area context = Ok processed_area
    ∧ (strip area ∈ get_areas context → processed_area = strip area).
Proof.
  intros Hne. unfold _process_area_input.
  destruct (String.eqb_spec area ""); [done|]. unfold str_in.
  case_bool_decide as Hin; [by eexists|].
  destruct (first_match (same_ignoring_case (strip area)) (get_areas context));
    [by eexists|].
  destruct (first_match (partial_match (strip area)) (get_areas context));
    by eexists.
Qed.

(** C2 (as amended).  Every call of [get_recommendations] returns a set
    with at least one recommendation, and which set is decided as follows.
    When the document cannot be obtained, when the requested area is the
    empty string, or when the payload cannot be built, it is the error
    response, under the requested area and with the text of the exception.
    Otherwise the requested area is resolved against the document (to its
    stripped form when that is a known area), the gateway is queried with
    the payload built for the resolved area, and the set returned is the
    gateway's answer after post-processing: its area is the resolved area
    when the gateway's answer has no recommendation or has an empty or
    ["Unknown Area"] area, and the area of the gateway's answer in every
    other case. *)
Theorem get_recommendations_nonempty (w : World)
  (area time_preference food_preferences budget_category : string) (self : t) :
  let response :=
    (get_recommendations w area time_preference food_preferences
                         budget_category self).1.1 in
  (1 ≤ length (recommendations response))%nat
  ∧ (∀ e, (_get_context w self).1 = Raise e →
          response = _create_error_response (msg e) area)
  ∧ (∀ context,
       (_get_context w self).1 = Ok context →
       (area = "" → response = _create_error_response "Area is required" area)
       ∧ (area ≠ "" →
          ∃ processed_area,
            _process_area_input area context = Ok processed_area
            ∧ (strip area ∈ get_areas context → processed_area = strip area)
            ∧ let user_query :=
                mkUserQuery processed_area time_preference food_preferences
                            budget_category in
              let built :=
                (PromptBuilder.build_prompt context user_query
                                            (prompt_builder self)).1 in
              (∀ e, built = Raise e →
                    response = _create_error_response (msg e) area)
              ∧ (∀ prompt,
                   built = Ok prompt →
                   let answer :=
                     returned (query (kiro_client self) (http w) prompt) in
                   response
                   = (_post_process_response answer user_query context).1
                   ∧ KiroClient.area response
                     = if bool_decide (recommendations answer = [])
                          || negb (truthy (KiroClient.area answer))
                          || eq_str (KiroClient.area answer) "Unknown Area"
                       then PStr processed_area
                       else KiroClient.area answer))).
Proof.
  intros response. subst response. unfold get_recommendations.
  destruct (get_context_client w self) as [Hk Hb].
  destruct (_get_context w self) as [[context|e] self1]; cbn [fst snd] in *;
    [|split; [simpl; lia|]; split; [by intros ? [= <-]|done]].
  assert (Hmain :
    (area = "" →
     match _process_area_input area context with
     | Ok _ => False
     | Raise e => msg e = "Area is required"
     end)
    ∧ (area ≠ "" →
       ∃ processed_area,
         _process_area_input area context = Ok processed_area
         ∧ (strip area ∈ get_areas context → processed_area = strip area))).
  { split; [by intros ->|apply process_area_nonempty]. }
  destruct Hmain as [Hempty Hfull].
  destruct (_process_area_input area context) as [processed_area|e] eqn:Hp.
  - rewrite Hb.
    destruct (PromptBuilder.build_prompt context
                (mkUserQuery processed_area time_preference food_preferences
                             budget_category) (prompt_builder self))
      as [[prompt|e] builder] eqn:Hprompt.
    + cbn [prompt_builder kiro_client set_builder]. rewrite Hk.
      pose proof (post_process_nonempty
                    (returned (query (kiro_client self) (http w) prompt))
                    (mkUserQuery processed_area time_preference
                                 food_preferences budget_category) context)
        as Hlen.
      pose proof (post_process_area
                    (returned (query (kiro_client self) (http w) prompt))
                    (mkUserQuery processed_area time_preference
                                 food_preferences budget_category) context)
        as Harea.
      destruct (_post_process_response _ _ _) as [processed response']
        eqn:Hpost; cbn [fst snd] in *.
      split; [done|]. split; [done|]. intros ? [= <-].
      split; [by intros ?%Hempty|]. intros Hne.
      destruct (Hfull Hne) as (pa & [= <-] & Hin).
      exists processed_area. split; [done|]. split; [done|].
      cbv zeta. rewrite Hprompt. cbn [fst]. split; [done|].
      intros ? [= <-]. by rewrite Hpost.
    + split; [simpl; lia|]. split; [done|]. intros ? [= <-].
      split; [by intros ?%Hempty|]. intros Hne.
      destruct (Hfull Hne) as (pa & [= <-] & Hin).
      exists processed_area. split; [done|]. split; [done|].
      cbv zeta. rewrite Hprompt. cbn [fst]. split; [by intros ? [= <-]|done].
  - split; [simpl; lia|]. split; [done|]. intros ? [= <-]. split.
    + intros Ha. by rewrite (Hempty Ha).
    + intros Hne. by destruct (Hfull Hne) as (? & ? & _).
Qed.

End WithRuntime.

Lemma process_area_precedence_witness :
  _process_area_input (rt := example_runtime) " connaught place "
    Examples.context_two_areas
  = Ok "Connaught Place".
Proof.
  destruct (process_area_precedence (rt := example_runtime)
              " connaught place " Examples.context_two_areas ltac:(done))
    as (_ & Hci & _).
  apply (Hci ltac:(apply (bool_decide_unpack _); by vm_compute)
             [] "Connaught Place" ["Lajpat Nagar"]).
  - reflexivity.
  - reflexivity.
  - by intros x ?%elem_of_nil.
Defined.

(** C8, counterexample.  A raw string with surrounding blanks that matches
    no area, exactly, up to case or partially: what is returned is the
    stripped string, not the raw one. *)
Lemma process_area_strips_unmatched :
  str_in "  Mars  " (get_areas Examples.context_two_areas) = false
  ∧ first_match (same_ignoring_case (rt := example_runtime) "  Mars  ")
                (get_areas Examples.context_two_areas) = None
  ∧ first_match (partial_match (rt := example_runtime) "  Mars  ")
                (get_areas Examples.context_two_areas) = None
  ∧ _process_area_input (rt := example_runtime) "  Mars  "
      Examples.context_two_areas = Ok "Mars"
  ∧ _process_area_input (rt := example_runtime) "  Mars  "
      Examples.context_two_areas ≠ Ok "  Mars  ".
Proof. by vm_compute. Qed.

(** C2, counterexample.  With a credential and a service that times out,
    the request for ["Connaught Place"] is answered with the gateway's
    fallback, whose area is ["Error"]; without a credential, the request for
    ["connaught place"] is answered with the area in the document's
    spelling. *)
Lemma get_recommendations_area_differs :
  KiroClient.area
    (get_recommendations (rt := example_runtime) Examples.world_timeout
       "Connaught Place" "Evening" "momos" "Budget-friendly"
       Examples.engine_with_key).1.1
  = PStr "Error"
  ∧ KiroClient.area
      (get_recommendations (rt := example_runtime) Examples.world_timeout
         "connaught place" "Evening" "momos" "Budget-friendly"
         Examples.engine_without_key).1.1
    = PStr "Connaught Place".
Proof. by vm_compute. Qed.

(** The scenario of the offline substitute: with no credential, the request
    for ["Connaught Place"] in the evening is answered, without any HTTP
    request, by the three canned recommendations under the requested area. *)
Example offline_scenario :
  (get_recommendations (rt := example_runtime) Examples.world_timeout
     "Connaught Place" "Evening" "momos" "Budget-friendly"
     Examples.engine_without_key).1.1
  = {| KiroClient.area := PStr "Connaught Place";
        recommendations :=
          [ {| food_name := PStr "Momos";
               location := PStr "Janpath Lane";
               price_range := PStr "₹70-90";
               crowd_info := PStr "High after 6 PM, best before 7 PM";
               local_tip :=
                 PStr "Avoid the stalls right at metro exit, walk a bit inside for better quality";
               hygiene_rating := PStr "Green" |};
            {| food_name := PStr "Chaat";
               location := PStr "Palika Bazaar area";
               price_range := PStr "₹60-120";
               crowd_info := PStr "Busy throughout evening";
               local_tip := PStr "Try the bhel puri, it's fresh and tasty";
               hygiene_rating := PStr "Yellow" |};
            {| food_name := PStr "Kulfi";
               location := PStr "Connaught Circus";
               price_range := PStr "₹40-80";
               crowd_info := PStr "Popular after dinner";
               local_tip := PStr "Perfect for ending your street food tour";
               hygiene_rating := PStr "Green" |} ];
        alternative_areas := PList [PStr "Karol Bagh"; PStr "Lajpat Nagar"];
        local_context :=
          PStr "Bhai, Connaught Place is great for street food! Evening time is perfect, just watch out for the crowds. The momos here are famous among locals." |}
  ∧ (get_recommendations (rt := example_runtime) Examples.world_timeout
       "Connaught Place" "Evening" "momos" "Budget-friendly"
       Examples.engine_without_key).2 = [].
Proof. by vm_compute. Qed.

(** The hash of the examples agrees with the RFC 1321 test suite. *)
Example md5_test_suite :
  Md5.hexdigest "" = "d41d8cd98f00b204e9800998ecf8427e"
  ∧ Md5.hexdigest "abc" = "900150983cd24fb0d6963f7d28e17f72"
  ∧ Md5.hexdigest "message digest" = "f96b697d7cb7938d525a2f31aaf161d0"
  ∧ Md5.hexdigest "12345678901234567890123456789012345678901234567890123456789012345678901234567890"
    = "57edf4a22be3c955ac49da2e2107b67a".
Proof. by vm_compute. Qed.
End RecommendationEngineProps.

(** * Further properties *)


(** ** More on the knowledge store *)

Module ContextLoaderExtras.
Import Re ContextLoader ContextLoaderApi.

Section WithRuntime.
Context {rt : Runtime}.

(** X1.  [_validate_context] raises only for the first of [areas],
    [food_options], [response_guidelines] that is absent or empty, in that
    order, and succeeds when none is; the two length checks that follow the
    loop never raise. *)
Theorem validate_context_outcome (context : Context) :
  match _validate_context context with
  | Ok _ =>
      get_areas context ≠ []
      ∧ default ∅ (food_options context) ≠ ∅
      ∧ default [] (response_guidelines context) ≠ []
  | Raise e =>
      (e = missing_field "areas" ∧ get_areas context = [])
      ∨ (e = missing_field "food_options"
         ∧ get_areas context ≠ []
         ∧ default ∅ (food_options context) = ∅)
      ∨ (e = missing_field "response_guidelines"
         ∧ get_areas context ≠ []
         ∧ default ∅ (food_options context) ≠ ∅
         ∧ default [] (response_guidelines context) = [])
  end.
Proof.
  unfold _validate_context, get_areas.
  destruct (areas context) as [[|a l]|]; simpl; [by left|..|by left].
  destruct (food_options context) as [m|]; simpl; [|by right; left].
  case_bool_decide as Hm; simpl; [subst m; by right; left|].
  destruct (response_guidelines context) as [[|g gs]|]; simpl;
    [by right; right|done|by right; right].
Qed.

Lemma load_failure_keeps_loader (fs : FS) (self : t) (e : exn) :
  (load_product_context fs self).1 = Raise e →
  (load_product_context fs self).2 = self.
Proof.
  unfold load_product_context.
  destruct (fs (context_file_path self)) as [f|]; [|done].
  destruct (_cached_context self) as [cached|].
  - case_bool_decide; [|done]. by destruct (_parse_context_file f).
  - by destruct (_parse_context_file f).
Qed.

(** X2.  After a load that read the file and succeeded, the loader answers
    from its cache as long as the file's modification time is the one it
    recorded: the document returned is the one parsed before and the file is
    not read, whatever its content has become or even if it has become
    unreadable.  Whenever a load raises, the loader is left as it was, so the
    document cached before stays available. *)
Theorem load_cached_until_modified
  (fs : FS) (self self1 : t) (f : File) (doc : Context) :
  needs_reload self f →
  fs (context_file_path self) = Some f →
  load_product_context fs self = (Ok doc, self1) →
  (∀ fs' f',
     fs' (context_file_path self) = Some f' →
     mtime f' = mtime f →
     load_product_context fs' self1 = (Ok doc, self1))
  ∧ (∀ fs' e,
       (load_product_context fs' self1).1 = Raise e →
       (load_product_context fs' self1).2 = self1
       ∧ _cached_context (load_product_context fs' self1).2 = Some doc).
Proof.
  intros Hn Hf Hl. rewrite (ContextLoaderProps.load_uncached fs self f Hn Hf) in Hl.
  destruct (_parse_context_file f) as [doc'|e']; [|done].
  injection Hl as -> <-. split.
  - intros fs' f' Hf' Hm. unfold load_product_context. simpl.
    rewrite Hf', Hm. by rewrite bool_decide_eq_false_2 by (by intros []).
  - intros fs' e He. by rewrite (load_failure_keeps_loader _ _ _ He).
Qed.

Lemma add_area_clean (acc : list string) (x : string) :
  Forall (fun y => y ≠ "" ∧ strip y = y) acc →
  Forall (fun y => y ≠ "" ∧ strip y = y) (add_area acc x).
Proof.
  intros Hacc. unfold add_area.
  destruct (String.eqb_spec (strip x) ""); simpl; [done|].
  destruct (str_in (strip x) acc); simpl; [done|].
  apply Forall_app. split; [done|].
  apply Forall_singleton. split; [done|apply strip_idem].
Qed.

Lemma foldl_add_area_clean (xs acc : list string) :
  Forall (fun y => y ≠ "" ∧ strip y = y) acc →
  Forall (fun y => y ≠ "" ∧ strip y = y) (foldl add_area acc xs).
Proof.
  revert acc. induction xs as [|x xs IH]; intros acc Hacc; [done|].
  simpl. by apply IH, add_area_clean.
Qed.

(** X3.  No extracted area is the empty string, and none has leading or
    trailing whitespace: a heading or bold label is stripped before it is
    kept, and dropped when nothing is left of it. *)
Theorem extract_areas_clean (content : string) :
  Forall (fun area => area ≠ "" ∧ strip area = area) (_extract_areas content).
Proof.
  unfold _extract_areas. rewrite Forall_forall.
  intros x Hx. apply (proj1 (ContextLoaderProps.sorted_set_elem _ _)) in Hx.
  revert x Hx.
  rewrite <- Forall_forall. by do 2 apply foldl_add_area_clean.
Qed.

Lemma food_step_dom (st : food_state) (line : string) :
  (∀ a, st.1 = Some a → a ∈ dom st.2) →
  dom (food_step st line).2
  = dom st.2 ∪ list_to_set (option_list (heading_of line))
  ∧ (∀ a, (food_step st line).1 = Some a → a ∈ dom (food_step st line).2).
Proof.
  destruct st as [cur m]. simpl. intros Hinv.
  unfold food_step, heading_of.
  destruct (re_match area_pattern line) as [am|]; simpl.
  - generalize (strip (group 1 am)). intros a.
    assert (Hm' : dom (match m !! a with Some _ => m | None => <[a:=[]]> m end)
                  = dom m ∪ {[a]}).
    { destruct (m !! a) eqn:E.
      - apply (elem_of_dom_2 m) in E. set_solver.
      - rewrite dom_insert_L. set_solver. }
    revert Hm'.
    generalize (match m !! a with Some _ => m | None => <[a:=[]]> m end).
    intros m' Hm'.
    destruct (re_match food_pattern line) as [fm|]; simpl.
    + destruct (String.eqb a ""); simpl.
      * split; [set_solver|]. intros ? [= <-]. set_solver.
      * rewrite dom_insert_L. split; [set_solver|]. intros ? [= <-]. set_solver.
    + split; [set_solver|]. intros ? [= <-]. set_solver.
  - destruct (re_match food_pattern line) as [fm|]; simpl.
    + destruct cur as [a|]; simpl; [|split; [set_solver|done]].
      destruct (String.eqb a ""); simpl; [split; [set_solver|done]|].
      rewrite dom_insert_L. specialize (Hinv a eq_refl).
      split; [set_solver|]. intros ? [= <-]. set_solver.
    + split; [set_solver|done].
Qed.

Lemma foldl_food_step_dom (ls : list string) (st : food_state) :
  (∀ a, st.1 = Some a → a ∈ dom st.2) →
  dom (foldl food_step st ls).2
  = dom st.2 ∪ list_to_set (omap heading_of ls).
Proof.
  revert st. induction ls as [|line ls IH]; intros st Hinv; simpl.
  - set_solver.
  - destruct (food_step_dom st line Hinv) as [Hd Hinv'].
    rewrite (IH _ Hinv'), Hd.
    destruct (heading_of line); simpl; set_solver.
Qed.

(** X4.  The keys of [food_options] are exactly the stripped names of the
    area headings that start a line of the document: a food line never
    creates a key, and a food line met before any heading is dropped. *)
Theorem food_options_keys (content : string) :
  dom (_extract_food_options content)
  = list_to_set (omap heading_of (lines content)).
Proof.
  unfold _extract_food_options, lines.
  rewrite foldl_food_step_dom by done. simpl. set_solver.
Qed.

Lemma time_step_dom (content : string) (m : gmap string TimeRec)
  (time_period : string) :
  dom (time_step content m time_period) ⊆ dom m ∪ {[lower time_period]}.
Proof.
  unfold time_step. destruct (re_search _ content); [|set_solver].
  rewrite dom_insert. set_solver.
Qed.

Lemma foldl_time_step_dom (content : string) (ps : list string)
  (m : gmap string TimeRec) :
  dom (foldl (time_step content) m ps) ⊆ dom m ∪ list_to_set (lower <$> ps).
Proof.
  revert m. induction ps as [|p ps IH]; intros m; simpl; [set_solver|].
  pose proof (IH (time_step content m p)).
  pose proof (time_step_dom content m p). set_solver.
Qed.

Lemma parse_ok_inv (f : File) (doc : Context) :
  _parse_context_file f = Ok doc →
  ∃ content, read f = Ok content ∧ doc = build_context content.
Proof.
  unfold _parse_context_file, try_except.
  destruct (read f) as [content|e]; simpl; [|done].
  destruct (String.eqb (strip content) ""); simpl; [done|].
  destruct (_validate_context (build_context content)); simpl; [|done].
  intros [= <-]. by exists content.
Qed.

Lemma load_ok_inv (fs : FS) (self : t) (f : File) (doc : Context) :
  needs_reload self f →
  fs (context_file_path self) = Some f →
  (load_product_context fs self).1 = Ok doc →
  ∃ content, read f = Ok content ∧ doc = build_context content.
Proof.
  intros Hn Hf. rewrite (ContextLoaderProps.load_uncached fs self f Hn Hf).
  destruct (_parse_context_file f) as [doc'|e] eqn:E; [|done].
  simpl. intros [= <-]. by apply parse_ok_inv.
Qed.

(** X5.  Only the four periods are ever keys of the time recommendations,
    in lower case; so for a document just read, the accessor answers any other
    period with the empty result, and it looks the period up in lower
    case. *)
Theorem time_recommendations_periods
  (fs : FS) (self : t) (f : File) (doc : Context) (time_period : string) :
  needs_reload self f →
  fs (context_file_path self) = Some f →
  (load_product_context fs self).1 = Ok doc →
  (lower time_period ∉ ["morning"; "afternoon"; "evening"; "late night"] →
   (get_time_recommendations fs time_period self).1 = Ok None)
  ∧ (get_time_recommendations fs time_period self).1
    = (get_time_recommendations fs (lower time_period) self).1.
Proof.
  intros Hn Hf Hl.
  destruct (load_ok_inv fs self f doc Hn Hf Hl) as (content & _ & ->).
  unfold get_time_recommendations.
  destruct (load_product_context fs self) as [r self']. simpl in *. subst r.
  simpl. split.
  - intros Hp. f_equal. apply not_elem_of_dom.
    pose proof (foldl_time_step_dom content time_sections ∅) as Hd.
    unfold _extract_time_recommendations. intros Hin. apply Hd in Hin.
    assert (Hs : lower <$> time_sections
                 = ["morning"; "afternoon"; "evening"; "late night"]).
    { unfold time_sections. simpl.
      by rewrite !lower_ascii by (by vm_compute). }
    rewrite Hs in Hin. apply Hp. set_solver.
  - by rewrite lower_idem.
Qed.


End WithRuntime.

Lemma load_cached_until_modified_witness :
  (∀ fs' f',
     fs' (context_file_path (__init__ default_path)) = Some f' →
     mtime f' = mtime (Examples.file_of Examples.doc_small) →
     load_product_context (rt := example_runtime) fs'
       (load_product_context (rt := example_runtime)
          (Examples.fs_with Examples.doc_small) (__init__ default_path)).2
     = (Ok (build_context (rt := example_runtime) Examples.doc_small),
        (load_product_context (rt := example_runtime)
           (Examples.fs_with Examples.doc_small) (__init__ default_path)).2))
  ∧ load_product_context (rt := example_runtime) (Examples.fs_with "now blank")
      (load_product_context (rt := example_runtime)
         (Examples.fs_with Examples.doc_small) (__init__ default_path)).2
    = (Ok (build_context (rt := example_runtime) Examples.doc_small),
       (load_product_context (rt := example_runtime)
          (Examples.fs_with Examples.doc_small) (__init__ default_path)).2).
Proof.
  destruct (load_cached_until_modified (rt := example_runtime)
              (Examples.fs_with Examples.doc_small) (__init__ default_path)
              (load_product_context (rt := example_runtime)
                 (Examples.fs_with Examples.doc_small)
                 (__init__ default_path)).2
              (Examples.file_of Examples.doc_small)
              (build_context (rt := example_runtime) Examples.doc_small))
    as [Hsame _].
  - by left.
  - reflexivity.
  - by vm_compute.
  - split; [exact Hsame|]. by apply (Hsame _ (Examples.file_of "now blank")).
Defined.

Lemma time_recommendations_periods_witness :
  (lower (Runtime := example_runtime) "Brunch"
     ∉ ["morning"; "afternoon"; "evening"; "late night"] →
   (get_time_recommendations (rt := example_runtime)
      (Examples.fs_with Examples.doc_evening) "Brunch"
      (__init__ default_path)).1 = Ok None)
  ∧ (get_time_recommendations (rt := example_runtime)
       (Examples.fs_with Examples.doc_evening) "Brunch"
       (__init__ default_path)).1
    = (get_time_recommendations (rt := example_runtime)
         (Examples.fs_with Examples.doc_evening)
         (lower (Runtime := example_runtime) "Brunch")
         (__init__ default_path)).1.
Proof.
  apply (time_recommendations_periods (rt := example_runtime)
           (Examples.fs_with Examples.doc_evening) (__init__ default_path)
           (Examples.file_of Examples.doc_evening)
           (build_context (rt := example_runtime) Examples.doc_evening)
           "Brunch").
  - by left.
  - reflexivity.
  - by vm_compute.
Defined.

(** The entry of the evening in the example document, reached with any
    spelling of the period. *)
Example evening_entry :
  (get_time_recommendations (rt := example_runtime)
     (Examples.fs_with Examples.doc_evening) "EVENING"
     (__init__ default_path)).1
  = Ok (Some (mkTimeRec "Karol Bagh, Lajpat Nagar" "Chaat and momos"
                "**Best Areas**: Karol Bagh, Lajpat Nagar
**Recommended**: Chaat and momos
## Response Guidelines
- Speak like a local")).
Proof. by vm_compute. Qed.


End ContextLoaderExtras.

(** ** More on the inference gateway *)

Module KiroClientExtras.
Import KiroClient Gateway.

Section WithRuntime.
Context {rt : Runtime}.

Lemma attempt_body_pause (self : t) (http : Service) (attempt : nat) (d : Z) :
  attempt_body self http attempt = Ok (inr d) →
  (attempt + 1 < max_retries self)%nat
  ∧ d = retry_delay self * 2 ^ Z.of_nat attempt.
Proof.
  unfold attempt_body. destruct (http attempt) as [status_code text|e]; [|done].
  destruct (status_code =? 200).
  - destruct (json_loads text) as [body|e]; simpl; [|done].
    by destruct (extract_content body).
  - destruct (status_code =? 429); [|done].
    destruct (Nat.ltb_spec (attempt + 1) (max_retries self)); [|done].
    by intros [= <-].
Qed.

Lemma continue_events (self : t) (http : Service) (remaining attempt : nat)
  (last_error : option string) (pause : list event) :
  (let '(r, evs) := request_loop self http remaining (S attempt) last_error in
   (r, Post attempt :: pause ++ evs)).2
  = Post attempt :: pause
      ++ (request_loop self http remaining (S attempt) last_error).2.
Proof. by destruct (request_loop self http remaining (S attempt) last_error). Qed.

Lemma paced_single (self : t) (remaining attempt : nat) :
  paced self (S remaining) [Post attempt].
Proof.
  unfold paced, attempts, sleeps. simpl. split_and!; [lia|done| |done].
  intros _. split; [lia|]. by exists [], attempt.
Qed.

Lemma paced_step (self : t) (remaining attempt : nat) (d : Z)
  (evs : list event) :
  (0 < remaining)%nat →
  (d = retry_delay self
   ∨ ∃ i, (i + 1 < max_retries self)%nat
          ∧ d = retry_delay self * 2 ^ Z.of_nat i) →
  paced self remaining evs →
  paced self (S remaining) (Post attempt :: [Sleep d] ++ evs).
Proof.
  intros Hr Hd (Ha & _ & Hpos & Hs). destruct (Hpos Hr) as (Hl & evs0 & k & E).
  unfold paced, attempts, sleeps in *. cbn [omap list_omap app length] in *.
  split_and!.
  - lia.
  - done.
  - intros _. split; [lia|]. exists (Post attempt :: Sleep d :: evs0), k.
    by rewrite E.
  - by constructor.
Qed.

Lemma request_loop_paced (self : t) (http : Service) (remaining attempt : nat)
  (last_error : option string) :
  (attempt + remaining = max_retries self)%nat →
  paced self remaining (request_loop self http remaining attempt last_error).2.
Proof.
  revert attempt last_error.
  induction remaining as [|remaining IH]; intros attempt last_error Hsum.
  - unfold paced, attempts, sleeps. simpl. split_and!; [lia|done|lia|done].
  - assert (Hnext : ∀ le d,
              (attempt + 1 < max_retries self)%nat →
              (d = retry_delay self
               ∨ ∃ i, (i + 1 < max_retries self)%nat
                      ∧ d = retry_delay self * 2 ^ Z.of_nat i) →
              paced self (S remaining)
                (Post attempt :: [Sleep d]
                   ++ (request_loop self http remaining (S attempt) le).2)).
    { intros le d Hlt Hd. apply paced_step; [lia|done|]. apply IH. lia. }
    assert (Hlast : ∀ le,
              ¬ (attempt + 1 < max_retries self)%nat →
              paced self (S remaining)
                (Post attempt :: []
                   ++ (request_loop self http remaining (S attempt) le).2)).
    { intros le Hge. assert (remaining = 0%nat) as -> by lia. simpl.
      apply paced_single. }
    cbn [request_loop].
    destruct (attempt_body self http attempt) as [[content|d]|e] eqn:Hb.
    + apply paced_single.
    + rewrite continue_events.
      destruct (attempt_body_pause _ _ _ _ Hb) as [Hlt ->].
      apply Hnext; [done|]. right. by exists attempt.
    + destruct (cls e); try apply paced_single;
        rewrite continue_events;
        (destruct (Nat.ltb_spec (attempt + 1) (max_retries self));
         [apply Hnext; [done|by left]|apply Hlast; lia]).
Qed.

(** X7.  Whatever the service does, one call of [query] makes at most
    [max_retries] requests and pauses fewer times than it makes requests;
    it never pauses after its last request; and each pause lasts either
    [retry_delay] or [retry_delay] times 2 to the number of an attempt that
    is not the last one. *)
Theorem query_request_budget (self : t) (http : Service) (prompt : string) :
  (attempts (events (query self http prompt)) ≤ max_retries self)%nat
  ∧ (length (sleeps (events (query self http prompt)))
     ≤ attempts (events (query self http prompt)) - 1)%nat
  ∧ (∀ d, last (events (query self http prompt)) ≠ Some (Sleep d))
  ∧ Forall (fun d => d = retry_delay self
                     ∨ ∃ i, (i + 1 < max_retries self)%nat
                            ∧ d = retry_delay self * 2 ^ Z.of_nat i)
           (sleeps (events (query self http prompt))).
Proof.
  assert (Hev : events (query self http prompt) = []
                ∨ events (query self http prompt)
                  = (request_loop self http (max_retries self) 0 None).2).
  { unfold query, query_body, _send_kiro_request.
    destruct (_response_cache self !! _get_cache_key prompt); [by left|].
    destruct (api_key self) as [[|a k]|]; simpl.
    - destruct (_parse_response _); by left.
    - right. destruct (request_loop self http (max_retries self) 0 None)
        as [[raw|e] evs]; simpl; [|done].
      by destruct (_parse_response raw).
    - destruct (_parse_response _); by left. }
  destruct Hev as [-> | ->];
    [unfold attempts, sleeps; simpl; split_and!; [lia|lia|done|done]|].
  destruct (request_loop_paced self http (max_retries self) 0 None eq_refl)
    as (Ha & Hzero & Hpos & Hs).
  destruct (max_retries self) as [|n] eqn:Hn.
  - rewrite Hzero by done.
    unfold attempts, sleeps; simpl; split_and!; [lia|lia|done|done].
  - destruct Hpos as (Hl & evs0 & k & E); [lia|].
    split_and!; [done|lia| |done].
    intros d. rewrite E, last_snoc. done.
Qed.

Lemma continue_result (self : t) (http : Service) (remaining attempt : nat)
  (last_error : option string) (pause : list event) :
  (let '(r, evs) := request_loop self http remaining (S attempt) last_error in
   (r, Post attempt :: pause ++ evs)).1
  = (request_loop self http remaining (S attempt) last_error).1.
Proof. by destruct (request_loop self http remaining (S attempt) last_error). Qed.

Lemma attempt_body_retryable (self : t) (http : Service) (attempt : nat) :
  retryable (http attempt) →
  (attempt + 1 < max_retries self)%nat →
  (∃ d, attempt_body self http attempt = Ok (inr d))
  ∨ (∃ e, attempt_body self http attempt = Raise e
          ∧ (cls e = Timeout ∨ cls e = ConnectionError)).
Proof.
  unfold retryable, attempt_body. intros Hr Hlt.
  destruct (http attempt) as [status_code text|e].
  - subst status_code. simpl.
    destruct (Nat.ltb_spec (attempt + 1) (max_retries self)); [|lia].
    left. by eexists.
  - right. by exists e.
Qed.

Lemma request_loop_succeeds (self : t) (http : Service) (n : nat)
  (content : pyval) (remaining attempt : nat) (last_error : option string) :
  (attempt + remaining = max_retries self)%nat →
  (attempt ≤ n)%nat → (n < max_retries self)%nat →
  (∀ i, (attempt ≤ i < n)%nat → retryable (http i)) →
  attempt_body self http n = Ok (inl content) →
  (request_loop self http remaining attempt last_error).1 = Ok content
  ∧ attempts (request_loop self http remaining attempt last_error).2
    = (S n - attempt)%nat.
Proof.
  revert attempt last_error.
  induction remaining as [|remaining IH];
    intros attempt last_error Hsum Hle Hn Hretry Hok; [lia|].
  cbn [request_loop].
  destruct (decide (attempt = n)) as [->|Hne].
  - rewrite Hok. simpl. split; [done|]. unfold attempts. simpl. lia.
  - assert (Hgo : ∀ le pause,
              attempts pause = 0%nat →
              (let '(r, evs) := request_loop self http remaining (S attempt) le in
               (r, Post attempt :: pause ++ evs)).1 = Ok content
              ∧ attempts
                  (let '(r, evs) :=
                     request_loop self http remaining (S attempt) le in
                   (r, Post attempt :: pause ++ evs)).2
                = (S n - attempt)%nat).
    { intros le pause Hp. rewrite continue_result, continue_events.
      destruct (IH (S attempt) le) as [-> Ha]; [lia|lia|done| |done|].
      - intros i Hi. apply Hretry. lia.
      - split; [done|]. unfold attempts in *. cbn [omap list_omap length].
        rewrite omap_app, length_app, Hp, Ha. lia. }
    destruct (attempt_body_retryable self http attempt) as [[d ->]|(e & -> & Hc)].
    + apply Hretry. lia.
    + lia.
    + by apply Hgo.
    + destruct Hc as [-> | ->]; apply Hgo;
        by destruct (attempt + 1 <? max_retries self)%nat.
Qed.

(** X8.  With a credential, when the first [n] attempts are answered 429
    or end in a timeout or a connection error, [n] is within the attempt
    budget, and attempt [n] is answered 200 with a body that decodes and
    holds a content, the request returns that content after exactly [n + 1]
    requests. *)
Theorem retry_until_success (self : t) (http : Service) (prompt : string)
  (n : nat) (text : string) (body content : pyval) (a : ascii) (k : string) :
  api_key self = Some (String a k) →
  (n < max_retries self)%nat →
  (∀ i, (i < n)%nat → retryable (http i)) →
  http n = Response 200 text →
  json_loads text = Ok body →
  extract_content body = Ok content →
  (_send_kiro_request self http prompt).1 = Ok content
  ∧ attempts (_send_kiro_request self http prompt).2 = S n.
Proof.
  intros Hkey Hn Hretry Hhttp Hbody Hcontent.
  unfold _send_kiro_request. rewrite Hkey.
  destruct (request_loop_succeeds self http n content (max_retries self) 0 None)
    as [-> ->]; [done|lia|done| | |split; [done|lia]].
  - intros i Hi. apply Hretry. lia.
  - unfold attempt_body. rewrite Hhttp. simpl. rewrite Hbody. simpl.
    by rewrite Hcontent.
Qed.

(** X9.  A 200 reply whose body cannot be decoded, or does not have the
    shape [choices[0].message.content], ends the request at once, even with
    attempts left: one request, no pause, and the failure raised carries the
    text of the exception. *)
Theorem malformed_reply_not_retried (self : t) (http : Service)
  (prompt : string) (text : string) (e : exn) (a : ascii) (k : string) :
  api_key self = Some (String a k) →
  (0 < max_retries self)%nat →
  http 0%nat = Response 200 text →
  (body ← json_loads text; extract_content body) = Raise e →
  cls e ≠ Timeout → cls e ≠ ConnectionError →
  _send_kiro_request self http prompt
  = (Raise (failed_after self (Some (msg e))), [Post 0]).
Proof.
  intros Hkey Hmax Hhttp Hbody Ht Hc.
  unfold _send_kiro_request. rewrite Hkey.
  destruct (max_retries self) as [|m] eqn:Hm; [lia|].
  cbn [request_loop]. unfold attempt_body. rewrite Hhttp. simpl.
  destruct (json_loads text) as [body|e'] eqn:Hl; simpl in *.
  - rewrite Hbody. simpl. by destruct (cls e).
  - injection Hbody as ->. by destruct (cls e).
Qed.

(** X10.  A reply that was parsed is stored under the prompt's key and
    served again on the next query with the same prompt, whatever the
    service does then and without a request; after [clear_cache] the entry
    is forgotten and the same query is answered as by a client whose cache
    was cleared before. *)
Theorem cached_reply_served_again (self : t) (http http' : Service)
  (prompt : string) (raw : pyval) (parsed : RecommendationResponse) :
  _response_cache self !! _get_cache_key prompt = None →
  (_send_kiro_request self http prompt).1 = Ok raw →
  _parse_response raw = Ok parsed →
  _response_cache (client (query self http prompt)) !! _get_cache_key prompt
  = Some parsed
  ∧ query (client (query self http prompt)) http' prompt
    = mkOutcome parsed (client (query self http prompt)) []
  ∧ query (clear_cache (client (query self http prompt))) http' prompt
    = query (clear_cache self) http' prompt.
Proof.
  intros Hc Hs Hp. rewrite (KiroClientProps.query_uncached _ _ _ Hc).
  destruct (_send_kiro_request self http prompt) as [sent evs].
  simpl in Hs. subst sent. simpl. rewrite Hp. simpl.
  split_and!.
  - by rewrite lookup_insert_eq.
  - unfold query, query_body. simpl. by rewrite lookup_insert_eq.
  - done.
Qed.

(** X11.  [query] only ever adds to the cache: an entry present before the
    call is still there, unchanged, after it, and no key other than the
    prompt's is touched; the configuration of the client is not changed
    either. *)
Theorem query_cache_frame (self : t) (http : Service) (prompt : string) :
  (∀ k r, _response_cache self !! k = Some r →
          _response_cache (client (query self http prompt)) !! k = Some r)
  ∧ (∀ k, k ≠ _get_cache_key prompt →
          _response_cache (client (query self http prompt)) !! k
          = _response_cache self !! k)
  ∧ api_key (client (query self http prompt)) = api_key self
  ∧ max_retries (client (query self http prompt)) = max_retries self
  ∧ retry_delay (client (query self http prompt)) = retry_delay self.
Proof.
  destruct (_response_cache self !! _get_cache_key prompt) as [response|] eqn:Hc.
  - unfold query, query_body. rewrite Hc. by simpl.
  - rewrite (KiroClientProps.query_uncached _ _ _ Hc).
    destruct (_send_kiro_request self http prompt) as [[raw|e] evs]; simpl;
      [|done].
    destruct (_parse_response raw) as [parsed|e]; simpl; [|done].
    split_and!; [|by intros k Hk; rewrite lookup_insert_ne|done..].
    intros k r Hk. rewrite lookup_insert_ne; [done|]. by intros <-; congruence.
Qed.

(** X12.  Every failure of [_parse_response] is a plain [Exception] whose
    message starts with one of two prefixes; a reply that is not a string,
    and a reply that decodes to something other than an object, fail with the
    second prefix and a text that says which. *)
Theorem parse_failures (raw_response : pyval) :
  match _parse_response raw_response with
  | Ok _ => ∃ raw, raw_response = PStr raw
  | Raise e =>
      cls e = Exception
      ∧ ∃ m, msg e = "Invalid JSON response from Kiro: " +:+ m
             ∨ msg e = "Error parsing Kiro response: " +:+ m
  end
  ∧ ((∀ raw, raw_response ≠ PStr raw) →
     _parse_response raw_response
     = Raise (Exn Exception
                ("Error parsing Kiro response: '" +:+ type_name raw_response
                 +:+ "' object has no attribute 'strip'")))
  ∧ (∀ raw data,
       raw_response = PStr raw →
       json_loads (clean_reply raw) = Ok data →
       (∀ d, data ≠ PDict d) →
       _parse_response raw_response
       = Raise (Exn Exception
                  "Error parsing Kiro response: Response is not a JSON object")).
Proof.
  split_and!.
  - unfold _parse_response.
    destruct (parse_body raw_response) as [response|e] eqn:Hb.
    + unfold parse_body in Hb. destruct raw_response; try done. by eexists.
    + destruct (cls e); simpl; (split; [done|]); eexists; eauto.
  - intros Hns. unfold _parse_response, parse_body.
    destruct raw_response; try done. by destruct (Hns s).
  - intros raw data -> Hl Hd. unfold _parse_response, parse_body. rewrite Hl.
    simpl. destruct data; try done. by destruct (Hd d).
Qed.

Lemma parse_asdict (r : FoodRecommendation) :
  parse_rec (EngineQueries.asdict r) = Some r.
Proof. by destruct r. Qed.

Lemma omap_parse_asdict (recs : list FoodRecommendation) :
  omap parse_rec (EngineQueries.asdict <$> recs) = recs.
Proof.
  induction recs as [|r recs IH]; [done|].
  cbn -[parse_rec EngineQueries.asdict]. rewrite parse_asdict.
  cbn -[parse_rec EngineQueries.asdict] in *. by rewrite IH.
Qed.

(** X13.  The dict [to_dict] makes of a response is read back by the
    parser as that response: a reply that decodes to [to_dict response]
    parses to [response]. *)
Theorem parse_to_dict (raw : string) (response : RecommendationResponse) :
  json_loads (clean_reply raw) = Ok (EngineQueries.to_dict response) →
  _parse_response (PStr raw) = Ok response.
Proof.
  intros Hl. unfold _parse_response, parse_body. rewrite Hl.
  cbn -[parse_rec EngineQueries.asdict]. rewrite omap_parse_asdict.
  by destruct response.
Qed.

(** X14.  Without a credential ([None] or the empty string) and with the
    prompt not cached, provided the decoder reads back what [json.dumps]
    wrote for the canned reply, [query] makes no request and returns the three
    canned recommendations under the area found in the prompt, and stores
    them in the cache. *)
Theorem offline_substitute (self : t) (http : Service) (prompt : string) :
  api_key self = None ∨ api_key self = Some "" →
  _response_cache self !! _get_cache_key prompt = None →
  json_loads (clean_reply (json_dumps (mock_reply_value (mock_area prompt))))
  = Ok (mock_reply_value (mock_area prompt)) →
  events (query self http prompt) = []
  ∧ area (returned (query self http prompt)) = PStr (mock_area prompt)
  ∧ food_name <$> recommendations (returned (query self http prompt))
    = [PStr "Momos"; PStr "Chaat"; PStr "Kulfi"]
  ∧ hygiene_rating <$> recommendations (returned (query self http prompt))
    = [PStr "Green"; PStr "Yellow"; PStr "Green"]
  ∧ _response_cache (client (query self http prompt)) !! _get_cache_key prompt
    = Some (returned (query self http prompt)).
Proof.
  intros Hkey Hc Hl. rewrite (KiroClientProps.query_uncached _ _ _ Hc).
  assert (Hs : _send_kiro_request self http prompt
               = (Ok (PStr (json_dumps (mock_reply_value (mock_area prompt)))),
                  [])).
  { unfold _send_kiro_request. by destruct Hkey as [-> | ->]. }
  rewrite Hs. simpl. unfold _parse_response, parse_body. rewrite Hl. simpl.
  split_and!; [done..|]. by rewrite lookup_insert_eq.
Qed.

End WithRuntime.

Lemma retry_until_success_witness :
  (_send_kiro_request (rt := example_runtime) Examples.client_with_key
     Examples.limited_once Examples.prompt_small).1 = Ok (PStr "[]")
  ∧ attempts (_send_kiro_request (rt := example_runtime)
                Examples.client_with_key Examples.limited_once
                Examples.prompt_small).2 = 2%nat.
Proof.
  apply (retry_until_success (rt := example_runtime) Examples.client_with_key
           Examples.limited_once Examples.prompt_small 1
           (Examples.chat_body "[]")
           (PDict [("choices",
                    PList [PDict [("message",
                                   PDict [("content", PStr "[]")])]])])
           (PStr "[]") "s" "k-demo").
  - reflexivity.
  - vm_compute. lia.
  - intros [|i] Hi; [reflexivity|lia].
  - reflexivity.
  - by vm_compute.
  - reflexivity.
Defined.

Lemma malformed_reply_not_retried_witness :
  _send_kiro_request (rt := example_runtime) Examples.client_with_key
    Examples.no_choices Examples.prompt_small
  = (Raise (failed_after Examples.client_with_key
              (Some "list index out of range")),
     [Post 0]).
Proof.
  apply (malformed_reply_not_retried (rt := example_runtime)
           Examples.client_with_key Examples.no_choices Examples.prompt_small
           ("{" +:+ Examples.quoted "choices" +:+ ": []}")
           (Exn IndexError "list index out of range") "s" "k-demo");
    [reflexivity|vm_compute; lia|reflexivity|by vm_compute|done|done].
Defined.

Lemma cached_reply_served_again_witness :
  _response_cache
    (client (query (rt := example_runtime) Examples.client_without_key
               Examples.always_timeout Examples.prompt_small))
    !! _get_cache_key (rt := example_runtime) Examples.prompt_small
  = Some (returned (query (rt := example_runtime) Examples.client_without_key
                      Examples.always_timeout Examples.prompt_small))
  ∧ query (rt := example_runtime)
      (client (query (rt := example_runtime) Examples.client_without_key
                 Examples.always_timeout Examples.prompt_small))
      Examples.always_429 Examples.prompt_small
    = mkOutcome
        (returned (query (rt := example_runtime) Examples.client_without_key
                     Examples.always_timeout Examples.prompt_small))
        (client (query (rt := example_runtime) Examples.client_without_key
                   Examples.always_timeout Examples.prompt_small))
        []
  ∧ query (rt := example_runtime)
      (clear_cache
         (client (query (rt := example_runtime) Examples.client_without_key
                    Examples.always_timeout Examples.prompt_small)))
      Examples.always_429 Examples.prompt_small
    = query (rt := example_runtime) (clear_cache Examples.client_without_key)
        Examples.always_429 Examples.prompt_small.
Proof.
  apply (cached_reply_served_again (rt := example_runtime)
           Examples.client_without_key Examples.always_timeout
           Examples.always_429 Examples.prompt_small
           (PStr (_get_mock_response (rt := example_runtime)
                    Examples.prompt_small))).
  - reflexivity.
  - reflexivity.
  - by vm_compute.
Defined.

Lemma parse_to_dict_witness :
  _parse_response (rt := example_runtime)
    (PStr (json_dumps (Runtime := example_runtime)
             (EngineQueries.to_dict (_create_fallback_response "x"))))
  = Ok (_create_fallback_response "x").
Proof.
  apply (parse_to_dict (rt := example_runtime)). by vm_compute.
Defined.

Lemma offline_substitute_witness :
  events (query (rt := example_runtime) Examples.client_without_key
            Examples.always_timeout Examples.prompt_small) = []
  ∧ area (returned (query (rt := example_runtime) Examples.client_without_key
                      Examples.always_timeout Examples.prompt_small))
    = PStr (mock_area (rt := example_runtime) Examples.prompt_small)
  ∧ food_name <$> recommendations
      (returned (query (rt := example_runtime) Examples.client_without_key
                   Examples.always_timeout Examples.prompt_small))
    = [PStr "Momos"; PStr "Chaat"; PStr "Kulfi"]
  ∧ hygiene_rating <$> recommendations
      (returned (query (rt := example_runtime) Examples.client_without_key
                   Examples.always_timeout Examples.prompt_small))
    = [PStr "Green"; PStr "Yellow"; PStr "Green"]
  ∧ _response_cache
      (client (query (rt := example_runtime) Examples.client_without_key
                 Examples.always_timeout Examples.prompt_small))
      !! _get_cache_key (rt := example_runtime) Examples.prompt_small
    = Some (returned (query (rt := example_runtime)
                        Examples.client_without_key Examples.always_timeout
                        Examples.prompt_small)).
Proof.
  apply (offline_substitute (rt := example_runtime)
           Examples.client_without_key Examples.always_timeout
           Examples.prompt_small).
  - by left.
  - reflexivity.
  - by vm_compute.
Defined.

End KiroClientExtras.

(** ** Code fences *)

Module FenceProps.
Import KiroClient Gateway StrProps.
#[local] Arguments String.append : simpl nomatch.

Section WithRuntime.
Context {rt : Runtime}.

Lemma strip_nl_around (s : string) :
  strip (String Re.nl "" +:+ s +:+ String Re.nl "") = strip s.
Proof.
  change (String Re.nl "" +:+ s +:+ String Re.nl "")
    with (String Re.nl (s +:+ String Re.nl "")).
  rewrite strip_space_l by done. by rewrite strip_space_r.
Qed.

Lemma fenced_graphic_ends (reply : string) :
  fenced reply
  = String "`" ("``json" +:+ String Re.nl "" +:+ reply +:+ String Re.nl ""
                +:+ "``") +:+ String "`" "".
Proof.
  unfold fenced. cbn [String.append]. rewrite !app_assoc. reflexivity.
Qed.

Lemma clean_fenced (reply : string) : clean_reply (fenced reply) = strip reply.
Proof.
  unfold clean_reply.
  assert (Hs : strip (fenced reply) = fenced reply).
  { rewrite fenced_graphic_ends. by apply strip_graphic. }
  rewrite Hs.
  change (startswith (fenced reply) "```json") with true. cbv iota.
  assert (Hd : str_drop 7 (fenced reply)
               = (String Re.nl "" +:+ reply +:+ String Re.nl "") +:+ "```").
  { rewrite !app_assoc. reflexivity. }
  rewrite Hd, endswith_app.
  change 3%nat with (len "```"). rewrite str_drop_last_app.
  apply strip_nl_around.
Qed.

Lemma clean_plain (reply : string) :
  startswith (strip reply) "```json" = false ->
  endswith (strip reply) "```" = false ->
  clean_reply reply = strip reply.
Proof.
  intros H1 H2. unfold clean_reply. rewrite H1. cbv iota. rewrite H2.
  apply strip_idem.
Qed.

(** X15. A reply wrapped in a Markdown code fence (a line [```json] before
    it and a line [```] after it) is cleaned to the reply with its outer
    white space removed; so whenever the reply does not itself start or end
    with a fence, [_parse_response] gives for the fenced reply exactly what
    it gives for the bare one, result or error. *)
Theorem fenced_reply_parses_alike (reply : string) :
  startswith (strip reply) "```json" = false ->
  endswith (strip reply) "```" = false ->
  clean_reply (fenced reply) = strip reply /\
  _parse_response (PStr (fenced reply)) = _parse_response (PStr reply).
Proof.
  intros H1 H2. split; [apply clean_fenced|].
  unfold _parse_response, parse_body.
  by rewrite clean_fenced, clean_plain.
Qed.

End WithRuntime.

Lemma fenced_reply_parses_alike_witness :
  clean_reply (rt := example_runtime) (fenced Examples.reply_blue)
  = strip (Runtime := example_runtime) Examples.reply_blue /\
  _parse_response (rt := example_runtime) (PStr (fenced Examples.reply_blue))
  = _parse_response (rt := example_runtime) (PStr Examples.reply_blue).
Proof.
  apply (fenced_reply_parses_alike (rt := example_runtime) Examples.reply_blue);
    vm_compute; reflexivity.
Defined.

End FenceProps.

(** ** More on the engine *)

Module EngineExtras.
Import ContextLoader KiroClient RecommendationEngine EngineQueries.

Section WithRuntime.
Context {rt : Runtime}.

Lemma clean_rec_rated (user_query : UserQuery) (rec : FoodRecommendation) :
  val_in (hygiene_rating (clean_rec user_query rec)) valid_ratings = true.
Proof.
  unfold clean_rec. cbn [hygiene_rating].
  by destruct (val_in (hygiene_rating rec) valid_ratings) eqn:E.
Qed.

Lemma fallback_yellow (user_query : UserQuery) (context : Context) :
  Forall (fun rec => hygiene_rating rec = PStr "Yellow")
    (recommendations (_create_fallback_recommendations user_query context)).
Proof.
  unfold _create_fallback_recommendations. simpl.
  destruct (get_area_foods context (PromptBuilder.area user_query)) as [|x l].
  - by repeat constructor.
  - apply Forall_fmap, Forall_true. done.
Qed.

Lemma nearby_areas_spec (area : string) (context : Context) :
  (length (_get_nearby_areas area context) ≤ 3)%nat
  ∧ (area ∉ _get_nearby_areas area context)
  ∧ (_get_nearby_areas area context ⊆ get_areas context).
Proof.
  unfold _get_nearby_areas, slice_to. split_and!.
  - rewrite length_take. lia.
  - intros Hin.
    pose proof (elem_of_sublist _ _ _ Hin (sublist_take _ _)) as Hf.
    by apply list_elem_of_filter in Hf as [? _].
  - intros x Hin.
    pose proof (elem_of_sublist _ _ _ Hin (sublist_take _ _)) as Hf.
    by apply list_elem_of_filter in Hf as [_ ?].
Qed.

(** X16.  The substitute the engine builds when the gateway's answer has no
    recommendation is under the resolved area, has between one and three
    recommendations, all rated ["Yellow"], and proposes at most three other
    areas, all of the document and none the area itself. *)
Theorem fallback_recommendations_shape (user_query : UserQuery)
  (context : Context) :
  let response := _create_fallback_recommendations user_query context in
  KiroClient.area response = PStr (PromptBuilder.area user_query)
  ∧ (1 ≤ length (recommendations response) ≤ 3)%nat
  ∧ Forall (fun rec => hygiene_rating rec = PStr "Yellow")
           (recommendations response)
  ∧ ∃ nearby,
      alternative_areas response = PList (PStr <$> nearby)
      ∧ (length nearby ≤ 3)%nat
      ∧ (PromptBuilder.area user_query ∉ nearby)
      ∧ (nearby ⊆ get_areas context).
Proof.
  intros response. subst response.
  split; [done|]. split; [|split].
  - unfold _create_fallback_recommendations. cbn [recommendations].
    destruct (get_area_foods context (PromptBuilder.area user_query)) as [|x l].
    + simpl. lia.
    + rewrite length_fmap. unfold slice_to. rewrite length_take.
      cbn [length]. lia.
  - apply fallback_yellow.
  - exists (_get_nearby_areas (PromptBuilder.area user_query) context).
    split; [done|]. apply nearby_areas_spec.
Qed.

Lemma post_process_rated (response : RecommendationResponse)
  (user_query : UserQuery) (context : Context) :
  Forall (fun rec => val_in (hygiene_rating rec) valid_ratings = true)
    (recommendations (_post_process_response response user_query context).1).
Proof.
  unfold _post_process_response.
  destruct (recommendations response) as [|r l] eqn:E; cbn [fst].
  - eapply Forall_impl; [apply fallback_yellow|]. by intros rec ->.
  - cbn [recommendations]. apply Forall_fmap, Forall_true.
    intros rec. apply clean_rec_rated.
Qed.

(** X17.  Whatever the document, the service and the reply, every
    recommendation [get_recommendations] returns carries one of the three
    ratings ["Green"], ["Yellow"], ["Red"]: a rating of the reply that is
    none of them, or is missing, has been replaced. *)
Theorem recommendations_rated (w : World)
  (area time_preference food_preferences budget_category : string) (self : t) :
  Forall (fun rec => val_in (hygiene_rating rec) valid_ratings = true)
    (recommendations
       (get_recommendations w area time_preference food_preferences
                            budget_category self).1.1).
Proof.
  unfold get_recommendations.
  destruct (_get_context w self) as [[context|e] self1];
    [|by repeat constructor].
  destruct (_process_area_input area context) as [processed_area|e];
    [|by repeat constructor].
  destruct (PromptBuilder.build_prompt context _ (prompt_builder self1))
    as [[prompt|e] builder]; [|by repeat constructor].
  pose proof (post_process_rated
                (returned (query (kiro_client (set_builder self1 builder))
                                 (http w) prompt))
                (mkUserQuery processed_area time_preference food_preferences
                             budget_category) context) as H.
  by destruct (_post_process_response _ _ _) as [processed response'].
Qed.

(** X18.  An area made of white space only is not refused: when the
    document lists areas, none of them the empty string, the stripped input
    is the empty string, which is part of every name, and the request is
    resolved to the first area listed. *)
Theorem blank_area_resolves_to_first (area : string) (context : Context)
  (first : string) (others : list string) :
  area ≠ "" →
  strip area = "" →
  get_areas context = first :: others →
  "" ∉ get_areas context →
  _process_area_input area context = Ok first.
Proof.
  intros Hne Hs Ha Hnin. unfold _process_area_input.
  destruct (String.eqb_spec area ""); [done|]. rewrite Hs.
  unfold str_in. rewrite bool_decide_eq_false_2 by done.
  rewrite (proj2 (RecommendationEngineProps.first_match_None _ _)).
  - rewrite Ha. unfold first_match. rewrite filter_cons.
    destruct (decide (partial_match "" first = true)) as [|Hp]; [done|].
    exfalso. apply Hp. unfold partial_match.
    rewrite (lower_ascii "") by done. by destruct (lower first).
  - intros x Hx. unfold same_ignoring_case.
    apply not_true_is_false. intros He%String.eqb_eq.
    rewrite (lower_ascii "") in He by done.
    symmetry in He. apply lower_nil in He. by subst x.
Qed.

Lemma put_error_empty (k : string) (v : option string)
  (errors : gmap string string) :
  put_error k v errors = ∅ ↔ v = None ∧ errors = ∅.
Proof.
  destruct v as [m|]; simpl.
  - split; [|by intros [? _]]. intros H. by apply insert_non_empty in H.
  - naive_solver.
Qed.

Lemma put_error_dom (k : string) (v : option string)
  (errors : gmap string string) :
  dom (put_error k v errors) ⊆ {[k]} ∪ dom errors.
Proof. destruct v as [m|]; simpl; [rewrite dom_insert|]; set_solver. Qed.

Lemma area_error_None (area : string) (context : Context) :
  area_error area context = None
  ↔ strip area ≠ "" ∧ area ∈ get_areas context.
Proof.
  unfold area_error, str_in.
  destruct (String.eqb_spec area "") as [->|Hne]; simpl;
    [split; [done|intros [H _]; by rewrite strip_nil in H]|].
  destruct (String.eqb_spec (strip area) "") as [Hs|Hs]; simpl;
    [by split; [|intros []]|].
  destruct (decide (area ∈ get_areas context)) as [Hin|Hnin].
  - by rewrite bool_decide_eq_true_2.
  - rewrite bool_decide_eq_false_2 by done. simpl.
    destruct (_find_similar_areas area (get_areas context));
      (split; [done|by intros []]).
Qed.

(** X19.  [validate_user_input] of the engine returns a dict in every
    case.  When the document is available, its keys are among ['area'],
    ['time_preference'] and ['budget_category'], and it is empty exactly when
    the area is not blank and is, as written, one of the document's areas,
    and the period and the budget are among the fixed values; the food
    preferences are never looked at.  When the document cannot be loaded, the
    only key is ['general']. *)
Theorem validate_user_input_verdict (w : World)
  (area time_preference food_preferences budget_category : string) (self : t) :
  let errors :=
    (validate_user_input w area time_preference food_preferences
                         budget_category self).1 in
  match (_get_context w self).1 with
  | Ok context =>
      (errors = ∅ ↔
       strip area ≠ "" ∧ area ∈ get_areas context
       ∧ time_preference ∈ valid_times ∧ budget_category ∈ valid_budgets)
      ∧ dom errors ⊆ {["area"; "time_preference"; "budget_category"]}
  | Raise e => errors = {["general" := "Validation error: " +:+ msg e]}
  end.
Proof.
  intros errors. subst errors. unfold validate_user_input.
  destruct (_get_context w self) as [[context|e] self1]; cbn [fst]; [|done].
  split.
  - rewrite !put_error_empty, area_error_None. unfold str_in.
    destruct (decide (time_preference ∈ valid_times));
      destruct (decide (budget_category ∈ valid_budgets));
      rewrite ?bool_decide_eq_true_2, ?bool_decide_eq_false_2 by done;
      naive_solver.
  - etrans; [apply put_error_dom|]. 
    pose proof (put_error_dom "time_preference"
      (if str_in time_preference valid_times then None
       else Some ("Time preference must be one of: " +:+ join ", " valid_times))
      (put_error "area" (area_error area context) ∅)).
    pose proof (put_error_dom "area" (area_error area context) ∅).
    set_solver.
Qed.

Lemma por_idem (a b : pyval) : por (por a b) b = por a b.
Proof. unfold por. destruct (truthy a) eqn:E; [by rewrite E|by destruct (truthy b)]. Qed.

Lemma clean_rec_idem (user_query : UserQuery) (rec : FoodRecommendation) :
  clean_rec user_query (clean_rec user_query rec) = clean_rec user_query rec.
Proof.
  unfold clean_rec. cbn [food_name location price_range crowd_info local_tip
                         hygiene_rating].
  rewrite !por_idem. f_equal.
  by destruct (val_in (hygiene_rating rec) valid_ratings) eqn:E; [rewrite E|].
Qed.

Lemma post_process_idem (response : RecommendationResponse)
  (user_query : UserQuery) (context : Context) :
  _post_process_response (_post_process_response response user_query context).2
                         user_query context
  = _post_process_response response user_query context.
Proof.
  unfold _post_process_response at 2 3.
  destruct (recommendations response) as [|r l] eqn:E; cbn [snd].
  - unfold _post_process_response. by rewrite E.
  - unfold _post_process_response.
    cbn [recommendations KiroClient.area alternative_areas local_context].
    rewrite fmap_cons. rewrite <- fmap_cons.
    assert (Hrecs : clean_rec user_query <$> (clean_rec user_query <$> r :: l)
                    = clean_rec user_query <$> r :: l).
    { rewrite <- list_fmap_compose. apply list_fmap_ext.
      intros i x _. apply clean_rec_idem. }
    rewrite fmap_cons at 1. rewrite <- fmap_cons, Hrecs.
    destruct (negb (truthy (KiroClient.area response))
              || eq_str (KiroClient.area response) "Unknown Area") eqn:Ha.
    + by destruct (negb (truthy (PStr (PromptBuilder.area user_query)))
                   || eq_str (PStr (PromptBuilder.area user_query))
                             "Unknown Area").
    + by rewrite Ha.
Qed.

Lemma get_context_ok (w : World) (self : t) (context : Context) :
  (_get_context w self).1 = Ok context →
  _context_cache (_get_context w self).2 = Some context.
Proof.
  unfold _get_context. destruct (_context_cache self) as [c|] eqn:E.
  - by intros [= <-].
  - destruct (load_product_context (fs w) (context_loader self)) as [[c|e] l];
      [|done].
    by intros [= <-].
Qed.

Lemma get_context_cached (w : World) (self : t) (context : Context) :
  _context_cache self = Some context →
  _get_context w self = (Ok context, self).
Proof. intros H. unfold _get_context. by rewrite H. Qed.

Lemma query_stored (self : KiroClient.t) (http : Service) (prompt : string)
  (stored : RecommendationResponse) :
  _response_cache (client (query self http prompt)) !! _get_cache_key prompt
  = Some stored →
  stored = returned (query self http prompt).
Proof.
  destruct (_response_cache self !! _get_cache_key prompt) as [cached|] eqn:Hc.
  - unfold query, query_body. rewrite Hc. simpl. congruence.
  - rewrite (KiroClientProps.query_uncached _ _ _ Hc).
    destruct (_send_kiro_request self http prompt) as [[raw|e] evs]; simpl;
      [|congruence].
    destruct (_parse_response raw) as [parsed|e]; simpl; [|congruence].
    rewrite lookup_insert_eq. congruence.
Qed.

Lemma query_hit (self : KiroClient.t) (http : Service) (prompt : string)
  (cached : RecommendationResponse) :
  _response_cache self !! _get_cache_key prompt = Some cached →
  query self http prompt = mkOutcome cached self [].
Proof. intros Hc. unfold query, query_body. by rewrite Hc. Qed.

Lemma get_recommendations_eq (w : World)
  (area time_preference food_preferences budget_category : string)
  (self self1 : t) (context : Context) (processed_area prompt : string) :
  _get_context w self = (Ok context, self1) →
  _process_area_input area context = Ok processed_area →
  (PromptBuilder.build_prompt context
     (mkUserQuery processed_area time_preference food_preferences
                  budget_category) (prompt_builder self1)).1 = Ok prompt →
  get_recommendations w area time_preference food_preferences budget_category
                      self
  = let out := query (kiro_client self1) (http w) prompt in
    let processed :=
      _post_process_response (returned out)
        (mkUserQuery processed_area time_preference food_preferences
                     budget_category) context in
    (processed.1,
     set_client self1 (write_through (client out) prompt processed.2),
     events out).
Proof.
  intros Hg Hp Hb. unfold get_recommendations. rewrite Hg, Hp.
  unfold PromptBuilder.build_prompt in *. cbn [fst] in Hb. rewrite Hb.
  destruct self1 as [l b k c]. cbn [set_builder prompt_builder kiro_client
                                    context_loader _context_cache].
  by destruct (_post_process_response _ _ _).
Qed.

(** X20.  A request repeated with the same four inputs is answered from
    memory.  When the first call had the document, resolved the area, built
    the payload and left the gateway's answer in the gateway's cache (it was
    there already, or the service's reply was parsed), the second call
    returns the same response as the first, makes no request and leaves the
    engine as the first call left it, whatever the file system and the
    service have become: the document is the one the engine kept, the answer
    is the cached object as the first call's post-processing left it, and
    post-processing it again changes nothing. *)
Theorem repeated_request_from_memory (w w' : World)
  (area time_preference food_preferences budget_category : string) (self : t)
  (context : Context) (processed_area prompt : string) :
  (_get_context w self).1 = Ok context →
  _process_area_input area context = Ok processed_area →
  (PromptBuilder.build_prompt context
     (mkUserQuery processed_area time_preference food_preferences
                  budget_category) (prompt_builder self)).1 = Ok prompt →
  is_Some (_response_cache (client (query (kiro_client self) (http w) prompt))
             !! _get_cache_key prompt) →
  let first :=
    get_recommendations w area time_preference food_preferences
                        budget_category self in
  get_recommendations w' area time_preference food_preferences
                      budget_category first.1.2
  = (first.1.1, first.1.2, []).
Proof.
  intros Hc Hp Hb [stored Hs] first. subst first.
  pose proof (get_context_ok w self context Hc) as Hcache.
  destruct (RecommendationEngineProps.get_context_client w self) as [Hk Hbu].
  destruct (_get_context w self) as [rc self1] eqn:Hg.
  cbn [fst snd] in *. subst rc. rewrite <- Hbu in Hb. rewrite <- Hk in Hs.
  rewrite (get_recommendations_eq w area time_preference food_preferences
             budget_category self self1 context processed_area prompt
             Hg Hp Hb).
  cbv zeta. cbn [fst snd].
  pose proof (query_stored _ _ _ _ Hs) as ->.
  set (out := query (kiro_client self1) (http w) prompt) in *.
  set (uq := mkUserQuery processed_area time_preference food_preferences
                         budget_category) in *.
  pose proof (post_process_idem (returned out) uq context) as Hidem.
  set (processed := _post_process_response (returned out) uq context) in *.
  assert (Hw : write_through (client out) prompt processed.2
               = set_cache (client out)
                   (<[_get_cache_key prompt := processed.2]>
                      (_response_cache (client out)))).
  { unfold write_through. by rewrite Hs. }
  set (self2 := set_client self1 (write_through (client out) prompt processed.2)).
  assert (Hc2 : _context_cache self2 = Some context) by done.
  assert (Hq : query (kiro_client self2) (http w') prompt
               = mkOutcome processed.2 (kiro_client self2) []).
  { apply query_hit. subst self2. cbn [kiro_client set_client]. rewrite Hw.
    cbn [_response_cache set_cache]. by rewrite lookup_insert_eq. }
  rewrite (get_recommendations_eq w' area time_preference food_preferences
             budget_category self2 self2 context processed_area prompt
             (get_context_cached w' self2 context Hc2) Hp Hb).
  cbv zeta. rewrite Hq. cbn [returned client events]. fold uq.
  rewrite Hidem. f_equal. f_equal. subst self2. rewrite !Hw.
  unfold write_through, set_client, set_cache.
  cbn [context_loader prompt_builder kiro_client _context_cache
       api_key api_url timeout max_retries retry_delay _response_cache].
  by rewrite lookup_insert_eq, insert_insert_eq.
Qed.

End WithRuntime.

Lemma blank_area_resolves_to_first_witness :
  _process_area_input (rt := example_runtime) "   " Examples.context_two_areas
  = Ok "Connaught Place".
Proof.
  apply (blank_area_resolves_to_first (rt := example_runtime) "   "
           Examples.context_two_areas
           "Connaught Place" ["Lajpat Nagar"]).
  - done.
  - reflexivity.
  - reflexivity.
  - apply (bool_decide_unpack _). by vm_compute.
Defined.

Lemma repeated_request_from_memory_witness :
  get_recommendations (rt := example_runtime) Examples.world_no_file
    "connaught place" "Evening" "momos" "Budget-friendly"
    (get_recommendations (rt := example_runtime) Examples.world_timeout
       "connaught place" "Evening" "momos" "Budget-friendly"
       Examples.engine_without_key).1.2
  = ((get_recommendations (rt := example_runtime) Examples.world_timeout
        "connaught place" "Evening" "momos" "Budget-friendly"
        Examples.engine_without_key).1.1,
     (get_recommendations (rt := example_runtime) Examples.world_timeout
        "connaught place" "Evening" "momos" "Budget-friendly"
        Examples.engine_without_key).1.2,
     []).
Proof.
  apply (repeated_request_from_memory (rt := example_runtime)
           Examples.world_timeout Examples.world_no_file
           "connaught place" "Evening" "momos" "Budget-friendly"
           Examples.engine_without_key
           (build_context (rt := example_runtime) Examples.doc_small)
           "Connaught Place"
           (default ""
              (match
                 (PromptBuilder.build_prompt (rt := example_runtime)
                    (build_context (rt := example_runtime) Examples.doc_small)
                    (mkUserQuery "Connaught Place" "Evening" "momos"
                                 "Budget-friendly")
                    PromptBuilder.__init__).1
               with
               | Ok prompt => Some prompt
               | Raise _ => None
               end))).
  - by vm_compute.
  - by vm_compute.
  - by vm_compute.
  - apply (bool_decide_unpack _). by vm_compute.
Defined.

End EngineExtras.

(** ** The engine's document and the health check *)

Module EngineContextExtras.
Import ContextLoader KiroClient RecommendationEngine.

Section WithRuntime.
Context {rt : Runtime}.

(** X21.  [refresh_context] empties the gateway's cache and drops the
    document the engine holds, but not the one the loader holds: the next
    call asks the loader, and when the file's modification time is the one
    the loader recorded, the document returned is again the loader's, the
    file is not read, and the engine keeps it from then on. *)
Theorem refresh_rereads_only_modified (w : World) (self : t) (f : File)
  (cached : Context) :
  fs w (context_file_path (context_loader self)) = Some f →
  _cached_context (context_loader self) = Some cached →
  _file_modified_time (context_loader self) = Some (mtime f) →
  _response_cache (kiro_client (refresh_context self)) = ∅
  ∧ _context_cache (refresh_context self) = None
  ∧ (_get_context w (refresh_context self)).1 = Ok cached
  ∧ ∀ w', _get_context w' (_get_context w (refresh_context self)).2
          = (Ok cached, (_get_context w (refresh_context self)).2).
Proof.
  intros Hf Hc Hm.
  assert (Hl : load_product_context (fs w) (context_loader self)
               = (Ok cached, context_loader self)).
  { unfold load_product_context. rewrite Hf, Hc, Hm.
    by rewrite bool_decide_eq_false_2 by (by intros []). }
  split_and!; [done|done| |].
  - unfold _get_context, refresh_context. simpl. by rewrite Hl.
  - intros w'. unfold _get_context at 2 3, refresh_context. simpl. rewrite Hl.
    done.
Qed.

End WithRuntime.

Lemma refresh_rereads_only_modified_witness :
  (_get_context (rt := example_runtime)
     (mkWorld (Examples.fs_with "now blank") Examples.always_timeout)
     (refresh_context
        (_get_context (rt := example_runtime) Examples.world_timeout
           Examples.engine_without_key).2)).1
  = Ok (build_context (rt := example_runtime) Examples.doc_small).
Proof.
  destruct (refresh_rereads_only_modified (rt := example_runtime)
              (mkWorld (Examples.fs_with "now blank") Examples.always_timeout)
              (_get_context (rt := example_runtime) Examples.world_timeout
                            Examples.engine_without_key).2
              (Examples.file_of "now blank")
              (build_context (rt := example_runtime) Examples.doc_small))
    as (_ & _ & H & _); [reflexivity|by vm_compute|reflexivity|exact H].
Defined.

End EngineContextExtras.

Module HealthProps.
Import KiroClient Gateway.

Section WithRuntime.
Context {rt : Runtime}.

Lemma attempt_ok_inv (self : t) (http : Service) (n : nat) (content : pyval) :
  attempt_body self http n = Ok (inl content) →
  ∃ text body,
    http n = Response 200 text
    ∧ json_loads text = Ok body ∧ extract_content body = Ok content.
Proof.
  unfold attempt_body. destruct (http n) as [status_code text|e]; [|done].
  destruct (Z.eqb_spec status_code 200) as [->|_].
  - destruct (json_loads text) as [body|e] eqn:Hl; simpl; [|done].
    destruct (extract_content body) as [c|e] eqn:Hc; simpl; [|done].
    intros [= <-]. by exists text, body.
  - destruct (status_code =? 429); [|done].
    by destruct (n + 1 <? max_retries self)%nat.
Qed.

Lemma request_loop_ok_inv (self : t) (http : Service) (remaining attempt : nat)
  (last_error : option string) (content : pyval) :
  (request_loop self http remaining attempt last_error).1 = Ok content →
  ∃ n, (attempt ≤ n < attempt + remaining)%nat
       ∧ attempt_body self http n = Ok (inl content).
Proof.
  revert attempt last_error.
  induction remaining as [|remaining IH]; intros attempt last_error; [done|].
  cbn [request_loop].
  assert (Hgo : ∀ le pause,
            (let '(r, evs) := request_loop self http remaining (S attempt) le in
             (r, Post attempt :: pause ++ evs)).1 = Ok content →
            ∃ n, (attempt ≤ n < attempt + S remaining)%nat
                 ∧ attempt_body self http n = Ok (inl content)).
  { intros le pause. rewrite KiroClientExtras.continue_result.
    intros (n & Hn & Hb)%IH. exists n. split; [lia|done]. }
  destruct (attempt_body self http attempt) as [[c|d]|e] eqn:Hb.
  - simpl. intros [= <-]. exists attempt. split; [lia|done].
  - apply Hgo.
  - destruct (cls e); try done; apply Hgo.
Qed.

(** X22.  [health_check] reports a healthy service without a credential,
    whatever the service does, since the canned reply stands in.  With a
    credential it reports a healthy service only if some attempt within the
    budget was answered 200 with a body that decodes and yields a content,
    and it does report one when that attempt comes after attempts that were
    answered 429 or ended in a timeout or a connection error; the content
    itself is not looked at. *)
Theorem health_check_verdict (self : t) (http : Service) :
  (api_key self = None ∨ api_key self = Some "" →
   health_check self http = true)
  ∧ (∀ a k, api_key self = Some (String a k) →
            health_check self http = true →
            ∃ n text body content,
              (n < max_retries self)%nat
              ∧ http n = Response 200 text
              ∧ json_loads text = Ok body
              ∧ extract_content body = Ok content)
  ∧ (∀ a k n text body content,
       api_key self = Some (String a k) →
       (n < max_retries self)%nat →
       (∀ i, (i < n)%nat → retryable (http i)) →
       http n = Response 200 text →
       json_loads text = Ok body →
       extract_content body = Ok content →
       health_check self http = true).
Proof.
  unfold health_check, _send_kiro_request. split_and!.
  - by intros [-> | ->].
  - intros a k ->.
    destruct (request_loop self http (max_retries self) 0 None).1
      as [content|e] eqn:Hr; [|done].
    intros _. apply request_loop_ok_inv in Hr as (n & Hn & Hb).
    apply attempt_ok_inv in Hb as (text & body & ? & ? & ?).
    exists n, text, body, content. split; [lia|done].
  - intros a k n text body content -> Hn Hretry Hhttp Hbody Hcontent.
    destruct (KiroClientExtras.request_loop_succeeds
                self http n content (max_retries self) 0 None)
      as [-> _]; [done|lia|done| | |done].
    + intros i Hi. apply Hretry. lia.
    + unfold attempt_body. rewrite Hhttp. simpl. rewrite Hbody. simpl.
      by rewrite Hcontent.
Qed.

End WithRuntime.

End HealthProps.

(** ** More on the payload *)

Module PromptBuilderExtras.
Import ContextLoader PromptBuilder.
#[local] Arguments String.append : simpl nomatch.

Section WithRuntime.
Context {rt : Runtime}.

Lemma prefix_app_l (p s z : string) :
  String.prefix p s = true → String.prefix p (s +:+ z) = true.
Proof.
  revert s. induction p as [|a p IH]; intros s.
  - intros _. by destruct (s +:+ z).
  - destruct s as [|b s]; simpl; [done|].
    destruct (ascii_dec a b); [apply IH|done].
Qed.

Lemma prefix_refl (s : string) : String.prefix s s = true.
Proof.
  induction s as [|a s IH]; simpl; [done|]. by destruct (ascii_dec a a).
Qed.

Lemma contains_refl (s : string) : contains s s = true.
Proof. destruct s; [done|]. cbn [contains]. by rewrite prefix_refl. Qed.

Lemma contains_app_r (x s sub : string) :
  contains s sub = true → contains (x +:+ s) sub = true.
Proof.
  intros H. induction x as [|a x IH]; cbn [contains String.append]; [done|].
  rewrite IH. apply orb_true_r.
Qed.

Lemma contains_app_l (s z sub : string) :
  contains s sub = true → contains (s +:+ z) sub = true.
Proof.
  induction s as [|a s IH]; cbn [contains String.append].
  - rewrite orb_false_r. destruct sub; [|done]. by destruct z.
  - intros [H|H]%orb_true_iff.
    + apply (prefix_app_l _ _ z) in H. cbn [String.append] in H. by rewrite H.
    + rewrite (IH H). apply orb_true_r.
Qed.

Lemma contains_join (sep : string) (l : list string) (s sub : string) :
  s ∈ l → contains s sub = true → contains (join sep l) sub = true.
Proof.
  intros Hin Hs. unfold join. induction l as [|x l IH]; [by apply elem_of_nil in Hin|].
  destruct l as [|y l].
  - apply list_elem_of_singleton in Hin as ->. done.
  - cbn [String.concat]. apply elem_of_cons in Hin as [<-|Hin].
    + by apply contains_app_l.
    + by apply contains_app_r, contains_app_r, IH.
Qed.

Lemma build_prompt_ok (context : Context) (user_query : UserQuery) (self : t)
  (prompt : string) :
  (build_prompt context user_query self).1 = Ok prompt →
  prompt = join (lf +:+ lf)
             [_build_system_section self; _build_context_section context;
              _build_user_query_section user_query;
              _build_response_format_section].
Proof.
  unfold build_prompt. cbn [fst].
  destruct (_validate_inputs context user_query) as [[]|e]; [|done].
  unfold try_except, mbind, result_bind, bind. by intros [= <-].
Qed.

(** X23.  [build_prompt] leaves the builder as it was and either returns
    a payload, for a document with at least one key and a query whose area is
    not empty, or raises a plain [Exception] whose message is
    ["Error building prompt: "] followed by the message of the check that
    failed, the check of the document first. *)
Theorem build_prompt_outcome (context : Context) (user_query : UserQuery)
  (self : t) :
  (build_prompt context user_query self).2 = self
  ∧ match (build_prompt context user_query self).1 with
    | Ok prompt =>
        context_is_empty context = false ∧ area user_query ≠ ""
    | Raise e =>
        cls e = Exception
        ∧ ((context_is_empty context = true
            ∧ msg e = "Error building prompt: Context cannot be empty")
           ∨ (context_is_empty context = false
              ∧ area user_query = ""
              ∧ msg e = "Error building prompt: User query must include an area"))
    end.
Proof.
  split; [done|]. unfold build_prompt, _validate_inputs, nonempty. cbn [fst].
  destruct (context_is_empty context); simpl; [by split; [|left]|].
  destruct (String.eqb_spec (area user_query) ""); simpl.
  - split; [done|]. by right.
  - done.
Qed.

(** X24.  The payload carries, verbatim, the builder's instructions, the
    whole text of the knowledge document and the resolved area on a line
    [Area: ...]. *)
Theorem prompt_carries_document (context : Context) (user_query : UserQuery)
  (self : t) (raw prompt : string) :
  raw_content context = Some raw →
  (build_prompt context user_query self).1 = Ok prompt →
  contains prompt (system_instructions self) = true
  ∧ contains prompt raw = true
  ∧ contains prompt ("Area: " +:+ area user_query) = true.
Proof.
  intros Hraw Hp. apply build_prompt_ok in Hp as ->. split_and!.
  - apply (contains_join _ _ (_build_system_section self));
      [by left|].
    unfold _build_system_section.
    apply contains_app_r, contains_app_r, contains_refl.
  - apply (contains_join _ _ (_build_context_section context));
      [by right; left|].
    unfold _build_context_section. rewrite Hraw.
    apply contains_app_r, contains_app_r.
    apply (contains_join _ _ raw); [|apply contains_refl].
    destruct (areas context) as [[|? ?]|];
      destruct (response_guidelines context) as [[|? ?]|];
      destruct (local_tips context) as [[|? ?]|];
      rewrite ?elem_of_app; repeat left; by right; left.
  - apply (contains_join _ _ (_build_user_query_section user_query));
      [by right; right; left|].
    unfold _build_user_query_section.
    apply (contains_join _ _ ("Area: " +:+ area user_query));
      [|apply contains_refl].
    by right; left.
Qed.

End WithRuntime.

Lemma prompt_carries_document_witness :
  contains
    (default ""
       (match
          (build_prompt (rt := example_runtime)
             (build_context (rt := example_runtime) Examples.doc_small)
             (mkUserQuery "Karol Bagh" "Evening" "" "Mid-range") __init__).1
        with
        | Ok prompt => Some prompt
        | Raise _ => None
        end))
    Examples.doc_small = true.
Proof.
  destruct (prompt_carries_document (rt := example_runtime)
              (build_context (rt := example_runtime) Examples.doc_small)
              (mkUserQuery "Karol Bagh" "Evening" "" "Mid-range") __init__
              Examples.doc_small
              (default ""
                 (match
                    (build_prompt (rt := example_runtime)
                       (build_context (rt := example_runtime)
                          Examples.doc_small)
                       (mkUserQuery "Karol Bagh" "Evening" "" "Mid-range")
                       __init__).1
                  with
                  | Ok prompt => Some prompt
                  | Raise _ => None
                  end)))
    as (_ & H & _); [by vm_compute|by vm_compute|exact H].
Defined.

End PromptBuilderExtras.

(** ** The simplified engine and the front end's checks *)

Module SimpleBackendExtras.
Import SimpleBackend.

Section WithRuntime.
Context {rt : Runtime}.

Lemma load_areas_grow (fs : ContextLoader.FS) (self : t) (a : string) :
  a ∈ areas self → a ∈ areas (_load_simple_context fs self).2.
Proof.
  intros Ha. unfold _load_simple_context.
  destruct (fs (_context_file_path self)) as [f|]; [|done].
  assert (Hreload :
    a ∈ areas
          (match ContextLoader.read f with
           | Raise e => (not_loaded (Some (msg e)), self)
           | Ok content =>
               let cache :=
                 mkSimpleContext content true (Some (ContextLoader.mtime f))
                                 None in
               let areas_from_content :=
                 Re.group 1 <$> Re.re_findall ContextLoader.area_pattern content in
               let areas :=
                 match areas_from_content with
                 | [] => areas self
                 | _ => ContextLoader.sorted_set (areas_from_content ++ areas self)
                 end in
               (cache,
                mkSimple areas (Some cache) (_context_file_path self)
                         (Some (ContextLoader.mtime f)) (context self))
           end).2).
  { destruct (ContextLoader.read f) as [content|e]; [|done]. cbn [snd areas].
    destruct (Re.group 1 <$> Re.re_findall ContextLoader.area_pattern content)
      as [|x l]; [done|].
    apply ContextLoaderProps.sorted_set_elem, elem_of_app. by right. }
  destruct (_context_cache self) as [cached|]; [|done].
  by case_bool_decide.
Qed.

Lemma load_areas_shape (fs : ContextLoader.FS) (self : t) :
  areas (_load_simple_context fs self).2 = areas self
  ∨ (StronglySorted String.le (areas (_load_simple_context fs self).2)
     ∧ NoDup (areas (_load_simple_context fs self).2)).
Proof.
  unfold _load_simple_context.
  destruct (fs (_context_file_path self)) as [f|]; [|by left].
  assert (Hreload : ∀ r : SimpleContext * t,
    r = match ContextLoader.read f with
        | Raise e => (not_loaded (Some (msg e)), self)
        | Ok content =>
            let cache :=
              mkSimpleContext content true (Some (ContextLoader.mtime f))
                              None in
            let areas_from_content :=
              Re.group 1 <$> Re.re_findall ContextLoader.area_pattern content in
            let areas :=
              match areas_from_content with
              | [] => areas self
              | _ => ContextLoader.sorted_set (areas_from_content ++ areas self)
              end in
            (cache,
             mkSimple areas (Some cache) (_context_file_path self)
                      (Some (ContextLoader.mtime f)) (context self))
        end →
    areas r.2 = areas self
    ∨ (StronglySorted String.le (areas r.2) ∧ NoDup (areas r.2))).
  { intros r ->. destruct (ContextLoader.read f) as [content|e]; [|by left].
    cbn [snd areas].
    destruct (Re.group 1 <$> Re.re_findall ContextLoader.area_pattern content)
      as [|x l]; [by left|].
    right. split; [apply ContextLoaderProps.sorted_set_sorted
                  |apply ContextLoaderProps.sorted_set_NoDup]. }
  destruct (_context_cache self) as [cached|]; [|by apply Hreload].
  case_bool_decide; [by apply Hreload|by left].
Qed.

(** X25.  The simplified engine never forgets an area: loading the
    document can only add the headings it finds, so every area known before
    [refresh_context] is known after it, and the twelve areas the front end
    offers are known to every engine just built, whatever the file system
    holds.  After a reload the list is either the one before or sorted and
    without duplicates. *)
Theorem areas_only_grow (fs : ContextLoader.FS) (self : t) :
  (∀ a, a ∈ areas self → a ∈ areas (refresh_context fs self).2)
  ∧ (∀ a, a ∈ App.load_areas → a ∈ get_areas_list (recommendation_engine fs))
  ∧ (areas (refresh_context fs self).2 = areas self
     ∨ (StronglySorted String.le (areas (refresh_context fs self).2)
        ∧ NoDup (areas (refresh_context fs self).2))).
Proof.
  split_and!.
  - intros a Ha. unfold refresh_context.
    pose proof (load_areas_grow fs
                  (mkSimple (areas self) None (_context_file_path self) None
                            (context self)) a Ha) as H.
    by destruct (_load_simple_context fs _) as [c self'].
  - intros a Ha. unfold get_areas_list, recommendation_engine, __init__.
    pose proof (load_areas_grow fs
                  (mkSimple initial_areas None
                     ".kiro/specs/delhi-street-food-app/product.md" None
                     (not_loaded None)) a Ha) as H.
    by destruct (_load_simple_context fs _) as [c self'].
  - unfold refresh_context.
    pose proof (load_areas_shape fs
                  (mkSimple (areas self) None (_context_file_path self) None
                            (context self))) as H.
    by destruct (_load_simple_context fs _) as [c self'].
Qed.

(** X26.  The simplified engine answers every request under the area as
    given, with between one and three recommendations, each a dict rated
    ["Green"] or ["Yellow"], and with at most three other areas, all known
    to the engine and none the area asked for. *)
Theorem simple_recommendations_shape (self : t)
  (area time_preference food_preferences budget_category : string) :
  ∃ recs alts note,
    get_recommendations self area time_preference food_preferences
                        budget_category
    = PDict [("area", PStr area); ("recommendations", PList recs);
             ("alternative_areas", PList (PStr <$> alts));
             ("local_context", PStr note)]
    ∧ (1 ≤ length recs ≤ 3)%nat
    ∧ Forall (fun rec =>
                ∃ d, rec = PDict d
                     ∧ (dict_get "hygiene_rating" PNone d = PStr "Green"
                        ∨ dict_get "hygiene_rating" PNone d = PStr "Yellow"))
             recs
    ∧ (length alts ≤ 3)%nat
    ∧ (area ∉ alts)
    ∧ (alts ⊆ areas self).
Proof.
  eexists (area_recommendations area),
          (slice_to 3 (filter (fun a => a ≠ area) (areas self))), _.
  split; [reflexivity|]. split; [|split; [|split_and!]].
  - unfold area_recommendations.
    repeat (case_match; [simpl; lia|]). simpl. lia.
  - unfold area_recommendations, rec_dict.
    repeat case_match;
      repeat (apply Forall_cons; split; [eexists; split; [reflexivity|]|]);
      try apply Forall_nil; cbn; auto.
  - unfold slice_to. rewrite length_take. lia.
  - intros Hin.
    pose proof (elem_of_sublist _ _ _ Hin (sublist_take _ _)) as Hf.
    by apply list_elem_of_filter in Hf as [? _].
  - intros x Hin.
    pose proof (elem_of_sublist _ _ _ Hin (sublist_take _ _)) as Hf.
    by apply list_elem_of_filter in Hf as [_ ?].
Qed.

Lemma app_nil_3 (a b c : list string) :
  a ++ b ++ c = [] ↔ a = [] ∧ b = [] ∧ c = [].
Proof.
  split; [|by intros (-> & -> & ->)].
  intros (-> & (-> & ->)%app_eq_nil)%app_eq_nil. done.
Qed.

(** X27.  The two input checks that return a list of messages return at
    most three, and none exactly when: for the simplified engine, the area is
    one the engine knows, as written, and not empty; for the front end, the
    area is not blank; and for both the period and the budget are among the
    fixed values.  The food preferences are not looked at. *)
Theorem input_checks_verdict (self : t)
  (area time_preference food_preferences budget_category : string) :
  (validate_user_input self area time_preference food_preferences
                       budget_category = []
   ↔ area ≠ "" ∧ area ∈ areas self
     ∧ time_preference ∈ valid_times ∧ budget_category ∈ valid_budgets)
  ∧ (App.validate_user_input area time_preference food_preferences
                             budget_category = []
     ↔ strip area ≠ ""
       ∧ time_preference ∈ valid_times ∧ budget_category ∈ valid_budgets)
  ∧ (length (validate_user_input self area time_preference food_preferences
                                 budget_category) ≤ 3)%nat
  ∧ (length (App.validate_user_input area time_preference food_preferences
                                     budget_category) ≤ 3)%nat.
Proof.
  unfold validate_user_input, App.validate_user_input, str_in.
  split_and!.
  - rewrite app_nil_3.
    destruct (String.eqb_spec area "");
      destruct (decide (area ∈ areas self));
      destruct (decide (time_preference ∈ valid_times));
      destruct (decide (budget_category ∈ valid_budgets));
      rewrite ?bool_decide_eq_true_2, ?bool_decide_eq_false_2 by done;
      simpl; naive_solver.
  - rewrite app_nil_3.
    assert (Hblank : String.eqb area "" || String.eqb (strip area) "" = true
                     ↔ strip area = "").
    { destruct (String.eqb_spec area "") as [->|];
        [split; [intros _; apply strip_nil|done]|].
      simpl. by rewrite String.eqb_eq. }
    destruct (String.eqb area "" || String.eqb (strip area) "");
      destruct (decide (time_preference ∈ valid_times));
      destruct (decide (budget_category ∈ valid_budgets));
      rewrite ?bool_decide_eq_true_2, ?bool_decide_eq_false_2 by done;
      simpl; naive_solver.
  - rewrite !length_app.
    repeat case_match; simpl; lia.
  - rewrite !length_app.
    repeat case_match; simpl; lia.
Qed.

End WithRuntime.

End SimpleBackendExtras.

(** ** Text kept by the other extractors *)

Module ExtractorExtras.
Import Re ContextLoader.

Section WithRuntime.
Context {rt : Runtime}.

Lemma foldl_budget_lower (ms : list caps) (acc : gmap string BudgetCat) :
  (∀ k, k ∈ dom acc → lower k = k) →
  ∀ k, k ∈ dom (foldl budget_step acc ms) → lower k = k.
Proof.
  revert acc. induction ms as [|m ms IH]; intros acc Hacc; [done|].
  cbn [foldl]. apply IH. intros k. unfold budget_step.
  rewrite dom_insert, elem_of_union, elem_of_singleton.
  intros [->|Hk]; [apply lower_idem|by apply Hacc].
Qed.

(** X28.  Every local tip kept has been stripped of surrounding white
    space, and every key of the budget categories is in lower case: the text
    of a heading is lowered before it becomes a key. *)
Theorem extracted_text_normalised (content : string) :
  Forall (fun tip => strip tip = tip) (_extract_local_tips content)
  ∧ ∀ category,
      category ∈ dom (_extract_budget_categories content) →
      lower category = category.
Proof.
  split.
  - unfold _extract_local_tips, tip_patterns. cbn [foldl].
    rewrite !Forall_app.
    split_and!;
      first [by apply Forall_nil
            |apply Forall_fmap, Forall_true; intros m; apply strip_idem].
  - apply foldl_budget_lower. intros k Hk. by rewrite dom_empty in Hk.
Qed.

End WithRuntime.

End ExtractorExtras.
